(** * SILO weather client: a shallow embedding of [silo_api.py]

    The development follows the Python module [silo_api.py] function by
    function.  Tables are [pandas] data frames; a frame is modelled as a
    date index together with an ordered list of named columns, a cell is
    an integer of 64 bits, a binary64 float or a string, and the null
    marker is the IEEE not-a-number, exactly as [pandas] stores it.  The
    type of a column is the one [pandas] infers from its cells, and the
    operations that depend on it (the string form of a code, the sum of
    two columns, the shift, the rows of [iterrows]) read the cells through
    it.  Timestamps of the index are always midnights, so a date is the
    number of days since 1970-01-01.  Library calls whose code is not part
    of the module ([pd.read_csv], [pd.to_numeric], [pd.to_datetime], the
    [repr] of a float) are parameters of the sections that use them; the
    sums behind [Series.mean] and [groupby(...).mean] follow [numpy] and
    [pandas]. *)

From Stdlib Require Import ZArith List Bool Lia Ascii String DecimalString.
From Stdlib Require Import Floats Uint63 Sorting.Sorted Permutation.
Import ListNotations.

Set Warnings "-inexact-float".

Open Scope string_scope.
Open Scope Z_scope.

(* ================================================================== *)
(** ** Python strings (ASCII payloads) *)
(* ================================================================== *)

Module PyStr.

(** [c.isupper()] for an ASCII letter. *)
Definition is_upper (c : ascii) : bool :=
  let n := nat_of_ascii c in (65 <=? n)%nat && (n <=? 90)%nat.

Definition lower_char (c : ascii) : ascii :=
  if is_upper c then ascii_of_nat (nat_of_ascii c + 32) else c.

(** [s.lower()] *)
Fixpoint lower (s : string) : string :=
  match s with
  | EmptyString => EmptyString
  | String c t => String (lower_char c) (lower t)
  end.

(** [c.isspace()] on ASCII: tab, line feed, vertical tab, form feed,
    carriage return, the four separators 0x1c-0x1f and the blank. *)
Definition is_space (c : ascii) : bool :=
  let n := nat_of_ascii c in
  ((9 <=? n)%nat && (n <=? 13)%nat) || ((28 <=? n)%nat && (n <=? 32)%nat).

Definition is_digit (c : ascii) : bool :=
  let n := nat_of_ascii c in (48 <=? n)%nat && (n <=? 57)%nat.

Fixpoint lstrip (s : string) : string :=
  match s with
  | EmptyString => EmptyString
  | String c t => if is_space c then lstrip t else s
  end.

Fixpoint rstrip (s : string) : string :=
  match s with
  | EmptyString => EmptyString
  | String c t =>
      match rstrip t with
      | EmptyString => if is_space c then EmptyString else String c EmptyString
      | t' => String c t'
      end
  end.

(** [s.strip()] *)
Definition strip (s : string) : string := rstrip (lstrip s).

(** [needle in hay] *)
Fixpoint contains (needle hay : string) : bool :=
  String.prefix needle hay ||
  match hay with
  | EmptyString => false
  | String _ t => contains needle t
  end.

(** [s.split(sep)] for a one-character separator. *)
Fixpoint split (sep : ascii) (s : string) : list string :=
  match s with
  | EmptyString => [EmptyString]
  | String c t =>
      if Ascii.eqb c sep then EmptyString :: split sep t
      else match split sep t with
           | h :: r => String c h :: r
           | [] => [String c EmptyString]
           end
  end.

(** [sep.join(l)] *)
Fixpoint join (sep : string) (l : list string) : string :=
  match l with
  | [] => EmptyString
  | [s] => s
  | s :: r => s ++ sep ++ join sep r
  end.

(** [s.isdigit()]: non-empty and made of digits. *)
Fixpoint all_digits (s : string) : bool :=
  match s with
  | EmptyString => true
  | String c t => is_digit c && all_digits t
  end.

Definition isdigit (s : string) : bool :=
  match s with EmptyString => false | _ => all_digits s end.

Fixpoint replicate (n : nat) (c : ascii) : string :=
  match n with O => EmptyString | S k => String c (replicate k c) end.

(** [s.rjust(w)], which is also what the format spec [>w s] produces. *)
Definition rjust (w : nat) (s : string) : string :=
  replicate (w - String.length s) " "%char ++ s.

(** [s.zfill(w)]: zeros go after a leading sign. *)
Definition zfill (w : nat) (s : string) : string :=
  let zeros := replicate (w - String.length s) "0"%char in
  match s with
  | String c t =>
      if Ascii.eqb c "+"%char || Ascii.eqb c "-"%char
      then String c (zeros ++ t)
      else zeros ++ s
  | EmptyString => zeros
  end.

(** [str(z)] for a Python [int]. *)
Definition of_Z (z : Z) : string := NilZero.string_of_int (Z.to_int z).

(** [repr(s)] for a string of code points below 256.  The quote is the
    apostrophe, or the double quote when the string holds an apostrophe
    and no double quote; the quote and the backslash are escaped, the
    three blanks below have a letter, any other character that does not
    print is written in hexadecimal. *)
Definition apostrophe : ascii := ascii_of_nat 39.
Definition double_quote : ascii := ascii_of_nat 34.
Definition backslash : ascii := ascii_of_nat 92.

Fixpoint has_char (c : ascii) (s : string) : bool :=
  match s with
  | EmptyString => false
  | String d t => Ascii.eqb c d || has_char c t
  end.

Definition hex_digit (n : nat) : ascii :=
  if (n <? 10)%nat then ascii_of_nat (48 + n) else ascii_of_nat (87 + n).

(** [c.isprintable()] below 256: no control character, no blank but the
    space, no soft hyphen. *)
Definition is_printable (c : ascii) : bool :=
  let n := nat_of_ascii c in
  ((32 <=? n)%nat && (n <=? 126)%nat) || ((161 <=? n)%nat && negb (n =? 173)%nat).

Definition repr_char (quote c : ascii) : string :=
  let n := nat_of_ascii c in
  if Ascii.eqb c quote || Ascii.eqb c backslash
  then String backslash (String c EmptyString)
  else if (n =? 9)%nat then String backslash "t"
  else if (n =? 10)%nat then String backslash "n"
  else if (n =? 13)%nat then String backslash "r"
  else if is_printable c then String c EmptyString
  else String backslash
         (String "x"%char
            (String (hex_digit (n / 16)) (String (hex_digit (n mod 16)) EmptyString))).

Fixpoint repr_body (quote : ascii) (s : string) : string :=
  match s with
  | EmptyString => EmptyString
  | String c t => repr_char quote c ++ repr_body quote t
  end.

Definition repr (s : string) : string :=
  let quote :=
    if has_char apostrophe s && negb (has_char double_quote s)
    then double_quote else apostrophe in
  String quote (repr_body quote s ++ String quote EmptyString).

Definition repr_list (l : list string) : string :=
  "[" ++ join ", " (map repr l) ++ "]".

(** The value of a run of decimal digits. *)
Fixpoint digits_value (acc : Z) (s : string) : Z :=
  match s with
  | EmptyString => acc
  | String c t => digits_value (10 * acc + (Z.of_nat (nat_of_ascii c) - 48)) t
  end.

End PyStr.

(* ================================================================== *)
(** ** Python floats *)
(* ================================================================== *)

Module PyFloat.

Definition nan : float := PrimFloat.nan.

(** [float(z)]: the binary64 nearest to the integer, ties to even. *)
Definition of_Z (z : Z) : float := SF2Prim (binary_normalize prec emax z 0 false).

(** Round the rational [n / 2^k] to the nearest integer, ties to even. *)
Definition round_half_even_shift (n : Z) (k : Z) : Z :=
  let d := Z.pow 2 k in
  let q := n / d in
  let r := n mod d in
  match Z.compare (2 * r) d with
  | Lt => q
  | Gt => q + 1
  | Eq => if Z.even q then q else q + 1
  end.

(** The digits of [|x| * 10^p] rounded to an integer, for a finite [x]
    of mantissa [m] and exponent [e]. *)
Definition scaled (p : nat) (m : positive) (e : Z) : Z :=
  let n := Z.pos m * Z.pow 10 (Z.of_nat p) in
  if 0 <=? e then n * Z.pow 2 e else round_half_even_shift n (- e).

Definition fixed_digits (p : nat) (sign : bool) (n : Z) : string :=
  let pw := Z.pow 10 (Z.of_nat p) in
  let ip := PyStr.of_Z (n / pw) in
  let fp := PyStr.of_Z (n mod pw) in
  let frac :=
    PyStr.replicate (p - String.length fp) "0"%char ++ fp in
  (if sign then "-" else "") ++ ip ++
  match p with O => "" | _ => "." ++ frac end.

(** [format(x, '.pf')]: correctly rounded fixed-point notation. *)
Definition format_f (p : nat) (x : float) : string :=
  match Prim2SF x with
  | S754_nan => "nan"
  | S754_infinity s => if s then "-inf" else "inf"
  | S754_zero s => fixed_digits p s 0
  | S754_finite s m e => fixed_digits p s (scaled p m e)
  end.

End PyFloat.

(* ================================================================== *)
(** ** The 64-bit integers of numpy *)
(* ================================================================== *)

Module Int64.

(** The representative of an integer in [-2^63, 2^63). *)
Definition wrap (z : Z) : Z := (z + 2 ^ 63) mod 2 ^ 64 - 2 ^ 63.

(** [x + y] on [int64]: the sum wraps around. *)
Definition add (x y : Z) : Z := wrap (x + y).

End Int64.

(* ================================================================== *)
(** ** Calendar: dates as days since 1970-01-01 *)
(* ================================================================== *)

Module Calendar.

(** Proleptic Gregorian day number of a civil date. *)
Definition days_from_civil (y m d : Z) : Z :=
  let y' := if m <=? 2 then y - 1 else y in
  let era := y' / 400 in
  let yoe := y' - era * 400 in
  let mp := if 2 <? m then m - 3 else m + 9 in
  let doy := (153 * mp + 2) / 5 + d - 1 in
  let doe := yoe * 365 + yoe / 4 - yoe / 100 + doy in
  era * 146097 + doe - 719468.

(** Civil date [(year, month, day)] of a day number. *)
Definition civil_from_days (z : Z) : Z * Z * Z :=
  let z := z + 719468 in
  let era := z / 146097 in
  let doe := z - era * 146097 in
  let yoe := (doe - doe / 1460 + doe / 36524 - doe / 146096) / 365 in
  let doy := doe - (365 * yoe + yoe / 4 - yoe / 100) in
  let mp := (5 * doy + 2) / 153 in
  let d := doy - (153 * mp + 2) / 5 + 1 in
  let m := if mp <? 10 then mp + 3 else mp - 9 in
  let y := yoe + era * 400 in
  ((if m <=? 2 then y + 1 else y), m, d).

(** [date.year] *)
Definition year (z : Z) : Z := fst (fst (civil_from_days z)).

(** [date.month] *)
Definition month (z : Z) : Z := snd (fst (civil_from_days z)).

(** [date.dayofyear], 1 to 366. *)
Definition dayofyear (z : Z) : Z := z - days_from_civil (year z) 1 1 + 1.

Definition is_leap (y : Z) : bool :=
  ((y mod 4 =? 0) && negb (y mod 100 =? 0)) || (y mod 400 =? 0).

Definition days_in_month (y m : Z) : Z :=
  if m =? 2 then (if is_leap y then 29 else 28)
  else if (m =? 4) || (m =? 6) || (m =? 9) || (m =? 11) then 30 else 31.

End Calendar.

(* ================================================================== *)
(** ** Data frames and exceptions *)
(* ================================================================== *)

(** A cell of a frame: a Python [int], [float] or [str]. *)
Inductive cell : Type :=
| Int (z : Z)
| Float (f : float)
| Str (s : string).

(** [np.nan], the null marker. *)
Definition NaN : cell := Float PyFloat.nan.

(** [pd.notna(c)] *)
Definition notna (c : cell) : bool :=
  match c with
  | Float f => negb (PrimFloat.is_nan f)
  | _ => true
  end.

Definition isna (c : cell) : bool := negb (notna c).

Definition is_int (c : cell) : bool :=
  match c with Int _ => true | _ => false end.

(** A cell that is a number, the null marker included. *)
Definition is_number (c : cell) : bool :=
  match c with Str _ => false | _ => true end.

(** The type [pandas] gives a column: [int64] when it holds integers
    only, [float64] when it holds numbers and one of them is a float (a
    null is one), [object] when a cell is a string.  An [Int] is an
    [int64]; an object column of numbers alone is outside the model. *)
Inductive dtype : Type := int64 | float64 | object.

Definition dtype_of (col : list cell) : dtype :=
  if forallb is_int col then int64
  else if forallb is_number col then float64
  else object.

(** An integer as it is kept in a [float64] column. *)
Definition as_float (c : cell) : cell :=
  match c with
  | Int z => Float (PyFloat.of_Z z)
  | _ => c
  end.

(** The cells of a column as [pandas] holds them: in a [float64] column
    every integer is a float. *)
Definition values (col : list cell) : list cell :=
  match dtype_of col with
  | float64 => map as_float col
  | _ => col
  end.

(** A date-indexed frame.  Every column is as long as the index. *)
Record DataFrame : Type := mkDataFrame {
  index : list Z;
  columns : list (string * list cell)
}.

(** [list(df.columns)] *)
Definition column_names (df : DataFrame) : list string := map fst (columns df).

Fixpoint lookup_column (name : string) (cols : list (string * list cell))
  : option (list cell) :=
  match cols with
  | [] => None
  | (n, c) :: rest => if String.eqb n name then Some c else lookup_column name rest
  end.

(** [df[name]] (column labels are unique). *)
Definition get_column (name : string) (df : DataFrame) : option (list cell) :=
  lookup_column name (columns df).

(** [name in df.columns] *)
Definition has_column (name : string) (df : DataFrame) : bool :=
  existsb (String.eqb name) (column_names df).

Fixpoint assign_column (name : string) (data : list cell)
  (cols : list (string * list cell)) : list (string * list cell) :=
  match cols with
  | [] => [(name, data)]
  | (n, c) :: rest =>
      if String.eqb n name then (n, data) :: rest
      else (n, c) :: assign_column name data rest
  end.

(** [df[name] = data] *)
Definition set_column (name : string) (data : list cell) (df : DataFrame) : DataFrame :=
  mkDataFrame (index df) (assign_column name data (columns df)).

(** [len(df)] *)
Definition len (df : DataFrame) : nat := List.length (index df).

(** The exceptions the module raises or lets through. *)
Inductive Error : Type :=
| SILOAPIError (msg : string)
| InvalidCoordinatesError (msg : string)
| AuthenticationError (msg : string)
| MissingVariableError (msg : string)
| ValueError (msg : string)
| TypeError (msg : string)
| OverflowError (msg : string)
| KeyError (msg : string).

Definition Result (A : Type) : Type := Error + A.

Definition bind {A B : Type} (r : Result A) (k : A -> Result B) : Result B :=
  match r with
  | inl e => inl e
  | inr a => k a
  end.

Notation "x <- r ;; k" := (bind r (fun x => k))
  (at level 61, r at next level, right associativity).

Definition raise {A : Type} (e : Error) : Result A := inl e.
Definition ret {A : Type} (a : A) : Result A := inr a.

(* ================================================================== *)
(** ** Class constants of [SILOWeatherAPI] *)
(* ================================================================== *)

(** [FAO56_MAPPING], in declaration order. *)
Definition FAO56_MAPPING : list (string * string) :=
  [ ("Date", "date");
    ("Rain", "daily_rain");
    ("Rainfall", "daily_rain");
    ("T.Max", "max_temp");
    ("T.Min", "min_temp");
    ("VP", "vp");
    ("Radn", "radiation");
    ("Radiation", "radiation");
    ("FAO56", "et_short_crop");
    ("Evap", "evap_pan");
    ("Evaporation", "evap_pan") ].

(** [DAILY_MAPPING], in declaration order. *)
Definition DAILY_MAPPING : list (string * string) :=
  [ ("Date", "date");
    ("Rain", "daily_rain");
    ("Tmax", "max_temp");
    ("Tmin", "min_temp");
    ("VP", "vp");
    ("Radiation", "radiation");
    ("FAO56", "et_short_crop");
    ("Evap", "evap_pan") ].

Definition REQUIRED_VARIABLES : list string :=
  [ "daily_rain"; "max_temp"; "min_temp"; "vp"; "radiation";
    "et_short_crop"; "evap_pan" ].

Definition LAT_MIN : float := (-44.0)%float.
Definition LAT_MAX : float := (-10.0)%float.
Definition LON_MIN : float := (112.0)%float.
Definition LON_MAX : float := (154.0)%float.

(** [MISSING_CODES = [-9999, -99.9, -999, -99]] *)
Definition MISSING_CODES : list cell :=
  [ Int (-9999); Float (-99.9)%float; Int (-999); Int (-99) ].

(* ================================================================== *)
(** ** Frame operations used by the module *)
(* ================================================================== *)

(** Rows of a column picked by position ([Series.take]). *)
Definition take_rows (positions : list nat) (col : list cell) : list cell :=
  map (fun i => nth i col NaN) positions.

Fixpoint insert_by_date (x : Z * nat) (l : list (Z * nat)) : list (Z * nat) :=
  match l with
  | [] => [x]
  | y :: r => if fst x <=? fst y then x :: l else y :: insert_by_date x r
  end.

(** The row order of [sort_index]: ascending dates.  Rows of equal date
    are kept here in their input order; [pandas] sorts with a quicksort
    that promises no order among them, so nothing below relies on it. *)
Definition sorted_order (idx : list Z) : list (Z * nat) :=
  fold_right insert_by_date [] (combine idx (seq 0 (List.length idx))).

(** [df.sort_index()] *)
Definition sort_index (df : DataFrame) : DataFrame :=
  let order := sorted_order (index df) in
  mkDataFrame (map fst order)
    (map (fun nc => (fst nc, take_rows (map snd order) (snd nc))) (columns df)).

(** Position of the first occurrence of a date in an index. *)
Fixpoint index_of (d : Z) (idx : list Z) : option nat :=
  match idx with
  | [] => None
  | x :: r => if x =? d then Some O
              else match index_of d r with Some i => Some (S i) | None => None end
  end.

(** [not idx.is_unique] *)
Fixpoint has_duplicates (idx : list Z) : bool :=
  match idx with
  | [] => false
  | x :: r => existsb (Z.eqb x) r || has_duplicates r
  end.

(** [pd.date_range(start, end, freq='D')] *)
Definition date_range (start stop : Z) : list Z :=
  map (fun k => start + Z.of_nat k) (seq 0 (Z.to_nat (stop - start + 1))).

(** [idx.min()] and [idx.max()] of a non-empty index. *)
Definition index_min (idx : list Z) : Z :=
  match idx with [] => 0 | x :: r => fold_left Z.min r x end.

Definition index_max (idx : list Z) : Z :=
  match idx with [] => 0 | x :: r => fold_left Z.max r x end.

(** One column of [df.reindex(new_index)]: the cell of the row that
    carries the date, the null marker where no row does. *)
Definition reindex_column (idx : list Z) (new_index : list Z) (col : list cell)
  : list cell :=
  map (fun d => match index_of d idx with
                | Some i => nth i col NaN
                | None => NaN
                end) new_index.

(** [df.reindex(new_index)]; [pandas] refuses an index with duplicate
    labels. *)
Definition reindex (df : DataFrame) (new_index : list Z) : Result DataFrame :=
  if has_duplicates (index df)
  then raise (ValueError "cannot reindex on an axis with duplicate labels")
  else ret (mkDataFrame new_index
         (map (fun nc => (fst nc, reindex_column (index df) new_index (snd nc)))
              (columns df))).

(** [col.shift(-1)]: every value moves one row up, the last row is null;
    to hold the null a column of numbers becomes a [float64] column. *)
Definition shift_up (col : list cell) : list cell :=
  match col with
  | [] => []
  | _ :: t => ((if forallb is_number col then map as_float t else t) ++ [NaN])%list
  end.

(** [col.ffill()]: a null takes the last value that is not null above it. *)
Fixpoint ffill_from (last : cell) (col : list cell) : list cell :=
  match col with
  | [] => []
  | c :: t => if notna c then c :: ffill_from c t else last :: ffill_from last t
  end.

Definition ffill (col : list cell) : list cell := ffill_from NaN col.

(* ================================================================== *)
(** ** [validate_coordinates] and the header/data boundary of
       [parse_silo_response] *)
(* ================================================================== *)

(** Lines 207-228 of [parse_silo_response]. *)
Module Boundary.

Definition header_words : list string :=
  [ "Rainfall"; "Rain"; "T.Max"; "Tmax"; "T.Min"; "Tmin" ].

(** The test of the first loop: a date word and one of the header words. *)
Definition is_header_line (line : string) : bool :=
  (PyStr.contains "Date" line || PyStr.contains "date" (PyStr.lower line))
  && existsb (fun col => PyStr.contains col line) header_words.

(** First loop: [data_start_idx] becomes the index of the first header
    line; it keeps its initial value when there is none. *)
Fixpoint scan_header (i : Z) (lines : list string) (data_start_idx : Z) : Z :=
  match lines with
  | [] => data_start_idx
  | line :: rest =>
      if is_header_line line then i
      else scan_header (i + 1) rest data_start_idx
  end.

(** The test of the second loop: more than five comma-separated fields,
    the first one made of eight digits. *)
Definition is_data_line (line : string) : bool :=
  PyStr.contains "," line
  && (5 <? List.length (PyStr.split ","%char line))%nat
  && (let first_val := PyStr.strip (hd "" (PyStr.split ","%char line)) in
      (String.length first_val =? 8)%nat && PyStr.isdigit first_val).

(** Second loop: the header is taken to be the line before the first data
    line. *)
Fixpoint scan_data (i : Z) (lines : list string) (data_start_idx : Z) : Z :=
  match lines with
  | [] => data_start_idx
  | line :: rest =>
      if is_data_line line then i - 1
      else scan_data (i + 1) rest data_start_idx
  end.

Definition find_data_start (lines : list string) : Result Z :=
  let data_start_idx := scan_header 0 lines 0 in
  let data_start_idx :=
    if data_start_idx =? 0 then scan_data 0 lines data_start_idx
    else data_start_idx in
  if data_start_idx =? 0
  then raise (SILOAPIError "Could not find data start in SILO response")
  else ret data_start_idx.

(** [lines[i:]], a negative [i] counting from the end. *)
Definition slice_from (i : Z) (lines : list string) : list string :=
  let n := Z.of_nat (List.length lines) in
  skipn (Z.to_nat (if i <? 0 then Z.max 0 (n + i) else i)) lines.

End Boundary.

(* ================================================================== *)
(** ** Column resolution and sentinels of [extract_variables] *)
(* ================================================================== *)

Module Resolve.

(** The dictionary [output_to_silo], keys in insertion order. *)
Definition dict : Type := list (string * list string).

Fixpoint dict_get (k : string) (d : dict) : option (list string) :=
  match d with
  | [] => None
  | (k', v) :: r => if String.eqb k' k then Some v else dict_get k r
  end.

(** [if k not in d: d[k] = []] followed by [d[k].append(v)]. *)
Fixpoint dict_append (k v : string) (d : dict) : dict :=
  match d with
  | [] => [(k, [v])]
  | (k', vs) :: r =>
      if String.eqb k' k then (k', (vs ++ [v])%list) :: r
      else (k', vs) :: dict_append k v r
  end.

(** Lines 303-309: the reverse mapping, built over [mapping.items()]. *)
Definition output_to_silo (mapping : list (string * string)) : dict :=
  fold_left
    (fun d item =>
       let '(silo_col, output_col) := item in
       if String.eqb silo_col "Date" then d
       else dict_append output_col silo_col d)
    mapping [].

(** Line 326: equal, or one name inside the other. *)
Definition name_matches (col_lower silo_lower : string) : bool :=
  String.eqb col_lower silo_lower
  || PyStr.contains silo_lower col_lower
  || PyStr.contains col_lower silo_lower.

(** Lines 323-328, the inner loop over the candidate names of one raw
    column; [found_col] is the variable of that name. *)
Fixpoint try_names (col col_lower : string) (possible_names : list string)
  (found_col : option string) : option string :=
  match possible_names with
  | [] => found_col
  | silo_col :: rest =>
      let silo_lower := PyStr.strip (PyStr.lower silo_col) in
      if name_matches col_lower silo_lower then Some col
      else try_names col col_lower rest found_col
  end.

(** [if found_col:] holds for a name that is not the empty string. *)
Definition truthy (found_col : option string) : bool :=
  match found_col with
  | Some (String _ _) => true
  | _ => false
  end.

(** Lines 320-330, the outer loop over [df.columns]. *)
Fixpoint find_column (cols : list string) (possible_names : list string)
  (found_col : option string) : option string :=
  match cols with
  | [] => found_col
  | col :: rest =>
      let col_clean := PyStr.strip col in
      let col_lower := PyStr.lower col_clean in
      let found_col := try_names col col_lower possible_names found_col in
      if truthy found_col then found_col
      else find_column rest possible_names found_col
  end.

(** Python's [==] between two cells. *)
Definition cell_eqb (a b : cell) : bool :=
  match a, b with
  | Int x, Int y => x =? y
  | Int x, Float g => PrimFloat.eqb (PyFloat.of_Z x) g
  | Float f, Int y => PrimFloat.eqb f (PyFloat.of_Z y)
  | Float f, Float g => PrimFloat.eqb f g
  | Str s, Str t => String.eqb s t
  | _, _ => false
  end.

(** [data.replace(code, np.nan)] *)
Definition replace (code : cell) (data : list cell) : list cell :=
  map (fun c => if cell_eqb c code then NaN else c) data.

(** Lines 342-343: one [replace] per missing code, in order. *)
Definition replace_missing_codes (data : list cell) : list cell :=
  fold_left (fun data code => replace code data) MISSING_CODES data.

(** Lines 349-353. *)
Definition find_code_column (cols : list string) : option string :=
  find (fun col => PyStr.contains "code" (PyStr.lower col)) cols.

Definition missing_variable_message (output_col : string)
  (possible_names available : list string) : string :=
  "Required variable '" ++ output_col ++ "' not found in SILO response. "
  ++ "Tried: " ++ PyStr.repr_list possible_names
  ++ ". Available columns: " ++ PyStr.repr_list available.

End Resolve.

(* ================================================================== *)
(** ** The client: parser, normalizer, statistics and emitters *)
(* ================================================================== *)

Section Client.

(** [str(x)] of a float. *)
Variable float_repr : float -> string.

(** [extract_variables(df, format)] *)
Section ExtractVariables.

Variable df : DataFrame.

(** [str(c)], elementwise [astype(str)]. *)
Definition astype_str (c : cell) : string :=
  match c with
  | Int z => PyStr.of_Z z
  | Float f => float_repr f
  | Str s => s
  end.

(** Lines 312-345, the loop over [REQUIRED_VARIABLES]. *)
Fixpoint map_variables (o2s : Resolve.dict) (vars : list string)
  (output_df : DataFrame) : Result DataFrame :=
  match vars with
  | [] => ret output_df
  | output_col :: rest =>
      match Resolve.dict_get output_col o2s with
      | None => map_variables o2s rest output_df
      | Some possible_names =>
          match Resolve.find_column (column_names df) possible_names None with
          | None =>
              raise (MissingVariableError
                (Resolve.missing_variable_message output_col possible_names
                   (column_names df)))
          | Some found_col =>
              match get_column found_col df with
              | None => raise (KeyError found_col)
              | Some data =>
                  let data := Resolve.replace_missing_codes data in
                  map_variables o2s rest (set_column output_col data output_df)
              end
          end
      end
  end.

(** Lines 347-359, the [code] column. *)
Definition code_column : Result (list cell) :=
  match Resolve.find_code_column (column_names df) with
  | Some (String _ _ as code_col) =>
      match get_column code_col df with
      | None => raise (KeyError code_col)
      | Some data =>
          ret (map (fun c => Str (PyStr.zfill 6 (astype_str c))) (values data))
      end
  | _ => ret (repeat (Str "222222") (len df))
  end.

(** [output_df[names]] *)
Fixpoint select_columns (names : list string) (cols : list (string * list cell))
  : Result (list (string * list cell)) :=
  match names with
  | [] => ret []
  | n :: rest =>
      match lookup_column n cols with
      | None => raise (KeyError n)
      | Some c => r <- select_columns rest cols ;; ret ((n, c) :: r)
      end
  end.

Definition extract_variables (format : string) : Result DataFrame :=
  let mapping := if String.eqb format "fao56" then FAO56_MAPPING else DAILY_MAPPING in
  let output_df := mkDataFrame (index df) [] in
  let o2s := Resolve.output_to_silo mapping in
  output_df <- map_variables o2s REQUIRED_VARIABLES output_df ;;
  code <- code_column ;;
  let output_df := set_column "code" code output_df in
  let missing_vars :=
    filter (fun var => negb (has_column var output_df)) REQUIRED_VARIABLES in
  match missing_vars with
  | _ :: _ =>
      raise (MissingVariableError
        ("Missing required variables: " ++ PyStr.repr_list missing_vars))
  | [] =>
      cols <- select_columns (REQUIRED_VARIABLES ++ ["code"])%list (columns output_df) ;;
      let output_df := mkDataFrame (index output_df) cols in
      if (0 <? len output_df)%nat then
        let full_date_range :=
          date_range (index_min (index output_df)) (index_max (index output_df)) in
        reindex output_df full_date_range
      else ret output_df
  end.

End ExtractVariables.

(** [parse_silo_response(response_text, format)] *)
Section ParseSiloResponse.

(** [pd.read_csv(StringIO(text), sep=r'\s+', skipinitialspace=True)]: the
    header names with their columns, or the text of the exception. *)
Variable read_csv : string -> string + list (string * list cell).

(** [pd.to_numeric(col, errors='coerce')] *)
Variable to_numeric : list cell -> list cell.

(** One value under [pd.to_datetime(col, format='%Y%m%d',
    errors='coerce')]: its date, or [None] for [NaT].  With
    [errors='coerce'] a value that does not parse yields [NaT] and the
    call raises nothing. *)
Variable strptime_ymd : cell -> option Z.

(** [pd.to_datetime(col, errors='coerce')] without a format; [None] when
    the call raises. *)
Variable to_datetime_infer : list cell -> option (list (option Z)).

Definition to_datetime_ymd (col : list cell) : option (list (option Z)) :=
  Some (map strptime_ymd col).

(** Lines 248-251. *)
Definition coerce_columns (cols : list (string * list cell))
  : list (string * list cell) :=
  map (fun nc =>
         let '(col, data) := nc in
         if existsb (String.eqb (PyStr.lower col)) ["date"; "day"; "date2"]
         then (col, data)
         else (col, to_numeric data)) cols.

(** Lines 254-258. *)
Definition find_date_column (cols : list string) : option string :=
  find (fun col => PyStr.contains "date" (PyStr.lower col)) cols.

(** Lines 264-270: the strict format first; the parser without a format
    is reached only when the first call raises. *)
Definition parse_date_column (col : list cell) : Result (list (option Z)) :=
  match to_datetime_ymd col with
  | Some dates => ret dates
  | None =>
      match to_datetime_infer col with
      | Some dates => ret dates
      | None => raise (SILOAPIError "Could not parse date column")
      end
  end.

(** Positions and dates of the rows whose date is not [NaT]. *)
Fixpoint valid_rows (i : nat) (dates : list (option Z)) : list (Z * nat) :=
  match dates with
  | [] => []
  | Some d :: r => (d, i) :: valid_rows (S i) r
  | None :: r => valid_rows (S i) r
  end.

(** Lines 273-277: [set_index] takes the date column out of the columns,
    then the rows with a null date go. *)
Definition set_index_dropna (date_col : string) (dates : list (option Z))
  (cols : list (string * list cell)) : DataFrame :=
  let keep := valid_rows 0 dates in
  let others := filter (fun nc => negb (String.eqb (fst nc) date_col)) cols in
  mkDataFrame (map fst keep)
    (map (fun nc => (fst nc, take_rows (map snd keep) (snd nc))) others).

Definition newline : string := String (ascii_of_nat 10) EmptyString.

Definition parse_silo_response (response_text : string) (format : string)
  : Result DataFrame :=
  let lines := PyStr.split (ascii_of_nat 10) (PyStr.strip response_text) in
  data_start_idx <- Boundary.find_data_start lines ;;
  let csv_content := PyStr.join newline (Boundary.slice_from data_start_idx lines) in
  match read_csv csv_content with
  | inl e => raise (SILOAPIError ("Failed to parse SILO CSV response: " ++ e))
  | inr cols =>
      let cols := map (fun nc => (PyStr.strip (fst nc), snd nc)) cols in
      let cols := coerce_columns cols in
      match find_date_column (map fst cols) with
      | None => raise (SILOAPIError "Could not find date column in SILO response")
      | Some date_col =>
          match lookup_column date_col cols with
          | None => raise (KeyError date_col)
          | Some col =>
              dates <- parse_date_column col ;;
              ret (sort_index (set_index_dropna date_col dates cols))
          end
      end
  end.

End ParseSiloResponse.

(* ------------------------------------------------------------------ *)
(** *** Derived statistics *)

(** A cell as a float, when it is a number. *)
Definition to_float (c : cell) : option float :=
  match c with
  | Int z => Some (PyFloat.of_Z z)
  | Float f => Some f
  | Str _ => None
  end.

(** One row of [(df['max_temp'] + df['min_temp']) / 2.0], on the cells
    of the two columns as [pandas] holds them: two integers are added on
    64 bits and the sum is divided as a float, an integer and a float are
    added as floats. *)
Definition daily_mean (a b : cell) : Result float :=
  match a, b with
  | Int x, Int y => ret (PyFloat.of_Z (Int64.add x y) / 2)%float
  | _, _ =>
      match to_float a, to_float b with
      | Some x, Some y => ret ((x + y) / 2)%float
      | _, _ => raise (TypeError "unsupported operand type(s) for /: 'str' and 'float'")
      end
  end.

Fixpoint daily_means (maxs mins : list cell) : Result (list float) :=
  match maxs, mins with
  | a :: ra, b :: rb =>
      x <- daily_mean a b ;; r <- daily_means ra rb ;; ret (x :: r)
  | _, _ => ret []
  end.

(** The values of a series that are not null. *)
Definition valid (l : list float) : list float :=
  filter (fun x => negb (PrimFloat.is_nan x)) l.

(** The sum of a [float64] array as [numpy] forms it.  Fewer than eight
    elements are added one after the other.  Up to 128 elements are added
    on eight accumulators, element [i] on accumulator [i mod 8]; the
    accumulators are then added two by two and the elements left over
    after the last full run of eight are added one by one.  A longer array
    is cut in two near its middle, at a multiple of eight, and the sums of
    the two parts are added. *)
Definition add_lanes (r c : list float) : list float :=
  map (fun p => (fst p + snd p)%float) (combine r c).

Fixpoint sum_lanes (runs : nat) (r rest : list float) : list float * list float :=
  match runs with
  | O => (r, rest)
  | S k => sum_lanes k (add_lanes r (firstn 8 rest)) (skipn 8 rest)
  end.

Definition sum_block (a : list float) : float :=
  let '(r, rest) :=
    sum_lanes (List.length a / 8 - 1)%nat (firstn 8 a) (skipn 8 a) in
  match r with
  | [r0; r1; r2; r3; r4; r5; r6; r7] =>
      fold_left PrimFloat.add rest
        (((r0 + r1) + (r2 + r3)) + ((r4 + r5) + (r6 + r7)))%float
  | _ => fold_left PrimFloat.add a 0%float
  end.

Fixpoint pairwise_sum (fuel : nat) (a : list float) : float :=
  let n := List.length a in
  if (n <? 8)%nat then fold_left PrimFloat.add a 0%float
  else if (n <=? 128)%nat then sum_block a
  else
    match fuel with
    | O => sum_block a
    | S fuel' =>
        let n2 := (n / 2 - (n / 2) mod 8)%nat in
        (pairwise_sum fuel' (firstn n2 a) + pairwise_sum fuel' (skipn n2 a))%float
    end.

(** [a.sum()]: the reduction starts from 0.0; each cut shortens the
    array, so its length is fuel enough. *)
Definition np_sum (a : list float) : float :=
  (0 + pairwise_sum (List.length a) a)%float.

(** [Series.mean()]: the nulls count for nothing, they are zeros in the
    sum and are left out of the number of values; no value at all gives a
    null. *)
Definition mean (l : list float) : float :=
  let count := List.length (valid l) in
  if (count =? 0)%nat then PyFloat.nan
  else (np_sum (map (fun x => if PrimFloat.is_nan x then 0%float else x) l)
        / PyFloat.of_Z (Z.of_nat count))%float.

(** The mean of one group under [groupby(...).mean()]: the values that
    are not null are added in row order with a running compensation of
    the rounding error, and the sum is divided by their number. *)
Definition kahan_add (state : float * float) (val : float) : float * float :=
  let '(sumx, compensation) := state in
  let y := (val - compensation)%float in
  let t := (sumx + y)%float in
  let c := (t - sumx - y)%float in
  (t, if PrimFloat.is_nan c then 0%float else c).

Definition group_mean (l : list float) : float :=
  match valid l with
  | [] => PyFloat.nan
  | vals =>
      (fst (fold_left kahan_add vals (0%float, 0%float))
       / PyFloat.of_Z (Z.of_nat (List.length vals)))%float
  end.

(** [calculate_tav(df)] *)
Definition calculate_tav (df : DataFrame) : Result float :=
  if negb (has_column "max_temp" df) || negb (has_column "min_temp" df)
  then raise (ValueError "DataFrame must contain max_temp and min_temp columns")
  else
    match get_column "max_temp" df, get_column "min_temp" df with
    | Some maxs, Some mins =>
        daily_mean_temp <- daily_means (values maxs) (values mins) ;;
        ret (mean daily_mean_temp)
    | _, _ => raise (KeyError "max_temp")
    end.

(** The calendar months met in an index, each once, in order of first
    appearance ([groupby] keys). *)
Fixpoint months_of (idx : list Z) (seen : list (Z * Z)) : list (Z * Z) :=
  match idx with
  | [] => rev seen
  | d :: r =>
      let ym := (Calendar.year d, Calendar.month d) in
      if existsb (fun p => (fst p =? fst ym) && (snd p =? snd ym)) seen
      then months_of r seen else months_of r (ym :: seen)
  end.

Definition in_month (ym : Z * Z) (d : Z) : bool :=
  (Calendar.year d =? fst ym) && (Calendar.month d =? snd ym).

Definition monthly_means (idx : list Z) (daily : list float) : list float :=
  map (fun ym =>
         group_mean
           (map snd (filter (fun p => in_month ym (fst p)) (combine idx daily))))
      (months_of idx []).

(** [Series.max()] and [Series.min()], nulls skipped. *)
Definition fmax (l : list float) : float :=
  match valid l with
  | [] => PyFloat.nan
  | x :: r => fold_left (fun a b => if PrimFloat.ltb a b then b else a) r x
  end.

Definition fmin (l : list float) : float :=
  match valid l with
  | [] => PyFloat.nan
  | x :: r => fold_left (fun a b => if PrimFloat.ltb b a then b else a) r x
  end.

(** [calculate_amp(df)] *)
Definition calculate_amp (df : DataFrame) : Result float :=
  if negb (has_column "max_temp" df) || negb (has_column "min_temp" df)
  then raise (ValueError "DataFrame must contain max_temp and min_temp columns")
  else
    match get_column "max_temp" df, get_column "min_temp" df with
    | Some maxs, Some mins =>
        daily <- daily_means (values maxs) (values mins) ;;
        let monthly := monthly_means (index df) daily in
        ret (fmax monthly - fmin monthly)%float
    | _, _ => raise (KeyError "max_temp")
    end.

(** [calculate_day_of_year(df)] *)
Definition calculate_day_of_year (df : DataFrame) : DataFrame :=
  set_column "day" (map (fun d => Int (Calendar.dayofyear d)) (index df)) df.

(** [shift_evaporation(df)] *)
Definition shift_evaporation (df : DataFrame) : Result DataFrame :=
  if negb (has_column "evap_pan" df)
  then raise (ValueError "DataFrame must contain evap_pan column")
  else
    match get_column "evap_pan" df with
    | None => raise (KeyError "evap_pan")
    | Some evap =>
        let shifted := shift_up evap in
        let df := set_column "evap_pan" shifted df in
        if existsb isna shifted
        then ret (set_column "evap_pan" (ffill shifted) df)
        else ret df
    end.

(* ------------------------------------------------------------------ *)
(** *** The agronomic emitter *)

Definition dquote : string := String (ascii_of_nat 34) EmptyString.

(** [generate_filename(lat, lon, start_year, end_year, extension)] *)
Definition generate_filename (lat lon : float) (start_year end_year : Z)
  (extension : string) : string :=
  let lat_str := PyFloat.format_f 2 lat in
  let lon_str := PyFloat.format_f 2 lon in
  "SILO_" ++ PyStr.of_Z start_year ++ "-" ++ PyStr.of_Z end_year ++ "_"
  ++ lat_str ++ "_" ++ lon_str ++ "." ++ extension.

(** Lines 530-552: the preamble of the file. *)
Definition met_header (lat lon tav amp : float) (start_year : Z)
  (extraction_date : string) : string :=
  PyStr.join newline
    [ "[weather.met.weather]";
      "!Your Ref:  " ++ dquote;
      "latitude = " ++ PyFloat.format_f 2 lat ++ "  (DECIMAL DEGREES)";
      "longitude =  " ++ PyFloat.format_f 2 lon ++ "  (DECIMAL DEGREES)";
      "tav = " ++ PyFloat.format_f 2 tav
        ++ " (oC) ! Annual average ambient temperature. Based on 1 Jan "
        ++ PyStr.of_Z start_year ++ " to current.";
      "amp = " ++ PyFloat.format_f 2 amp
        ++ " (oC) ! Annual amplitude in mean monthly temperature. Based on 1 Jan "
        ++ PyStr.of_Z start_year ++ " to current.";
      "!Data Extracted from SILO 'BoM Only' dataset on " ++ extraction_date
        ++ " " ++ dquote ++ " for APSIM";
      "!As evaporation is read at 9am, it has been shifted to day before";
      "!ie The evaporation measured on 20 April is in row for 19 April";
      "!The 6 digit code indicates the source of the 6 data columns";
      "!0 actual observation, 1 actual observation composite station";
      "!2 interpolated from daily observations";
      "!3 interpolated from daily observations using anomaly interpolation method for CLIMARC data";
      "!6 synthetic pan";
      "!7 interpolated long term averages";
      "!more detailed two digit codes are available in SILO's 'Standard' format files";
      "!";
      "!For further information see the documentation on the datadrill";
      "!  http://www.longpaddock.qld.gov.au/silo";
      "!";
      "year  day radn  maxt   mint  rain  evap    vp   code";
      " ()   () (MJ/m^2) (oC)  (oC)  (mm)  (mm) (hPa)     ()";
      "" ].

(** [row[name]] in the row at position [i]. *)
Definition row_cell (df : DataFrame) (i : nat) (name : string) : Result cell :=
  match get_column name df with
  | Some col => ret (nth i col NaN)
  | None => raise (KeyError name)
  end.

(** [int(x)] of a float: towards zero. *)
Definition trunc_float (f : float) : Result Z :=
  match Prim2SF f with
  | S754_zero _ => ret 0
  | S754_finite s m e =>
      let a := if 0 <=? e then Z.pos m * Z.pow 2 e else Z.pos m / Z.pow 2 (- e) in
      ret (if s then - a else a)
  | S754_infinity _ => raise (OverflowError "cannot convert float infinity to integer")
  | S754_nan => raise (ValueError "cannot convert float NaN to integer")
  end.

(** Line 560: [int(row['day']) if pd.notna(row['day']) else 1].  The
    column was written by [calculate_day_of_year] and holds ints; a string
    of digits, with or without a sign, is read as [int] reads it. *)
Definition day_of_row (c : cell) : Result Z :=
  if notna c then
    match c with
    | Int z => ret z
    | Float f => trunc_float f
    | Str s =>
        match PyStr.strip s with
        | String c t =>
            if Ascii.eqb c "-"%char && PyStr.isdigit t then ret (- PyStr.digits_value 0 t)
            else if Ascii.eqb c "+"%char && PyStr.isdigit t then ret (PyStr.digits_value 0 t)
            else if PyStr.isdigit (String c t) then ret (PyStr.digits_value 0 (String c t))
            else raise (ValueError "invalid literal for int() with base 10")
        | EmptyString => raise (ValueError "invalid literal for int() with base 10")
        end
    end
  else ret 1.

(** Lines 564-592: a number in six columns with one decimal, or the
    token for a null. *)
Definition format_value (c : cell) : Result string :=
  if notna c then
    match to_float c with
    | Some x => ret (PyStr.rjust 6 (PyFloat.format_f 1 x))
    | None => raise (ValueError "Unknown format code 'f' for object of type 'str'")
    end
  else ret "   NaN".

(** Line 594. *)
Definition format_code (c : cell) : string :=
  if notna c then PyStr.zfill 6 (astype_str c) else "222222".

(** Line 599, the row as written. *)
Definition met_line (year day : Z) (radn maxt mint rain evap vp code : string)
  : string :=
  PyStr.rjust 4 (PyStr.of_Z year) ++ " " ++ PyStr.rjust 4 (PyStr.of_Z day) ++ " "
  ++ PyStr.rjust 6 radn ++ " " ++ PyStr.rjust 6 maxt ++ " "
  ++ PyStr.rjust 6 mint ++ " " ++ PyStr.rjust 6 rain ++ " "
  ++ PyStr.rjust 6 evap ++ " " ++ PyStr.rjust 6 vp ++ " "
  ++ PyStr.rjust 7 code ++ newline.

(** Lines 558-599, the body of the loop for the row at position [i]. *)
Definition met_row (df : DataFrame) (i : nat) (date : Z) : Result string :=
  let year := Calendar.year date in
  c <- row_cell df i "day" ;; day <- day_of_row c ;;
  c <- row_cell df i "radiation" ;; radn <- format_value c ;;
  c <- row_cell df i "max_temp" ;; maxt <- format_value c ;;
  c <- row_cell df i "min_temp" ;; mint <- format_value c ;;
  c <- row_cell df i "daily_rain" ;; rain <- format_value c ;;
  c <- row_cell df i "evap_pan" ;; evap <- format_value c ;;
  c <- row_cell df i "vp" ;; vp <- format_value c ;;
  c <- row_cell df i "code" ;;
  let code := format_code c in
  ret (met_line year day radn maxt mint rain evap vp code).

(** The frame as [df.iterrows()] shows it: every row is a series of one
    type.  When all columns hold numbers and one of them is a [float64]
    column, each cell of a row is a float; in every other case a cell is
    read as its column holds it. *)
Definition row_values (df : DataFrame) : DataFrame :=
  let numbers := forallb (fun nc => forallb is_number (snd nc)) (columns df) in
  let integers := forallb (fun nc => forallb is_int (snd nc)) (columns df) in
  mkDataFrame (index df)
    (map (fun nc =>
            (fst nc,
             if numbers && negb integers then map as_float (snd nc)
             else values (snd nc)))
         (columns df)).

(** [for date, row in df.iterrows()] *)
Fixpoint met_rows (df : DataFrame) (i : nat) (dates : list Z) : Result (list string) :=
  match dates with
  | [] => ret []
  | date :: rest =>
      line <- met_row df i date ;;
      lines <- met_rows df (S i) rest ;;
      ret (line :: lines)
  end.

(** [export_to_met(df, lat, lon, start_year, end_year, output_dir)]: the
    name of the file under [output_dir] and the text written to it;
    [extraction_date] is the day of the run as [dd/mm/YYYY]. *)
Definition export_to_met (extraction_date : string) (df : DataFrame)
  (lat lon : float) (start_year end_year : Z) : Result (string * string) :=
  tav <- calculate_tav df ;;
  amp <- calculate_amp df ;;
  let df := calculate_day_of_year df in
  df <- shift_evaporation df ;;
  let filename := generate_filename lat lon start_year end_year "met" in
  let header := met_header lat lon tav amp start_year extraction_date in
  lines <- met_rows (row_values df) 0 (index df) ;;
  ret (filename, header ++ String.concat "" lines).

(* ------------------------------------------------------------------ *)
(** *** Validation and [get_silo_data] *)

(** [validate_coordinates(lat, lon)] *)
Definition validate_coordinates (lat lon : float) : Result bool :=
  if negb (PrimFloat.leb LAT_MIN lat && PrimFloat.leb lat LAT_MAX) then
    raise (InvalidCoordinatesError
      ("Latitude " ++ float_repr lat ++ " is outside Australian bounds ("
       ++ float_repr LAT_MIN ++ " to " ++ float_repr LAT_MAX ++ ")"))
  else if negb (PrimFloat.leb LON_MIN lon && PrimFloat.leb lon LON_MAX) then
    raise (InvalidCoordinatesError
      ("Longitude " ++ float_repr lon ++ " is outside Australian bounds ("
       ++ float_repr LON_MIN ++ " to " ++ float_repr LON_MAX ++ ")"))
  else ret true.

(** Lines 147-152 of [get_silo_data]: the check of the date range against
    [current_year = datetime.now().year]. *)
Definition validate_date_range (current_year start_year end_year : Z) : Result unit :=
  if (start_year <? 1889) || (current_year <? end_year) then
    raise (ValueError
      ("Date range must be between 1889 and " ++ PyStr.of_Z current_year))
  else if end_year <? start_year then
    raise (ValueError "start_year must be <= end_year")
  else ret tt.

(** Lines 180-184: credentials refused in the body of the response. *)
Definition check_authentication (response_text : string) : Result unit :=
  let response_lower := PyStr.lower response_text in
  if PyStr.contains "username" response_lower
     && PyStr.contains "password" response_lower
     && (PyStr.contains "invalid" response_lower
         || PyStr.contains "error" response_lower)
  then raise (AuthenticationError "Authentication failed - check username and password")
  else ret tt.

Section GetSiloData.

Variable read_csv : string -> string + list (string * list cell).
Variable to_numeric : list cell -> list cell.
Variable strptime_ymd : cell -> option Z.
Variable to_datetime_infer : list cell -> option (list (option Z)).

(** [datetime.now().year] *)
Variable current_year : Z.

(** Lines 154-178: the request for the point and the years, answered by
    the text of the response or by a transport error. *)
Variable request : float -> float -> Z -> Z -> string -> Result string.

Definition get_silo_data (lat lon : float) (start_year end_year : Z)
  (format : string) : Result DataFrame :=
  _ <- validate_coordinates lat lon ;;
  _ <- validate_date_range current_year start_year end_year ;;
  response_text <- request lat lon start_year end_year format ;;
  _ <- check_authentication response_text ;;
  df <- parse_silo_response read_csv to_numeric strptime_ymd to_datetime_infer
          response_text format ;;
  extract_variables df format.

End GetSiloData.

End Client.

(* ================================================================== *)
(** * Properties *)
(* ================================================================== *)

(** ** The models at work *)

Section Examples.

Example lower_mixed_case : PyStr.lower "T.Max" = "t.max".
Proof. reflexivity. Qed.

Example strip_both_ends : PyStr.strip "  Rain  " = "Rain".
Proof. reflexivity. Qed.

Example contains_inside : PyStr.contains "rain" "daily_rainfall" = true.
Proof. reflexivity. Qed.

Example contains_empty_needle : PyStr.contains "" "rain" = true.
Proof. reflexivity. Qed.

Example split_commas : PyStr.split ","%char "a,b,,c" = ["a"; "b"; ""; "c"].
Proof. reflexivity. Qed.

Example zfill_short : PyStr.zfill 6 "22" = "000022".
Proof. reflexivity. Qed.

Example zfill_signed : PyStr.zfill 6 "-22" = "-00022".
Proof. reflexivity. Qed.

Example zfill_long : PyStr.zfill 6 "1234567" = "1234567".
Proof. reflexivity. Qed.

Example rjust_year : PyStr.rjust 4 (PyStr.of_Z 87) = "  87".
Proof. reflexivity. Qed.

Example repr_of_names : PyStr.repr_list ["Rain"; "Rainfall"] = "['Rain', 'Rainfall']".
Proof. reflexivity. Qed.

Example repr_with_apostrophe :
  PyStr.repr "Tom's" = String PyStr.double_quote ("Tom's" ++ String PyStr.double_quote "")
  /\ PyStr.repr ("a" ++ String (ascii_of_nat 9) "b\c") = "'a\tb\\c'"
  /\ PyStr.repr (String (ascii_of_nat 127) "") = "'\x7f'".
Proof. repeat split; reflexivity. Qed.

Example format_one_decimal : PyFloat.format_f 1 (26.8)%float = "26.8".
Proof. vm_compute. reflexivity. Qed.

Example format_tie_to_even : PyFloat.format_f 1 (0.25)%float = "0.2".
Proof. vm_compute. reflexivity. Qed.

Example format_below_tie : PyFloat.format_f 1 (0.35)%float = "0.3".
Proof. vm_compute. reflexivity. Qed.

Example format_negative_zero : PyFloat.format_f 1 (-0.04)%float = "-0.0".
Proof. vm_compute. reflexivity. Qed.

Example format_wide : PyFloat.format_f 1 (123456.78)%float = "123456.8".
Proof. vm_compute. reflexivity. Qed.

Example format_two_decimals : PyFloat.format_f 2 (-31.75)%float = "-31.75".
Proof. vm_compute. reflexivity. Qed.

Example format_infinity : PyFloat.format_f 1 PrimFloat.infinity = "inf".
Proof. vm_compute. reflexivity. Qed.

Example first_day_of_2000 : Calendar.civil_from_days 10957 = (2000, 1, 1).
Proof. reflexivity. Qed.

Example last_day_of_2000 :
  Calendar.days_from_civil 2000 12 31 = 11322 /\ Calendar.dayofyear 11322 = 366.
Proof. split; reflexivity. Qed.

Example leap_day : Calendar.civil_from_days 11016 = (2000, 2, 29).
Proof. reflexivity. Qed.

Example day_before_epoch : Calendar.civil_from_days (-1) = (1969, 12, 31).
Proof. reflexivity. Qed.

Example boundary_after_metadata :
  Boundary.find_data_start
    ["SILO patched point data"; "Date Rain T.Max T.Min"; "20000101 1 30 20"]
  = inr 1.
Proof. vm_compute. reflexivity. Qed.

Example boundary_from_data_line :
  Boundary.find_data_start
    ["SILO patched point data"; "a,b,c,d,e,f"; "20000101,1,2,3,4,5"]
  = inr 1.
Proof. vm_compute. reflexivity. Qed.

Example reverse_mapping_fao56 :
  Resolve.output_to_silo FAO56_MAPPING
  = [ ("daily_rain", ["Rain"; "Rainfall"]); ("max_temp", ["T.Max"]);
      ("min_temp", ["T.Min"]); ("vp", ["VP"]);
      ("radiation", ["Radn"; "Radiation"]); ("et_short_crop", ["FAO56"]);
      ("evap_pan", ["Evap"; "Evaporation"]) ].
Proof. reflexivity. Qed.

Example first_column_wins :
  Resolve.find_column ["Day"; "Rainfall"; "Rain"] ["Rain"; "Rainfall"] None
  = Some "Rainfall".
Proof. reflexivity. Qed.

(** A column without a name matches every candidate and is falsy: the
    loop goes on, and stops at the next match. *)
Example nameless_column_does_not_stop_the_search :
  Resolve.find_column [""; "Rain"] ["Rain"] None = Some "Rain"
  /\ Resolve.find_column [""; "T.Max"] ["Rain"] None = Some "".
Proof. split; reflexivity. Qed.

Example duplicate_dates_are_refused (float_repr : float -> string) :
  extract_variables float_repr
    (mkDataFrame [10957; 10957]
       [ ("Rain", [Float 1; Float 2]); ("T.Max", [Float 30; Float 31]);
         ("T.Min", [Float 20; Float 19]); ("VP", [Float 12; Float 13]);
         ("Radn", [Float 25; Float 27]); ("FAO56", [Float 5; Float 6]);
         ("Evap", [Float 6; Float 8]) ]) "fao56"
  = inl (ValueError "cannot reindex on an axis with duplicate labels").
Proof. vm_compute. reflexivity. Qed.

Example shift_without_nulls :
  shift_evaporation
    (mkDataFrame [10957; 10958; 10959]
       [("evap_pan", [Float 1; Float 2; Float 3])])
  = inr (mkDataFrame [10957; 10958; 10959]
           [("evap_pan", [Float 2; Float 3; Float 3])]).
Proof. vm_compute. reflexivity. Qed.

Example mean_skips_nulls : mean [20; PyFloat.nan; 30]%float = 25%float.
Proof. vm_compute. reflexivity. Qed.

(** Ten values of 0.1 go on eight accumulators: the pairwise sum is 1.0
    and the mean 0.1, where adding them in order gives 0.9999999999999999. *)
Example mean_of_ten_tenths :
  mean (repeat 0.1%float 10) = 0.1%float
  /\ fold_left PrimFloat.add (repeat 0.1%float 10) 0%float
     = 0.99999999999999989%float.
Proof. split; vm_compute; reflexivity. Qed.

Example group_mean_of_ten_tenths : group_mean (repeat 0.1%float 10) = 0.1%float.
Proof. vm_compute. reflexivity. Qed.

(** Two integers of 2^62 each: their sum on 64 bits is -2^63. *)
Example integers_wrap_around :
  daily_mean (Int (2 ^ 62)) (Int (2 ^ 62)) = inr (-4611686018427387904)%float.
Proof. vm_compute. reflexivity. Qed.

Example integer_column_with_a_null :
  values [Int 22; NaN] = [Float 22; NaN] /\ values [Int 22; Int 23] = [Int 22; Int 23].
Proof. split; vm_compute; reflexivity. Qed.

Example shift_of_integers :
  shift_up [Int 1; Int 2; Int 3] = [Float 2; Float 3; NaN].
Proof. vm_compute. reflexivity. Qed.

Example mean_of_nothing : PrimFloat.is_nan (mean [PyFloat.nan]) = true.
Proof. vm_compute. reflexivity. Qed.

End Examples.

(** ** Date-range validation *)

Section DateRange.

Lemma validate_date_range_ok (current_year start_year end_year : Z) :
  validate_date_range current_year start_year end_year = inr tt <->
  1889 <= start_year /\ end_year <= current_year /\ start_year <= end_year.
Proof.
  unfold validate_date_range, raise, ret.
  destruct (start_year <? 1889) eqn:E1; simpl.
  - apply Z.ltb_lt in E1. split; [discriminate | lia].
  - apply Z.ltb_ge in E1.
    destruct (current_year <? end_year) eqn:E2.
    + apply Z.ltb_lt in E2. split; [discriminate | lia].
    + apply Z.ltb_ge in E2.
      destruct (end_year <? start_year) eqn:E3.
      * apply Z.ltb_lt in E3. split; [discriminate | lia].
      * apply Z.ltb_ge in E3. split; [lia | reflexivity].
Qed.

Lemma validate_date_range_error (current_year start_year end_year : Z) (err : Error) :
  validate_date_range current_year start_year end_year = inl err ->
  exists msg, err = ValueError msg.
Proof.
  unfold validate_date_range, raise, ret.
  destruct (_ || _); [intros [= <-]; eauto |].
  destruct (_ <? _); [intros [= <-]; eauto | discriminate].
Qed.

(** C9.  Once the coordinates are accepted, [get_silo_data] fails on the
    date range with a [ValueError] exactly when [start_year < 1889], or
    [end_year] is after the current year, or [start_year > end_year]; the
    error is returned whatever the transport and the parser are, so
    neither has been consulted. *)
Theorem date_range_checked_first
  (float_repr : float -> string) (current_year : Z)
  (lat lon : float) (start_year end_year : Z) :
  validate_coordinates float_repr lat lon = inr true ->
  ((exists msg,
      validate_date_range current_year start_year end_year = inl (ValueError msg))
   <-> (start_year < 1889 \/ end_year > current_year \/ start_year > end_year))
  /\ (forall err,
        validate_date_range current_year start_year end_year = inl err ->
        (exists msg, err = ValueError msg) /\
        forall read_csv to_numeric strptime_ymd to_datetime_infer request format,
          get_silo_data float_repr read_csv to_numeric strptime_ymd
            to_datetime_infer current_year request
            lat lon start_year end_year format = inl err).
Proof.
  intros Hc. split.
  - split.
    + intros [msg H].
      destruct (Z_lt_dec start_year 1889); [tauto |].
      destruct (Z_lt_dec current_year end_year); [right; left; lia |].
      destruct (Z_lt_dec end_year start_year); [right; right; lia |].
      assert (Hok : validate_date_range current_year start_year end_year = inr tt)
        by (apply validate_date_range_ok; lia).
      congruence.
    + intros H.
      destruct (validate_date_range current_year start_year end_year) as [e | []] eqn:E.
      * destruct (validate_date_range_error _ _ _ _ E) as [msg ->]. eauto.
      * apply validate_date_range_ok in E. lia.
  - intros err E. split.
    + eapply validate_date_range_error; eauto.
    + intros. unfold get_silo_data. rewrite Hc. simpl. rewrite E. reflexivity.
Qed.

Lemma date_range_checked_first_witness :
  validate_coordinates (PyFloat.format_f 1) (-31.75)%float (117.6)%float = inr true
  /\ ((exists msg, validate_date_range 2026 1880 2000 = inl (ValueError msg))
      <-> (1880 < 1889 \/ 2000 > 2026 \/ 1880 > 2000))
  /\ (forall err,
        validate_date_range 2026 1880 2000 = inl err ->
        (exists msg, err = ValueError msg) /\
        forall read_csv to_numeric strptime_ymd to_datetime_infer request format,
          get_silo_data (PyFloat.format_f 1) read_csv to_numeric strptime_ymd
            to_datetime_infer 2026 request
            (-31.75)%float (117.6)%float 1880 2000 format = inl err).
Proof.
  assert (Hc : validate_coordinates (PyFloat.format_f 1) (-31.75)%float (117.6)%float
               = inr true) by (vm_compute; reflexivity).
  split; [exact Hc |].
  exact (date_range_checked_first (PyFloat.format_f 1) 2026
           (-31.75)%float (117.6)%float 1880 2000 Hc).
Defined.

End DateRange.

(** ** The header/data boundary *)

Section BoundaryFacts.

Import Boundary.

(** Index of the first line that passes the test of the second loop. *)
Fixpoint first_data_line (i : Z) (lines : list string) : option Z :=
  match lines with
  | [] => None
  | line :: rest =>
      if is_data_line line then Some i else first_data_line (i + 1) rest
  end.

Lemma scan_data_first (lines : list string) : forall i d,
  scan_data i lines d =
  match first_data_line i lines with Some k => k - 1 | None => d end.
Proof.
  induction lines as [| l r IH]; intros i d; simpl; [reflexivity |].
  destruct (is_data_line l); [reflexivity | apply IH].
Qed.

Lemma first_data_line_ge (lines : list string) : forall i k,
  first_data_line i lines = Some k -> i <= k.
Proof.
  induction lines as [| l r IH]; intros i k; simpl; [discriminate |].
  destruct (is_data_line l).
  - intros [= <-]. lia.
  - intros H. apply IH in H. lia.
Qed.

Lemma first_data_line_no_comma (lines : list string) : forall i,
  (forall l, In l lines -> PyStr.contains "," l = false) ->
  first_data_line i lines = None.
Proof.
  induction lines as [| l r IH]; intros i H; simpl; [reflexivity |].
  unfold is_data_line. rewrite (H l (or_introl eq_refl)). simpl.
  apply IH. intros l' Hl'. apply H. right. exact Hl'.
Qed.

(** A header found on line 0 leaves [data_start_idx] at its initial
    value, as a header found nowhere does. *)
Lemma scan_header_line_zero (first : string) (rest : list string) :
  is_header_line first = true -> scan_header 0 (first :: rest) 0 = 0.
Proof. intros H. simpl. rewrite H. reflexivity. Qed.

Lemma find_data_start_line_zero (first : string) (rest : list string) :
  is_header_line first = true ->
  find_data_start (first :: rest) =
  match first_data_line 0 (first :: rest) with
  | None => inl (SILOAPIError "Could not find data start in SILO response")
  | Some k =>
      if k =? 1 then inl (SILOAPIError "Could not find data start in SILO response")
      else inr (k - 1)
  end.
Proof.
  intros H. unfold find_data_start.
  rewrite (scan_header_line_zero first rest H).
  change (0 =? 0) with true. cbv iota.
  rewrite scan_data_first.
  destruct (first_data_line 0 (first :: rest)) as [k |]; [| reflexivity].
  replace (k - 1 =? 0) with (k =? 1); [destruct (k =? 1); reflexivity |].
  destruct (Z.eqb_spec k 1), (Z.eqb_spec (k - 1) 0); try reflexivity; lia.
Qed.


Definition no_data_start : Error :=
  SILOAPIError "Could not find data start in SILO response".

(** C10 (as amended).  When the first line of the response is the header
    row, the scan for the header leaves the boundary at 0, and the
    response is refused exactly when the second scan finds no line of
    comma-separated data or finds the first one on line 1; in particular a
    response without any comma is refused.  When the first such line is
    line [k] with [k <> 1], the boundary is [k - 1] and parsing goes on. *)
Theorem header_on_first_line
  (read_csv : string -> string + list (string * list cell))
  (to_numeric : list cell -> list cell)
  (strptime_ymd : cell -> option Z)
  (to_datetime_infer : list cell -> option (list (option Z)))
  (response_text format first : string) (rest : list string) :
  PyStr.split (ascii_of_nat 10) (PyStr.strip response_text) = first :: rest ->
  is_header_line first = true ->
  (find_data_start (first :: rest) = inl no_data_start
   <-> (first_data_line 0 (first :: rest) = None
        \/ first_data_line 0 (first :: rest) = Some 1))
  /\ (first_data_line 0 (first :: rest) = None
      \/ first_data_line 0 (first :: rest) = Some 1 ->
      parse_silo_response read_csv to_numeric strptime_ymd to_datetime_infer
        response_text format = inl no_data_start)
  /\ ((forall l, In l (first :: rest) -> PyStr.contains "," l = false) ->
      parse_silo_response read_csv to_numeric strptime_ymd to_datetime_infer
        response_text format = inl no_data_start)
  /\ (forall k, first_data_line 0 (first :: rest) = Some k -> k <> 1 ->
      find_data_start (first :: rest) = inr (k - 1)).
Proof.
  intros Hlines Hhead.
  pose proof (find_data_start_line_zero first rest Hhead) as Hfind.
  assert (Hraise : first_data_line 0 (first :: rest) = None
                   \/ first_data_line 0 (first :: rest) = Some 1 ->
                   find_data_start (first :: rest) = inl no_data_start).
  { intros [H | H]; rewrite Hfind, H; reflexivity. }
  assert (Hparse : find_data_start (first :: rest) = inl no_data_start ->
                   parse_silo_response read_csv to_numeric strptime_ymd
                     to_datetime_infer response_text format = inl no_data_start).
  { intros H. unfold parse_silo_response. rewrite Hlines, H. reflexivity. }
  split; [split | split; [| split]].
  - intros H. rewrite Hfind in H.
    destruct (first_data_line 0 (first :: rest)) as [k |]; [| now left].
    destruct (Z.eqb_spec k 1) as [E | Hk]; [right; now rewrite E | discriminate].
  - exact Hraise.
  - intros H. apply Hparse, Hraise, H.
  - intros H. apply Hparse, Hraise. left.
    apply first_data_line_no_comma. exact H.
  - intros k Hk Hne. rewrite Hfind, Hk.
    destruct (Z.eqb_spec k 1); [contradiction | reflexivity].
Qed.

(** A whitespace-delimited response whose header is its first line. *)
Definition header_first_text : string :=
  "Date Rain T.Max T.Min" ++ newline ++ "20000101 1 30 20" ++ newline
  ++ "20000102 2 32 18".

Lemma header_on_first_line_witness :
  PyStr.split (ascii_of_nat 10) (PyStr.strip header_first_text)
  = ["Date Rain T.Max T.Min"; "20000101 1 30 20"; "20000102 2 32 18"]
  /\ is_header_line "Date Rain T.Max T.Min" = true
  /\ forall read_csv to_numeric strptime_ymd to_datetime_infer,
      parse_silo_response read_csv to_numeric strptime_ymd to_datetime_infer
        header_first_text "fao56" = inl no_data_start.
Proof.
  assert (H1 : PyStr.split (ascii_of_nat 10) (PyStr.strip header_first_text)
               = ["Date Rain T.Max T.Min"; "20000101 1 30 20"; "20000102 2 32 18"])
    by (vm_compute; reflexivity).
  assert (H2 : is_header_line "Date Rain T.Max T.Min" = true)
    by (vm_compute; reflexivity).
  split; [exact H1 |]. split; [exact H2 |].
  intros read_csv to_numeric strptime_ymd to_datetime_infer.
  apply (proj1 (proj2 (header_on_first_line read_csv to_numeric strptime_ymd
                         to_datetime_infer header_first_text "fao56" _ _ H1 H2))).
  left. vm_compute. reflexivity.
Defined.

(** A comma-separated response: header on line 0, a line of units, data
    from line 2 on. *)
Definition header_first_comma_text : string :=
  "Date,Rain,T.Max,T.Min,VP,Evap" ++ newline ++ "(),(mm),(oC),(oC),(hPa),(mm)"
  ++ newline ++ "20000101,1,30,20,12,5".

(** C10, counterexample: the header row is line 0 of the response, and
    [parse_silo_response] does not raise the data-start error: the second
    scan puts the boundary on line 1 and the table parser is called. *)
Lemma header_on_first_line_not_always_refused :
  is_header_line
    (hd "" (PyStr.split (ascii_of_nat 10) (PyStr.strip header_first_comma_text)))
  = true
  /\ find_data_start
       (PyStr.split (ascii_of_nat 10) (PyStr.strip header_first_comma_text))
     = inr 1
  /\ forall read_csv to_numeric strptime_ymd to_datetime_infer,
      parse_silo_response read_csv to_numeric strptime_ymd to_datetime_infer
        header_first_comma_text "fao56" <> inl no_data_start.
Proof.
  split; [vm_compute; reflexivity |].
  split; [vm_compute; reflexivity |].
  intros read_csv to_numeric strptime_ymd to_datetime_infer.
  unfold parse_silo_response.
  replace (find_data_start
             (PyStr.split (ascii_of_nat 10) (PyStr.strip header_first_comma_text)))
    with (@inr Error Z 1) by (vm_compute; reflexivity).
  unfold bind, raise, ret, no_data_start.
  destruct (read_csv _) as [e | cols]; [simpl; intros H; inversion H |].
  destruct (find_date_column _) as [date_col |]; [| intros H; inversion H].
  destruct (lookup_column _ _) as [col |]; [| discriminate].
  unfold parse_date_column, to_datetime_ymd. discriminate.
Qed.

End BoundaryFacts.

(** ** Columns of a frame *)

Section Columns.

Lemma lookup_column_assign_same (name : string) (data : list cell) cols :
  lookup_column name (assign_column name data cols) = Some data.
Proof.
  induction cols as [| [n c] r IH]; simpl.
  - rewrite String.eqb_refl. reflexivity.
  - destruct (String.eqb n name) eqn:E; simpl; rewrite E; [reflexivity | exact IH].
Qed.

Lemma lookup_column_assign_other (name other : string) (data : list cell) cols :
  other <> name ->
  lookup_column other (assign_column name data cols) = lookup_column other cols.
Proof.
  intros Hne. induction cols as [| [n c] r IH]; simpl.
  - destruct (String.eqb_spec name other); [congruence | reflexivity].
  - destruct (String.eqb_spec n name) as [-> | Hn]; simpl.
    + destruct (String.eqb_spec name other); [congruence | reflexivity].
    + destruct (String.eqb n other); [reflexivity | exact IH].
Qed.

Lemma assign_column_twice (name : string) (a b : list cell) cols :
  assign_column name b (assign_column name a cols) = assign_column name b cols.
Proof.
  induction cols as [| [n c] r IH]; simpl.
  - rewrite String.eqb_refl. reflexivity.
  - destruct (String.eqb n name) eqn:E; simpl; rewrite E; [reflexivity |].
    f_equal. exact IH.
Qed.

Lemma assign_column_fresh (name : string) (data : list cell) cols :
  ~ In name (map fst cols) ->
  assign_column name data cols = (cols ++ [(name, data)])%list.
Proof.
  induction cols as [| [n c] r IH]; simpl; intros H; [reflexivity |].
  destruct (String.eqb_spec n name) as [-> | Hn]; [tauto |].
  f_equal. apply IH. tauto.
Qed.

Lemma has_column_lookup (name : string) (df : DataFrame) :
  has_column name df = true <-> exists c, get_column name df = Some c.
Proof.
  unfold has_column, get_column, column_names.
  induction (columns df) as [| [n c] r IH]; simpl.
  - split; [discriminate | intros [c H]; discriminate].
  - rewrite (String.eqb_sym name n).
    destruct (String.eqb n name); simpl; [split; eauto | exact IH].
Qed.

Lemma get_column_in (name : string) (df : DataFrame) :
  In name (column_names df) -> exists c, get_column name df = Some c.
Proof.
  intros H. apply has_column_lookup. unfold has_column.
  apply existsb_exists. exists name. split; [exact H | apply String.eqb_refl].
Qed.

End Columns.

(** ** The evaporation shift *)

Section EvaporationShift.

Lemma last_cons_default {A : Type} (l : list A) (x d : A) :
  List.last (x :: l) d = List.last l x.
Proof.
  revert x d. induction l as [| y r IH]; intros x d; [reflexivity |].
  change (List.last (x :: y :: r) d) with (List.last (y :: r) d).
  rewrite (IH y d), (IH y x). reflexivity.
Qed.

Lemma ffill_from_length (col : list cell) : forall last,
  List.length (ffill_from last col) = List.length col.
Proof.
  induction col as [| c t IH]; intros last; simpl; [reflexivity |].
  destruct (notna c); simpl; rewrite IH; reflexivity.
Qed.

Lemma ffill_from_all_valid (col : list cell) : forall last,
  forallb notna col = true -> ffill_from last col = col.
Proof.
  induction col as [| c t IH]; intros last; simpl; [reflexivity |].
  intros H. apply andb_true_iff in H as [Hc Ht]. rewrite Hc.
  f_equal. apply IH. exact Ht.
Qed.

(** The null that the shift leaves on the last row takes the filled value
    of the row above it. *)
Lemma ffill_from_snoc_null (col : list cell) : forall last,
  ffill_from last (col ++ [NaN]) =
  (ffill_from last col ++ [List.last (ffill_from last col) last])%list.
Proof.
  induction col as [| c t IH]; intros last.
  - reflexivity.
  - simpl. destruct (notna c); rewrite IH, last_cons_default; reflexivity.
Qed.

Lemma existsb_isna_false (col : list cell) :
  existsb isna col = false -> forallb notna col = true.
Proof.
  induction col as [| c t IH]; simpl; [reflexivity |].
  unfold isna at 1. destruct (notna c); simpl; [exact IH | discriminate].
Qed.

(** What [shift_evaporation] computes: the column moved up by one row and
    forward filled, every other column and the index as they were. *)
Lemma shift_evaporation_inr (df : DataFrame) (evap : list cell) :
  get_column "evap_pan" df = Some evap ->
  shift_evaporation df
  = inr (set_column "evap_pan" (ffill (shift_up evap)) df).
Proof.
  intros H. unfold shift_evaporation.
  assert (Hhas : has_column "evap_pan" df = true)
    by (apply has_column_lookup; eauto).
  rewrite Hhas, H. cbn [negb].
  destruct (existsb isna (shift_up evap)) eqn:E; unfold ret, set_column; cbn [index columns].
  - rewrite assign_column_twice. reflexivity.
  - unfold ffill. rewrite (ffill_from_all_valid _ _ (existsb_isna_false _ E)).
    reflexivity.
Qed.

Lemma shift_evaporation_other_columns (df df' : DataFrame) (name : string) :
  shift_evaporation df = inr df' ->
  index df' = index df
  /\ (name <> "evap_pan" -> get_column name df' = get_column name df).
Proof.
  intros H. unfold shift_evaporation in H.
  destruct (has_column "evap_pan" df); [| discriminate].
  cbn [negb] in H. destruct (get_column "evap_pan" df) as [evap |]; [| discriminate].
  destruct (existsb isna (shift_up evap)); injection H as <-;
    (split; [reflexivity |]); intros Hne; unfold get_column, set_column;
    cbn [columns]; rewrite ?lookup_column_assign_other by exact Hne; reflexivity.
Qed.

(** The rows of a column after the first, as the shift holds them: the
    integers of a column of numbers have become floats. *)
Definition shifted_rows (first : cell) (evap : list cell) : list cell :=
  if forallb is_number (first :: evap) then map as_float evap else evap.

Lemma shift_up_cons (first : cell) (evap : list cell) :
  shift_up (first :: evap) = (shifted_rows first evap ++ [NaN])%list.
Proof. reflexivity. Qed.

Lemma shifted_rows_length (first : cell) (evap : list cell) :
  List.length (shifted_rows first evap) = List.length evap.
Proof.
  unfold shifted_rows. destruct (forallb is_number (first :: evap));
    [apply length_map | reflexivity].
Qed.

(** The shift changes no value: a row holds the cell of the next row, an
    integer as the float of the same value. *)
Lemma shifted_rows_nth (first : cell) (evap : list cell) (i : nat) :
  nth i (shifted_rows first evap) NaN = nth i evap NaN
  \/ nth i (shifted_rows first evap) NaN = as_float (nth i evap NaN).
Proof.
  unfold shifted_rows. destruct (forallb is_number (first :: evap)); [| now left].
  right. change NaN with (as_float NaN) at 1. apply map_nth.
Qed.

(** Without a null after the first row, every day but the last receives
    the value of the next day, and the last day repeats the day before. *)
Lemma shift_evaporation_without_nulls (df : DataFrame) (first : cell) (evap : list cell) :
  get_column "evap_pan" df = Some (first :: evap) ->
  forallb notna (shifted_rows first evap) = true ->
  exists df',
    shift_evaporation df = inr df'
    /\ get_column "evap_pan" df'
       = Some (shifted_rows first evap
               ++ [List.last (shifted_rows first evap) NaN])%list.
Proof.
  intros H Hv. eexists. split; [apply shift_evaporation_inr; exact H |].
  unfold get_column, set_column. cbn [columns].
  rewrite lookup_column_assign_same. f_equal.
  unfold ffill. rewrite shift_up_cons, ffill_from_snoc_null.
  rewrite (ffill_from_all_valid _ _ Hv). reflexivity.
Qed.

(** The last row always repeats the filled value of the row above it. *)
Lemma shift_evaporation_last_row (df : DataFrame) (first : cell) (evap : list cell) :
  get_column "evap_pan" df = Some (first :: evap) ->
  exists df' filled,
    shift_evaporation df = inr df'
    /\ List.length filled = List.length evap
    /\ get_column "evap_pan" df' = Some (filled ++ [List.last filled NaN])%list.
Proof.
  intros H. exists (set_column "evap_pan" (ffill (shift_up (first :: evap))) df).
  exists (ffill_from NaN (shifted_rows first evap)).
  split; [apply shift_evaporation_inr; exact H |].
  split; [rewrite ffill_from_length; apply shifted_rows_length |].
  unfold get_column, set_column. cbn [columns].
  rewrite lookup_column_assign_same. f_equal.
  unfold ffill. rewrite shift_up_cons. apply ffill_from_snoc_null.
Qed.

(** A normalized series of four days whose third day has no evaporation
    value (a sentinel in the response, or a date the response skipped). *)
Definition evap_gap_series : DataFrame :=
  mkDataFrame [10957; 10958; 10959; 10960]
    [ ("daily_rain", [Float 0; Float 0; Float 0; Float 0]);
      ("max_temp", [Float 30; Float 32; Float 31; Float 29]);
      ("min_temp", [Float 20; Float 18; Float 19; Float 17]);
      ("vp", [Float 12; Float 12; Float 12; Float 12]);
      ("radiation", [Float 25; Float 26; Float 27; Float 28]);
      ("et_short_crop", [Float 5; Float 5; Float 5; Float 5]);
      ("evap_pan", [Float 1; Float 2; NaN; Float 4]);
      ("code", [Str "222222"; Str "222222"; Str "222222"; Str "222222"]) ].

(** C2, at the failing input.  The third day has no value, so after the
    shift the second day should have none; the forward fill gives it the
    value 2 of the day before. *)
Theorem shift_evaporation_fills_interior_null :
  exists df' pre post,
    get_column "evap_pan" evap_gap_series = Some pre
    /\ shift_evaporation evap_gap_series = inr df'
    /\ get_column "evap_pan" df' = Some post
    /\ nth 2 pre (Str "") = NaN
    /\ nth 1 post (Str "") = Float 2
    /\ post = [Float 2; Float 2; Float 4; Float 4].
Proof.
  eexists. eexists. eexists.
  split; [reflexivity |].
  split; [vm_compute; reflexivity |].
  split; [vm_compute; reflexivity |].
  repeat split.
Qed.

End EvaporationShift.

(** ** Dates of the response *)

(** Stand-ins for the library calls on the values of the examples. *)
Module Fixtures.

(** The format [%Y%m%d] on a token of eight digits. *)
Definition compact_date (v : Z) : option Z :=
  let y := v / 10000 in
  let m := (v / 100) mod 100 in
  let d := v mod 100 in
  if (1 <=? y) && (1 <=? m) && (m <=? 12) && (1 <=? d)
     && (d <=? Calendar.days_in_month y m)
  then Some (Calendar.days_from_civil y m d) else None.

Definition strptime_ymd (c : cell) : option Z :=
  match c with
  | Str s =>
      if (String.length s =? 8)%nat && PyStr.isdigit s
      then compact_date (PyStr.digits_value 0 s) else None
  | Int z => if (10000000 <=? z) && (z <=? 99999999) then compact_date z else None
  | Float _ => None
  end.

Fixpoint without_dashes (s : string) : string :=
  match s with
  | EmptyString => EmptyString
  | String c t =>
      if Ascii.eqb c "-"%char then without_dashes t else String c (without_dashes t)
  end.

(** A parser without a format: it also reads [YYYY-MM-DD]. *)
Definition to_datetime_infer (col : list cell) : option (list (option Z)) :=
  Some (map (fun c => match c with
                      | Str s => strptime_ymd (Str (without_dashes s))
                      | _ => strptime_ymd c
                      end) col).

(** [str(x)] of the floats of the examples, which have one decimal. *)
Definition float_repr (x : float) : string := PyFloat.format_f 1 x.

End Fixtures.

Section DateColumn.

Variable strptime_ymd : cell -> option Z.
Variable to_datetime_infer : list cell -> option (list (option Z)).

(** The call with the strict format never raises, so the parser without
    a format is never consulted. *)
Lemma parse_date_column_strict (col : list cell) :
  parse_date_column strptime_ymd to_datetime_infer col
  = inr (map strptime_ymd col).
Proof. reflexivity. Qed.

Lemma valid_rows_dates (dates : list (option Z)) : forall i,
  map fst (valid_rows i dates)
  = flat_map (fun o => match o with Some d => [d] | None => [] end) dates.
Proof.
  induction dates as [| [d |] r IH]; intros i; simpl; [reflexivity | |].
  - f_equal. apply IH.
  - apply IH.
Qed.

(** The rows that stay are those whose date the strict format reads. *)
Lemma set_index_dropna_index (date_col : string) (col : list cell) cols :
  index (set_index_dropna date_col (map strptime_ymd col) cols)
  = flat_map (fun c => match strptime_ymd c with Some d => [d] | None => [] end) col.
Proof.
  unfold set_index_dropna. cbn [index]. rewrite valid_rows_dates.
  induction col as [| c r IH]; simpl; [reflexivity |].
  rewrite IH. reflexivity.
Qed.

End DateColumn.

(** A response whose second record writes its date as [2000-01-02]. *)
Definition iso_date_text : string :=
  "SILO patched point data" ++ newline
  ++ "Date Rain T.Max T.Min VP Radn FAO56 Evap" ++ newline
  ++ "20000101 1.0 30.0 20.0 12.0 25.0 5.0 6.0" ++ newline
  ++ "2000-01-02 2.0 32.0 18.0 12.0 26.0 5.0 7.0".

(** The table [pd.read_csv] returns for the two records of
    [iso_date_text]. *)
Definition iso_date_table : list (string * list cell) :=
  [ ("Date", [Str "20000101"; Str "2000-01-02"]);
    ("Rain", [Float 1; Float 2]);
    ("T.Max", [Float 30; Float 32]);
    ("T.Min", [Float 20; Float 18]);
    ("VP", [Float 12; Float 12]);
    ("Radn", [Float 25; Float 26]);
    ("FAO56", [Float 5; Float 5]);
    ("Evap", [Float 6; Float 7]) ].

(** C7, at the failing input.  The date [2000-01-02] fails the strict
    format and would be read by a parser without a format, yet the record
    is dropped: the raw table keeps the first record only. *)
Theorem unparsed_dates_are_not_retried :
  (forall strptime_ymd to_datetime_infer col,
     parse_date_column strptime_ymd to_datetime_infer col
     = inr (map strptime_ymd col))
  /\ Fixtures.strptime_ymd (Str "2000-01-02") = None
  /\ Fixtures.to_datetime_infer [Str "2000-01-02"] = Some [Some 10958]
  /\ exists df,
       parse_silo_response (fun _ => inr iso_date_table) (fun col => col)
         Fixtures.strptime_ymd Fixtures.to_datetime_infer iso_date_text "fao56"
       = inr df
       /\ index df = [10957]
       /\ get_column "Rain" df = Some [Float 1].
Proof.
  split; [intros; apply parse_date_column_strict |].
  split; [vm_compute; reflexivity |].
  split; [vm_compute; reflexivity |].
  eexists. split; [vm_compute; reflexivity |].
  split; reflexivity.
Qed.

(** ** Resolution of the canonical variables *)

Section Resolution.

Import Resolve.

(** The three definitions below follow the words of the specification,
    not the loops of the source; the lemmas after them relate the two. *)

(** The source names that a mapping gives to a canonical variable, in the
    order in which the mapping declares them. *)
Definition candidates (mapping : list (string * string)) (output_col : string)
  : list string :=
  map fst
    (filter (fun item => negb (String.eqb (fst item) "Date")
                         && String.eqb (snd item) output_col) mapping).

(** The test applied to a raw column and a candidate name. *)
Definition column_matches (col silo_col : string) : bool :=
  name_matches (PyStr.lower (PyStr.strip col)) (PyStr.strip (PyStr.lower silo_col)).

(** The first raw column, in the order of the table, that some candidate
    name matches. *)
Definition first_match (cols possible_names : list string) : option string :=
  find (fun col => existsb (column_matches col) possible_names) cols.

Lemma dict_get_append (k v key : string) (d : dict) :
  dict_get key (dict_append k v d) =
  if String.eqb k key
  then Some (match dict_get key d with Some vs => vs ++ [v] | None => [v] end)%list
  else dict_get key d.
Proof.
  induction d as [| [k' vs] r IH]; simpl.
  - destruct (String.eqb k key); reflexivity.
  - destruct (String.eqb_spec k' k) as [-> | Hk]; simpl.
    + destruct (String.eqb k key); reflexivity.
    + destruct (String.eqb_spec k' key) as [-> | Hk'].
      * destruct (String.eqb_spec k key); [congruence | reflexivity].
      * exact IH.
Qed.

Lemma output_to_silo_fold (key : string) (mapping : list (string * string)) :
  forall d,
    dict_get key
      (fold_left
         (fun d item =>
            let '(silo_col, output_col) := item in
            if String.eqb silo_col "Date" then d
            else dict_append output_col silo_col d) mapping d)
    = match dict_get key d, candidates mapping key with
      | None, [] => None
      | None, c => Some c
      | Some a, c => Some (a ++ c)%list
      end.
Proof.
  induction mapping as [| [s o] r IH]; intros d.
  - simpl. destruct (dict_get key d); [rewrite app_nil_r |]; reflexivity.
  - cbn [fold_left]. rewrite IH. unfold candidates. cbn [filter fst snd].
    destruct (String.eqb s "Date"); cbn [negb andb]; [reflexivity |].
    rewrite dict_get_append.
    destruct (String.eqb o key); cbn [map fst]; [| reflexivity].
    destruct (dict_get key d) as [a |].
    + rewrite <- app_assoc. reflexivity.
    + destruct (map fst _); reflexivity.
Qed.

(** The candidate list of a variable is the mapping read in declaration
    order. *)
Lemma output_to_silo_candidates (mapping : list (string * string)) (key : string) :
  dict_get key (output_to_silo mapping)
  = match candidates mapping key with [] => None | c => Some c end.
Proof.
  unfold output_to_silo. rewrite output_to_silo_fold. simpl.
  destruct (candidates mapping key); reflexivity.
Qed.

Lemma try_names_spec (col col_lower : string) (names : list string) found_col :
  try_names col col_lower names found_col
  = if existsb (fun n => name_matches col_lower (PyStr.strip (PyStr.lower n))) names
    then Some col else found_col.
Proof.
  induction names as [| n r IH]; simpl; [reflexivity |].
  destruct (name_matches col_lower _); simpl; [reflexivity | exact IH].
Qed.

(** The two loops are a search for the first matching column, as long as
    no column has the empty name. *)
Lemma find_column_first_match (cols names : list string) :
  Forall (fun c => c <> "") cols ->
  find_column cols names None = first_match cols names.
Proof.
  unfold first_match. induction 1 as [| c r Hc _ IH]; simpl; [reflexivity |].
  rewrite try_names_spec. unfold column_matches.
  destruct (existsb _ names).
  - destruct c; [congruence | reflexivity].
  - simpl. exact IH.
Qed.

Lemma first_match_in (cols names : list string) (found : string) :
  first_match cols names = Some found ->
  In found cols /\ existsb (column_matches found) names = true.
Proof. apply find_some. Qed.

Lemma first_match_is_first (cols names : list string) (found : string) :
  first_match cols names = Some found ->
  exists before after,
    cols = (before ++ found :: after)%list
    /\ Forall (fun c => existsb (column_matches c) names = false) before.
Proof.
  unfold first_match. induction cols as [| c r IH]; simpl; [discriminate |].
  destruct (existsb (column_matches c) names) eqn:E.
  - intros [= <-]. exists [], r. split; [reflexivity | constructor].
  - intros H. destruct (IH H) as (b & a & -> & Hb).
    exists (c :: b), a. split; [reflexivity | constructor; assumption].
Qed.

Lemma first_match_none (cols names : list string) :
  first_match cols names = None ->
  forall c n, In c cols -> In n names -> column_matches c n = false.
Proof.
  intros H c n Hc Hn. unfold first_match in H.
  pose proof (find_none _ _ H c Hc) as E.
  destruct (column_matches c n) eqn:M; [| reflexivity].
  assert (existsb (column_matches c) names = true)
    by (apply existsb_exists; eauto).
  congruence.
Qed.

(** The columns with a name, in the order of the table. *)
Definition named (cols : list string) : list string :=
  filter (fun c => negb (String.eqb c "")) cols.

Lemma first_match_named_none (cols names : list string) (c : string) :
  first_match (named cols) names = None ->
  first_match cols names = Some c -> c = "".
Proof.
  unfold first_match, named. induction cols as [| x r IH]; simpl; [discriminate |].
  destruct (String.eqb_spec x "") as [-> | Hx]; cbn [negb].
  - destruct (existsb (column_matches "") names); [intros _ [= <-]; reflexivity | exact IH].
  - simpl. destruct (existsb (column_matches x) names); [discriminate | exact IH].
Qed.

(** What the two loops compute on any table.  A column stops the search
    when one of the names matches it and its own name is not empty; a
    matching column without a name is remembered and the search goes
    on. *)
Lemma find_column_falsy (cols names : list string) : forall found_col,
  truthy found_col = false ->
  find_column cols names found_col
  = match first_match (named cols) names with
    | Some c => Some c
    | None =>
        match first_match cols names with
        | Some c => Some c
        | None => found_col
        end
    end.
Proof.
  unfold first_match, named.
  induction cols as [| col r IH]; intros fc Hfc; simpl; [reflexivity |].
  rewrite try_names_spec. fold (column_matches col).
  change (fun n => name_matches (PyStr.lower (PyStr.strip col))
                     (PyStr.strip (PyStr.lower n)))
    with (column_matches col).
  destruct (existsb (column_matches col) names) eqn:Em.
  - destruct (String.eqb_spec col "") as [-> | Hne]; cbn [negb].
    + cbn [truthy]. rewrite (IH (Some "") eq_refl).
      destruct (find _ (filter _ r)) as [c |] eqn:Ef; [reflexivity |].
      destruct (find _ r) as [c |] eqn:Eg; [| reflexivity].
      f_equal. exact (first_match_named_none r names c Ef Eg).
    + simpl. rewrite Em. destruct col; [congruence | reflexivity].
  - rewrite Hfc. rewrite (IH fc Hfc).
    destruct (String.eqb col ""); cbn [negb]; [reflexivity |].
    simpl. rewrite Em. reflexivity.
Qed.

Lemma find_column_skips_nameless (cols names : list string) :
  find_column cols names None
  = match first_match (named cols) names with
    | Some c => Some c
    | None => first_match cols names
    end.
Proof.
  rewrite (find_column_falsy cols names None eq_refl).
  destruct (first_match (named cols) names); [reflexivity |].
  destruct (first_match cols names); reflexivity.
Qed.

Lemma name_matches_spec (a b : string) :
  name_matches a b = true <->
  a = b \/ PyStr.contains b a = true \/ PyStr.contains a b = true.
Proof.
  unfold name_matches. rewrite !orb_true_iff, String.eqb_eq. tauto.
Qed.

End Resolution.

(** ** The normalized series *)

Section Normalized.

Import Resolve.

Variable float_repr : float -> string.

(** The mapping that [extract_variables] selects for a format tag. *)
Definition mapping_for (format : string) : list (string * string) :=
  if String.eqb format "fao56" then FAO56_MAPPING else DAILY_MAPPING.

(** A candidate list resolves to the data of the column the loops find. *)
Definition resolved (df : DataFrame) (possible_names : list string)
  (data : list cell) : Prop :=
  exists found_col,
    find_column (column_names df) possible_names None = Some found_col
    /\ get_column found_col df = Some data.

(** The columns of the series before it is reindexed. *)
Definition normalized_columns (datas : list (list cell)) (code : list cell)
  : list (string * list cell) :=
  (combine REQUIRED_VARIABLES (map replace_missing_codes datas)
   ++ [("code", code)])%list.

Lemma required_have_candidates (format v : string) :
  In v REQUIRED_VARIABLES ->
  dict_get v (output_to_silo (mapping_for format))
  = Some (candidates (mapping_for format) v).
Proof.
  intros H. rewrite output_to_silo_candidates. unfold mapping_for.
  destruct (String.eqb format "fao56");
    repeat (destruct H as [<- | H]; [reflexivity |]); destruct H.
Qed.

Lemma map_variables_inr (df : DataFrame) (o2s : dict)
  (cand : string -> list string) :
  forall vars acc out,
    (forall v, In v vars -> dict_get v o2s = Some (cand v)) ->
    NoDup vars ->
    (forall v, In v vars -> ~ In v (map fst (columns acc))) ->
    map_variables df o2s vars acc = inr out ->
    index out = index acc
    /\ exists datas,
         Forall2 (fun v data => resolved df (cand v) data) vars datas
         /\ columns out
            = (columns acc ++ combine vars (map replace_missing_codes datas))%list.
Proof.
  induction vars as [| v rest IH]; intros acc out Hget Hnd Hfresh H.
  - injection H as <-. split; [reflexivity |].
    exists []. split; [constructor | simpl; rewrite app_nil_r; reflexivity].
  - cbn [map_variables] in H. rewrite (Hget v (or_introl eq_refl)) in H.
    destruct (find_column (column_names df) (cand v) None) as [found |] eqn:Ef;
      [| discriminate].
    destruct (get_column found df) as [data |] eqn:Eg; [| discriminate].
    inversion Hnd as [| ? ? Hv Hrest]; subst.
    apply IH in H; [| intros; apply Hget; now right | exact Hrest |].
    + destruct H as [Hi (datas & Hall & Hcols)]. split; [exact Hi |].
      exists (data :: datas). split.
      * constructor; [exists found; split; assumption | exact Hall].
      * rewrite Hcols. cbn [set_column columns].
        rewrite assign_column_fresh by (apply Hfresh; now left).
        rewrite <- app_assoc. reflexivity.
    + intros u Hu. cbn [set_column columns].
      rewrite assign_column_fresh by (apply Hfresh; now left).
      rewrite map_app, in_app_iff. cbn [map fst In].
      intros [Hin | [-> | []]]; [apply (Hfresh u); [now right | exact Hin] | tauto].
Qed.

Lemma required_nodup : NoDup REQUIRED_VARIABLES.
Proof.
  unfold REQUIRED_VARIABLES.
  repeat (constructor; [cbn [In]; intuition discriminate |]).
  constructor.
Qed.

(** What a successful [extract_variables] returns. *)
Lemma extract_variables_inr (df : DataFrame) (format : string) (out : DataFrame) :
  extract_variables float_repr df format = inr out ->
  exists datas code,
    Forall2 (fun v data => resolved df (candidates (mapping_for format) v) data)
      REQUIRED_VARIABLES datas
    /\ code_column float_repr df = inr code
    /\ ((index df = [] /\ out = mkDataFrame [] (normalized_columns datas code))
        \/ (index df <> [] /\ has_duplicates (index df) = false
            /\ let full_date_range :=
                 date_range (index_min (index df)) (index_max (index df)) in
               out = mkDataFrame full_date_range
                       (map (fun nc => (fst nc,
                               reindex_column (index df) full_date_range (snd nc)))
                            (normalized_columns datas code)))).
Proof.
  unfold extract_variables. fold (mapping_for format). intros H.
  destruct (map_variables df _ REQUIRED_VARIABLES _) as [e | odf] eqn:Em;
    [discriminate |].
  apply (map_variables_inr df _ (candidates (mapping_for format))) in Em;
    [| intros; now apply required_have_candidates | exact required_nodup
     | intros v _ []].
  destruct Em as [Hidx (datas & Hall & Hcols)].
  cbn [index columns app] in Hidx, Hcols.
  cbn [bind] in H. destruct (code_column float_repr df) as [e | code] eqn:Ec;
    [discriminate |].
  exists datas, code. split; [exact Hall |]. split; [reflexivity |].
  pose proof Hall as Hlen. apply Forall2_length in Hlen.
  destruct datas as [| d1 [| d2 [| d3 [| d4 [| d5 [| d6 [| d7 [|]]]]]]]];
    try discriminate Hlen.
  destruct odf as [oidx ocols]. cbn [index columns] in *. subst oidx ocols.
  cbn -[reindex date_range index_min index_max replace_missing_codes] in H.
  unfold len in H. cbn [index] in H.
  destruct (index df) as [| d0 rest] eqn:Ei.
  - cbn in H. injection H as <-. left. split; reflexivity.
  - cbn [List.length Nat.ltb Nat.leb] in H. unfold reindex in H.
    cbn [index columns] in H.
    destruct (has_duplicates (d0 :: rest)) eqn:Ed; [discriminate |].
    injection H as <-. right. split; [discriminate |]. split; reflexivity.
Qed.

End Normalized.

(** ** Indexes, calendars and reindexing *)

Section Reindexing.

(** [df.at[d, name]]: the cell of a column on the first row dated [d]. *)
Definition cell_at (df : DataFrame) (name : string) (d : Z) : option cell :=
  match get_column name df, index_of d (index df) with
  | Some col, Some i => nth_error col i
  | _, _ => None
  end.

(** Every column is as long as the index. *)
Definition well_formed (df : DataFrame) : Prop :=
  Forall (fun nc => List.length (snd nc) = List.length (index df)) (columns df).

Lemma index_of_nth_error (idx : list Z) : forall d i,
  index_of d idx = Some i -> nth_error idx i = Some d.
Proof.
  induction idx as [| x r IH]; intros d i; simpl; [discriminate |].
  destruct (Z.eqb_spec x d) as [-> | Hne].
  - intros [= <-]. reflexivity.
  - destruct (index_of d r) as [j |] eqn:E; [| discriminate].
    intros [= <-]. simpl. apply IH. exact E.
Qed.

Lemma index_of_in (idx : list Z) (d : Z) :
  In d idx -> exists i, index_of d idx = Some i.
Proof.
  induction idx as [| x r IH]; simpl; [tauto |].
  intros H. destruct (Z.eqb_spec x d) as [-> | Hne]; [eauto |].
  destruct H as [H | H]; [congruence |].
  destruct (IH H) as [i ->]. eauto.
Qed.

Lemma index_of_none (idx : list Z) (d : Z) :
  ~ In d idx -> index_of d idx = None.
Proof.
  intros H. destruct (index_of d idx) as [i |] eqn:E; [| reflexivity].
  exfalso. apply H. apply index_of_nth_error in E.
  eapply nth_error_In. exact E.
Qed.

Lemma has_duplicates_cons (x : Z) (r : list Z) :
  has_duplicates (x :: r) = false -> ~ In x r /\ has_duplicates r = false.
Proof.
  simpl. intros H. apply orb_false_iff in H as [Hx Hr]. split; [| exact Hr].
  intros Hin. assert (existsb (Z.eqb x) r = true); [| congruence].
  apply existsb_exists. exists x. split; [exact Hin | apply Z.eqb_refl].
Qed.

(** In an index without duplicates a date names its row. *)
Lemma index_of_unique (idx : list Z) : forall d i,
  has_duplicates idx = false ->
  nth_error idx i = Some d -> index_of d idx = Some i.
Proof.
  induction idx as [| x r IH]; intros d i Hd Hn; [destruct i; discriminate |].
  apply has_duplicates_cons in Hd as [Hx Hr].
  destruct i as [| i]; simpl in *.
  - injection Hn as ->. rewrite Z.eqb_refl. reflexivity.
  - destruct (Z.eqb_spec x d) as [-> | Hne].
    + exfalso. apply Hx. eapply nth_error_In. exact Hn.
    + rewrite (IH d i Hr Hn). reflexivity.
Qed.

Lemma fold_min_le (r : list Z) : forall x d,
  x = d \/ In d r -> fold_left Z.min r x <= d.
Proof.
  induction r as [| y r IH]; intros x d H; simpl.
  - destruct H as [-> | []]. lia.
  - destruct H as [-> | [-> | H]].
    + transitivity (Z.min d y); [apply IH; now left | lia].
    + transitivity (Z.min x d); [apply IH; now left | lia].
    + apply IH. now right.
Qed.

Lemma fold_max_ge (r : list Z) : forall x d,
  x = d \/ In d r -> d <= fold_left Z.max r x.
Proof.
  induction r as [| y r IH]; intros x d H; simpl.
  - destruct H as [-> | []]. lia.
  - destruct H as [-> | [-> | H]].
    + transitivity (Z.max d y); [lia | apply IH; now left].
    + transitivity (Z.max x d); [lia | apply IH; now left].
    + apply IH. now right.
Qed.

Lemma index_bounds (idx : list Z) (d : Z) :
  In d idx -> index_min idx <= d <= index_max idx.
Proof.
  destruct idx as [| x r]; [intros [] |]. simpl index_min. simpl index_max.
  intros H. split; [apply fold_min_le | apply fold_max_ge];
    destruct H as [-> | H]; auto.
Qed.

Lemma date_range_length (start stop : Z) :
  List.length (date_range start stop) = Z.to_nat (stop - start + 1).
Proof. unfold date_range. rewrite length_map, length_seq. reflexivity. Qed.

(** The calendar has no gap: its k-th date is [start] plus k days. *)
Lemma date_range_nth (start stop : Z) (k : nat) :
  (k < Z.to_nat (stop - start + 1))%nat ->
  nth_error (date_range start stop) k = Some (start + Z.of_nat k).
Proof.
  intros H. unfold date_range.
  rewrite nth_error_map, nth_error_seq.
  destruct (Nat.ltb_spec k (Z.to_nat (stop - start + 1))); [reflexivity | lia].
Qed.

Lemma date_range_in (start stop d : Z) :
  In d (date_range start stop) <-> start <= d <= stop.
Proof.
  unfold date_range. rewrite in_map_iff. split.
  - intros (k & <- & Hk). apply in_seq in Hk. lia.
  - intros H. exists (Z.to_nat (d - start)). split; [lia |].
    apply in_seq. lia.
Qed.

Lemma lookup_column_map (g : list cell -> list cell) (name : string) cols :
  lookup_column name (map (fun nc => (fst nc, g (snd nc))) cols)
  = option_map g (lookup_column name cols).
Proof.
  induction cols as [| [n c] r IH]; simpl; [reflexivity |].
  destruct (String.eqb n name); [reflexivity | exact IH].
Qed.

(** A cell of a reindexed frame: the cell of the source row of that date,
    the null marker when the source has no such row. *)
Lemma cell_at_reindexed (idx new_index : list Z) cols (name : string)
  (col : list cell) (d : Z) :
  lookup_column name cols = Some col ->
  In d new_index ->
  cell_at (mkDataFrame new_index
             (map (fun nc => (fst nc, reindex_column idx new_index (snd nc))) cols))
          name d
  = Some (match index_of d idx with
          | Some i => nth i col NaN
          | None => NaN
          end).
Proof.
  intros Hl Hin. unfold cell_at, get_column. cbn [index columns].
  rewrite lookup_column_map, Hl. cbn [option_map].
  destruct (index_of_in _ _ Hin) as [k Hk]. rewrite Hk.
  apply index_of_nth_error in Hk. unfold reindex_column.
  rewrite nth_error_map, Hk. reflexivity.
Qed.

Lemma normalized_columns_lookup (datas : list (list cell)) (code : list cell)
  (name : string) :
  List.length datas = List.length REQUIRED_VARIABLES ->
  In name (REQUIRED_VARIABLES ++ ["code"])%list ->
  exists col, lookup_column name (normalized_columns datas code) = Some col.
Proof.
  intros Hlen Hin.
  destruct datas as [| d1 [| d2 [| d3 [| d4 [| d5 [| d6 [| d7 [|]]]]]]]];
    try discriminate Hlen.
  cbn [app REQUIRED_VARIABLES In] in Hin.
  repeat (destruct Hin as [<- | Hin]; [eexists; reflexivity |]). destruct Hin.
Qed.

End Reindexing.

(** ** The calendar of the normalized series *)

Section SeriesCalendar.

Variable float_repr : float -> string.

Lemma normalized_column_names (datas : list (list cell)) (code : list cell) :
  List.length datas = List.length REQUIRED_VARIABLES ->
  map fst (normalized_columns datas code) = (REQUIRED_VARIABLES ++ ["code"])%list.
Proof.
  intros Hlen.
  destruct datas as [| d1 [| d2 [| d3 [| d4 [| d5 [| d6 [| d7 [|]]]]]]]];
    try discriminate Hlen.
  reflexivity.
Qed.

(** C1 (as amended).  For a raw table with at least one row, the series
    that [extract_variables] returns is indexed by the daily calendar from
    the first to the last date of the raw table, without a gap and of
    length (last - first) + 1; it keeps every date of the raw table, and a
    date of the calendar that the raw table lacks is a row that is null in
    every column, the code column included. *)
Theorem normalized_calendar_is_contiguous
  (df : DataFrame) (format : string) (out : DataFrame) :
  extract_variables float_repr df format = inr out ->
  index df <> [] ->
  let first := index_min (index df) in
  let last := index_max (index df) in
  index out = date_range first last
  /\ Z.of_nat (List.length (index out)) = last - first + 1
  /\ (forall k, (k < List.length (index out))%nat ->
        nth_error (index out) k = Some (first + Z.of_nat k))
  /\ (forall d, In d (index df) -> In d (index out))
  /\ column_names out = (REQUIRED_VARIABLES ++ ["code"])%list
  /\ (forall d name,
        first <= d <= last -> ~ In d (index df) ->
        In name (REQUIRED_VARIABLES ++ ["code"])%list ->
        cell_at out name d = Some NaN).
Proof.
  intros H Hne first last.
  destruct (extract_variables_inr float_repr df format out H)
    as (datas & code & Hall & _ & [[He _] | (_ & Hdup & ->)]); [contradiction |].
  fold first last. cbn [index].
  assert (Hlen : List.length datas = List.length REQUIRED_VARIABLES)
    by (symmetry; eapply Forall2_length; exact Hall).
  assert (Hle : first <= last).
  { destruct (index df) as [| x r] eqn:E; [contradiction |].
    pose proof (index_bounds (x :: r) x (or_introl eq_refl)). subst first last. lia. }
  split; [reflexivity |].
  split; [rewrite date_range_length; lia |].
  split; [intros k Hk; apply date_range_nth; rewrite <- date_range_length; exact Hk |].
  split; [intros d Hd; apply date_range_in; apply index_bounds; exact Hd |].
  split.
  - unfold column_names. cbn [columns]. rewrite map_map. cbn [fst].
    apply normalized_column_names. exact Hlen.
  - intros d name Hd Hnot Hname.
    destruct (normalized_columns_lookup datas code name Hlen Hname) as [col Hcol].
    rewrite (cell_at_reindexed _ _ _ _ _ _ Hcol) by (apply date_range_in; exact Hd).
    rewrite (index_of_none _ _ Hnot). reflexivity.
Qed.

End SeriesCalendar.

(** A raw table with a record for 2000-01-01 and one for 2000-01-03. *)
Definition gap_table : DataFrame :=
  mkDataFrame [10957; 10959]
    [ ("Day", [Int 1; Int 3]);
      ("Rain", [Float 1.5; Float 0]);
      ("T.Max", [Float 30; Float 31]);
      ("T.Min", [Float 20; Float 19]);
      ("VP", [Float 12; Float 13]);
      ("Radn", [Float 25; Float 27]);
      ("FAO56", [Float 5; Float 6]);
      ("Evap", [Float 6; Float 8]) ].

Definition gap_series : DataFrame :=
  mkDataFrame [10957; 10958; 10959]
    [ ("daily_rain", [Float 1.5; NaN; Float 0]);
      ("max_temp", [Float 30; NaN; Float 31]);
      ("min_temp", [Float 20; NaN; Float 19]);
      ("vp", [Float 12; NaN; Float 13]);
      ("radiation", [Float 25; NaN; Float 27]);
      ("et_short_crop", [Float 5; NaN; Float 6]);
      ("evap_pan", [Float 6; NaN; Float 8]);
      ("code", [Str "222222"; NaN; Str "222222"]) ].

Lemma gap_table_normalized (float_repr : float -> string) :
  extract_variables float_repr gap_table "fao56" = inr gap_series.
Proof. vm_compute. reflexivity. Qed.

Lemma normalized_calendar_is_contiguous_witness :
  extract_variables Fixtures.float_repr gap_table "fao56" = inr gap_series
  /\ index gap_table <> []
  /\ index gap_series = date_range 10957 10959
  /\ Z.of_nat (List.length (index gap_series)) = 10959 - 10957 + 1
  /\ cell_at gap_series "max_temp" 10958 = Some NaN.
Proof.
  assert (H : extract_variables Fixtures.float_repr gap_table "fao56" = inr gap_series)
    by apply gap_table_normalized.
  assert (Hne : index gap_table <> []) by discriminate.
  pose proof (normalized_calendar_is_contiguous Fixtures.float_repr
                gap_table "fao56" gap_series H Hne) as (H1 & H2 & _ & _ & _ & H6).
  split; [exact H |]. split; [exact Hne |].
  split; [exact H1 |]. split; [exact H2 |].
  apply H6.
  - vm_compute. split; discriminate.
  - cbn. intros [E | [E | []]]; discriminate.
  - cbn. tauto.
Defined.

(** C1, counterexample: 2000-01-02 is missing from the raw table; in the
    normalized series the code of that day is null, not ["222222"]. *)
Lemma gap_row_code_is_null :
  (forall float_repr,
     exists out,
       extract_variables float_repr gap_table "fao56" = inr out
       /\ In 10958 (index out)
       /\ cell_at out "code" 10958 = Some NaN)
  /\ NaN <> Str "222222"
  /\ ~ In 10958 (index gap_table).
Proof.
  split.
  - intros float_repr. exists gap_series.
    split; [apply gap_table_normalized |].
    split; [cbn; tauto | reflexivity].
  - split; [discriminate |]. cbn. intros [E | [E | []]]; discriminate.
Qed.

(** ** Missing-value sentinels *)

Section Sentinels.

Import Resolve.

(** A cell equal to one of the missing codes. *)
Definition is_sentinel (c : cell) : bool := existsb (cell_eqb c) MISSING_CODES.

(** The four replacements, seen on one cell. *)
Definition replace_cell (c : cell) : cell :=
  fold_left (fun c code => if cell_eqb c code then NaN else c) MISSING_CODES c.

Lemma replace_fold_map (codes : list cell) : forall data,
  fold_left (fun data code => replace code data) codes data
  = map (fold_left (fun c code => if cell_eqb c code then NaN else c) codes) data.
Proof.
  induction codes as [| code r IH]; intros data; simpl.
  - rewrite map_id. reflexivity.
  - rewrite IH. unfold replace. rewrite map_map. reflexivity.
Qed.

Lemma replace_missing_codes_map (data : list cell) :
  replace_missing_codes data = map replace_cell data.
Proof. apply replace_fold_map. Qed.

Lemma null_is_no_sentinel : is_sentinel NaN = false.
Proof. vm_compute. reflexivity. Qed.

Lemma replace_cell_null : replace_cell NaN = NaN.
Proof. vm_compute. reflexivity. Qed.

Lemma replace_cell_sentinel (c : cell) :
  is_sentinel c = true -> replace_cell c = NaN.
Proof.
  unfold is_sentinel, replace_cell, MISSING_CODES. cbn [existsb fold_left].
  assert (N2 : cell_eqb NaN (Float (-99.9)%float) = false) by (vm_compute; reflexivity).
  assert (N3 : cell_eqb NaN (Int (-999)) = false) by (vm_compute; reflexivity).
  assert (N4 : cell_eqb NaN (Int (-99)) = false) by (vm_compute; reflexivity).
  destruct (cell_eqb c (Int (-9999))); [rewrite N2, N3, N4; reflexivity |].
  destruct (cell_eqb c (Float (-99.9)%float)); [rewrite N3, N4; reflexivity |].
  destruct (cell_eqb c (Int (-999))); [rewrite N4; reflexivity |].
  destruct (cell_eqb c (Int (-99))); [reflexivity | discriminate].
Qed.

Lemma replace_cell_other (c : cell) :
  is_sentinel c = false -> replace_cell c = c.
Proof.
  unfold is_sentinel, replace_cell, MISSING_CODES. cbn [existsb fold_left].
  intros H. repeat (apply orb_false_iff in H as [-> H]). reflexivity.
Qed.

Lemma replaced_nth (data : list cell) (i : nat) :
  nth i (replace_missing_codes data) NaN = replace_cell (nth i data NaN).
Proof.
  rewrite replace_missing_codes_map. rewrite <- replace_cell_null at 1.
  apply map_nth.
Qed.

Lemma normalized_columns_variable (R : string -> list cell -> Prop)
  (datas : list (list cell)) (code : list cell) (v : string) :
  Forall2 R REQUIRED_VARIABLES datas ->
  In v REQUIRED_VARIABLES ->
  exists data,
    R v data
    /\ lookup_column v (normalized_columns datas code)
       = Some (replace_missing_codes data).
Proof.
  intros Hall Hin. unfold REQUIRED_VARIABLES in *.
  repeat match goal with
         | H : Forall2 _ (_ :: _) _ |- _ => inversion H; subst; clear H
         | H : Forall2 _ [] _ |- _ => inversion H; subst; clear H
         end.
  cbn [In] in Hin.
  repeat (destruct Hin as [<- | Hin]; [eexists; split; [eassumption | reflexivity] |]).
  destruct Hin.
Qed.

Variable float_repr : float -> string.

(** C4.  Let [df] be the raw table, that is, what the parser returns
    after its numeric coercion.  In the series that [extract_variables]
    makes of it, every canonical variable comes from a resolved column of
    [df], and wherever that column holds one of -9999, -99.9, -999, -99 the
    series holds a null.  The replacement belongs to [extract_variables],
    which [get_silo_data] runs on the result of the parser. *)
Theorem sentinels_become_null
  (df : DataFrame) (format : string) (out : DataFrame) :
  extract_variables float_repr df format = inr out ->
  (forall v, In v REQUIRED_VARIABLES ->
     exists data,
       resolved df (candidates (mapping_for format) v) data
       /\ forall i d,
            nth_error (index df) i = Some d ->
            is_sentinel (nth i data NaN) = true ->
            cell_at out v d = Some NaN)
  /\ (forall read_csv to_numeric strptime_ymd to_datetime_infer current_year
             request lat lon start_year end_year response_text,
        validate_coordinates float_repr lat lon = inr true ->
        validate_date_range current_year start_year end_year = inr tt ->
        request lat lon start_year end_year format = inr response_text ->
        check_authentication response_text = inr tt ->
        parse_silo_response read_csv to_numeric strptime_ymd to_datetime_infer
          response_text format = inr df ->
        get_silo_data float_repr read_csv to_numeric strptime_ymd
          to_datetime_infer current_year request
          lat lon start_year end_year format = inr out).
Proof.
  intros H. split.
  - intros v Hv.
    destruct (extract_variables_inr float_repr df format out H)
      as (datas & code & Hall & _ & Hout).
    destruct (normalized_columns_variable _ datas code v Hall Hv)
      as (data & Hres & Hlook).
    exists data. split; [exact Hres |].
    intros i d Hi Hs.
    destruct Hout as [[He _] | (_ & Hdup & ->)].
    + rewrite He in Hi. destruct i; discriminate.
    + assert (Hin : In d (index df)) by (eapply nth_error_In; exact Hi).
      rewrite (cell_at_reindexed _ _ _ _ _ _ Hlook)
        by (apply date_range_in, index_bounds; exact Hin).
      rewrite (index_of_unique _ _ _ Hdup Hi), replaced_nth.
      rewrite (replace_cell_sentinel _ Hs). reflexivity.
  - intros * Hc Hd Hr Ha Hp. unfold get_silo_data.
    rewrite Hc. cbn [bind]. rewrite Hd. cbn [bind]. rewrite Hr. cbn [bind].
    rewrite Ha. cbn [bind]. rewrite Hp. cbn [bind]. exact H.
Qed.

End Sentinels.

(** A raw table in which the four sentinels survived the numeric
    coercion of the parser. *)
Definition sentinel_table : DataFrame :=
  mkDataFrame [10957; 10958]
    [ ("Rain", [Float 1.5; Int (-9999)]);
      ("T.Max", [Float (-99.9)%float; Float 31]);
      ("T.Min", [Int (-999); Float 19]);
      ("VP", [Float 12; Int (-99)]);
      ("Radn", [Float 25; Float (-9999)]);
      ("FAO56", [Float 5; Float (-99)]);
      ("Evap", [Float 6; Float (-999)]) ].

Definition sentinel_series : DataFrame :=
  mkDataFrame [10957; 10958]
    [ ("daily_rain", [Float 1.5; NaN]);
      ("max_temp", [NaN; Float 31]);
      ("min_temp", [NaN; Float 19]);
      ("vp", [Float 12; NaN]);
      ("radiation", [Float 25; NaN]);
      ("et_short_crop", [Float 5; NaN]);
      ("evap_pan", [Float 6; NaN]);
      ("code", [Str "222222"; Str "222222"]) ].

Lemma sentinels_become_null_witness :
  extract_variables Fixtures.float_repr sentinel_table "fao56" = inr sentinel_series
  /\ forall v, In v REQUIRED_VARIABLES ->
       exists data,
         resolved sentinel_table (candidates (mapping_for "fao56") v) data
         /\ forall i d,
              nth_error (index sentinel_table) i = Some d ->
              is_sentinel (nth i data NaN) = true ->
              cell_at sentinel_series v d = Some NaN.
Proof.
  assert (H : extract_variables Fixtures.float_repr sentinel_table "fao56"
              = inr sentinel_series) by (vm_compute; reflexivity).
  split; [exact H |].
  exact (proj1 (sentinels_become_null Fixtures.float_repr
                  sentinel_table "fao56" sentinel_series H)).
Defined.

(** ** The code column *)

Section CodeColumn.

Import Resolve.

Lemma string_length_app (s t : string) :
  String.length (s ++ t) = (String.length s + String.length t)%nat.
Proof. induction s as [| c s IH]; simpl; [reflexivity | rewrite IH; reflexivity]. Qed.

Lemma replicate_length (n : nat) (c : ascii) :
  String.length (PyStr.replicate n c) = n.
Proof. induction n as [| n IH]; simpl; [reflexivity | rewrite IH; reflexivity]. Qed.

(** [zfill] pads, it never cuts: the result has the width asked for, or
    the length of the string when that is more. *)
Lemma zfill_length (w : nat) (s : string) :
  String.length (PyStr.zfill w s) = Nat.max w (String.length s).
Proof.
  unfold PyStr.zfill. destruct s as [| c t].
  - rewrite replicate_length. simpl. lia.
  - destruct (_ || _); cbn [String.length];
      rewrite string_length_app, replicate_length; cbn [String.length]; lia.
Qed.

Lemma nth_repeat_lt {A : Type} (x d : A) (n i : nat) :
  (i < n)%nat -> nth i (repeat x n) d = x.
Proof.
  revert i. induction n as [| n IH]; intros i H; [lia |].
  destruct i as [| i]; simpl; [reflexivity | apply IH; lia].
Qed.

Lemma nth_map_lt {A B : Type} (f : A -> B) (l : list A) (i : nat) (d : A) (d' : B) :
  (i < List.length l)%nat -> nth i (map f l) d' = f (nth i l d).
Proof.
  intros H. rewrite (nth_indep _ d' (f d)) by (rewrite length_map; exact H).
  apply map_nth.
Qed.

Lemma well_formed_column (df : DataFrame) (name : string) (data : list cell) :
  well_formed df -> get_column name df = Some data ->
  List.length data = List.length (index df).
Proof.
  unfold well_formed, get_column.
  induction (columns df) as [| [n c] r IH]; simpl; [discriminate |].
  intros Hwf. inversion Hwf as [| ? ? Hc Hr]; subst.
  destruct (String.eqb n name); [intros [= <-]; exact Hc | apply IH; exact Hr].
Qed.

Lemma find_code_column_named (cols : list string) (code_col : string) :
  find_code_column cols = Some code_col ->
  In code_col cols
  /\ PyStr.contains "code" (PyStr.lower code_col) = true
  /\ code_col <> "".
Proof.
  intros H. apply find_some in H as [Hin Hc].
  split; [exact Hin |]. split; [exact Hc |].
  intros ->. discriminate Hc.
Qed.

Lemma normalized_columns_code (datas : list (list cell)) (code : list cell) :
  List.length datas = List.length REQUIRED_VARIABLES ->
  lookup_column "code" (normalized_columns datas code) = Some code.
Proof.
  intros Hlen.
  destruct datas as [| d1 [| d2 [| d3 [| d4 [| d5 [| d6 [| d7 [|]]]]]]]];
    try discriminate Hlen.
  reflexivity.
Qed.

Lemma values_length (col : list cell) :
  List.length (values col) = List.length col.
Proof. unfold values. destruct (dtype_of col); [| apply length_map |]; reflexivity. Qed.

(** The three cases of the type of a column. *)
Lemma values_cases (col : list cell) :
  (forallb is_int col = true -> values col = col)
  /\ (forallb is_int col = false -> forallb is_number col = true ->
      values col = map as_float col)
  /\ (forallb is_number col = false -> values col = col).
Proof.
  unfold values, dtype_of. split; [| split].
  - intros ->. reflexivity.
  - intros -> ->. reflexivity.
  - intros H. destruct (forallb is_int col) eqn:E; [reflexivity |].
    rewrite H. reflexivity.
Qed.

(** The search of lines 349-353 stops at the first name that contains
    ["code"], case ignored. *)
Lemma find_code_column_first (cols before after : list string) (code_col : string) :
  cols = (before ++ code_col :: after)%list ->
  PyStr.contains "code" (PyStr.lower code_col) = true ->
  Forall (fun c => PyStr.contains "code" (PyStr.lower c) = false) before ->
  find_code_column cols = Some code_col.
Proof.
  intros -> Hc Hb. unfold find_code_column.
  induction Hb as [| c r Hn _ IH]; simpl; [rewrite Hc; reflexivity |].
  rewrite Hn. exact IH.
Qed.

Lemma find_code_column_none (cols : list string) :
  Forall (fun c => PyStr.contains "code" (PyStr.lower c) = false) cols ->
  find_code_column cols = None.
Proof.
  unfold find_code_column. induction 1 as [| c r Hn _ IH]; simpl; [reflexivity |].
  rewrite Hn. exact IH.
Qed.

(** Without a sign in front, [zfill] writes the missing zeros before the
    string. *)
Lemma zfill_unsigned (w : nat) (s : string) :
  (forall c t, s = String c t -> c <> "+"%char /\ c <> "-"%char) ->
  PyStr.zfill w s = PyStr.replicate (w - String.length s) "0"%char ++ s.
Proof.
  intros H. unfold PyStr.zfill. destruct s as [| c t].
  - induction (w - String.length "")%nat as [| n IH]; simpl; [reflexivity |].
    rewrite <- IH. reflexivity.
  - destruct (H c t eq_refl) as [Hp Hm].
    destruct (Ascii.eqb_spec c "+"%char); [contradiction |].
    destruct (Ascii.eqb_spec c "-"%char); [contradiction |].
    reflexivity.
Qed.

Variable float_repr : float -> string.

(** C6 (as amended).  The code column of the raw table is the first
    column, in the order of the table, whose lower-cased name contains
    ["code"].  On every row that comes from the raw table the code of the
    series is the string form of that column's value padded with zeros on
    the left to six characters at least (a longer string form is kept
    whole); when no column name contains ["code"] it is ["222222"]; a row
    that reindexing adds has a null code.  The string form is that of the
    value as its column holds it: the decimal digits of an integer in a
    column of integers, the float form of a number in a column that holds
    a float or a null, the string itself. *)
Theorem code_column_zero_padded
  (df : DataFrame) (format : string) (out : DataFrame) :
  extract_variables float_repr df format = inr out ->
  well_formed df ->
  (forall before code_col after,
     column_names df = (before ++ code_col :: after)%list ->
     PyStr.contains "code" (PyStr.lower code_col) = true ->
     Forall (fun c => PyStr.contains "code" (PyStr.lower c) = false) before ->
     exists data,
       get_column code_col df = Some data
       /\ forall i d,
            nth_error (index df) i = Some d ->
            cell_at out "code" d
            = Some (Str (PyStr.zfill 6
                           (astype_str float_repr (nth i (values data) NaN)))))
  /\ (Forall (fun c => PyStr.contains "code" (PyStr.lower c) = false)
             (column_names df) ->
      forall i d, nth_error (index df) i = Some d ->
        cell_at out "code" d = Some (Str "222222"))
  /\ (forall d, In d (index out) -> ~ In d (index df) ->
        cell_at out "code" d = Some NaN)
  /\ (forall s, String.length (PyStr.zfill 6 s) = Nat.max 6 (String.length s))
  /\ (forall s, (forall c t, s = String c t -> c <> "+"%char /\ c <> "-"%char) ->
        PyStr.zfill 6 s = PyStr.replicate (6 - String.length s) "0"%char ++ s)
  /\ (forall c t, c = "+"%char \/ c = "-"%char ->
        PyStr.zfill 6 (String c t)
        = String c (PyStr.replicate (6 - String.length (String c t)) "0"%char ++ t))
  /\ (forall z, astype_str float_repr (Int z) = PyStr.of_Z z)
  /\ (forall f, astype_str float_repr (Float f) = float_repr f)
  /\ (forall s, astype_str float_repr (Str s) = s)
  /\ (forall data, forallb is_int data = true -> values data = data)
  /\ (forall data, forallb is_int data = false -> forallb is_number data = true ->
        values data = map as_float data)
  /\ (forall data, forallb is_number data = false -> values data = data)
  /\ (forall z, as_float (Int z) = Float (PyFloat.of_Z z)).
Proof.
  intros H Hwf.
  destruct (extract_variables_inr float_repr df format out H)
    as (datas & code & Hall & Hcode & Hout).
  assert (Hlen : List.length datas = List.length REQUIRED_VARIABLES)
    by (symmetry; eapply Forall2_length; exact Hall).
  pose proof (normalized_columns_code datas code Hlen) as Hlook.
  assert (Hcell : forall i d, nth_error (index df) i = Some d ->
            (i < List.length (index df))%nat
            /\ cell_at out "code" d = Some (nth i code NaN)).
  { intros i d Hi.
    assert (Hlt : (i < List.length (index df))%nat)
      by (apply nth_error_Some; congruence).
    split; [exact Hlt |].
    destruct Hout as [[He _] | (_ & Hdup & ->)]; [rewrite He in Hlt; simpl in Hlt; lia |].
    rewrite (cell_at_reindexed _ _ _ _ _ _ Hlook)
      by (apply date_range_in, index_bounds; eapply nth_error_In; exact Hi).
    rewrite (index_of_unique _ _ _ Hdup Hi). reflexivity. }
  split; [| split; [| split]].
  - intros before code_col after Hsplit Hc Hb.
    pose proof (find_code_column_first _ _ _ _ Hsplit Hc Hb) as Ef.
    unfold code_column in Hcode. rewrite Ef in Hcode.
    destruct code_col as [| c t]; [discriminate Hc |].
    destruct (get_column (String c t) df) as [data |] eqn:Eg; [| discriminate].
    injection Hcode as <-. exists data. split; [reflexivity |].
    intros i d Hi. destruct (Hcell i d Hi) as [Hlt ->].
    rewrite (nth_map_lt (fun c => Str (PyStr.zfill 6 (astype_str float_repr c)))
               (values data) i NaN NaN); [reflexivity |].
    rewrite values_length, (well_formed_column _ _ _ Hwf Eg). exact Hlt.
  - intros Hnone i d Hi. destruct (Hcell i d Hi) as [Hlt ->].
    unfold code_column in Hcode. rewrite (find_code_column_none _ Hnone) in Hcode.
    injection Hcode as <-. f_equal. apply nth_repeat_lt. exact Hlt.
  - intros d Hin Hnot.
    destruct Hout as [[_ ->] | (_ & _ & ->)]; [destruct Hin |].
    rewrite (cell_at_reindexed _ _ _ _ _ _ Hlook) by exact Hin.
    rewrite (index_of_none _ _ Hnot). reflexivity.
  - split; [intros s; apply zfill_length |].
    split; [intros s; apply zfill_unsigned |].
    split; [intros c t [-> | ->]; reflexivity |].
    repeat (split; [reflexivity |]).
    split; [apply values_cases |].
    split; [apply values_cases |].
    split; [apply values_cases | reflexivity].
Qed.

End CodeColumn.

(** A raw table with a code column; the code of the first record has two
    digits. *)
Definition coded_table : DataFrame :=
  mkDataFrame [10957; 10958]
    [ ("Rain", [Float 1.5; Float 0]);
      ("T.Max", [Float 30; Float 31]);
      ("T.Min", [Float 20; Float 19]);
      ("VP", [Float 12; Float 13]);
      ("Radn", [Float 25; Float 27]);
      ("FAO56", [Float 5; Float 6]);
      ("Evap", [Float 6; Float 8]);
      ("Code", [Int 22; Int 222222]) ].

Definition coded_series : DataFrame :=
  mkDataFrame [10957; 10958]
    [ ("daily_rain", [Float 1.5; Float 0]);
      ("max_temp", [Float 30; Float 31]);
      ("min_temp", [Float 20; Float 19]);
      ("vp", [Float 12; Float 13]);
      ("radiation", [Float 25; Float 27]);
      ("et_short_crop", [Float 5; Float 6]);
      ("evap_pan", [Float 6; Float 8]);
      ("code", [Str "000022"; Str "222222"]) ].

Lemma code_column_zero_padded_witness :
  extract_variables Fixtures.float_repr coded_table "fao56" = inr coded_series
  /\ well_formed coded_table
  /\ column_names coded_table
     = (["Rain"; "T.Max"; "T.Min"; "VP"; "Radn"; "FAO56"; "Evap"] ++ "Code" :: [])%list
  /\ cell_at coded_series "code" 10957 = Some (Str "000022")
  /\ cell_at coded_series "code" 10958 = Some (Str "222222").
Proof.
  assert (H : extract_variables Fixtures.float_repr coded_table "fao56"
              = inr coded_series) by (vm_compute; reflexivity).
  assert (Hwf : well_formed coded_table) by (repeat constructor).
  assert (Hs : column_names coded_table
               = (["Rain"; "T.Max"; "T.Min"; "VP"; "Radn"; "FAO56"; "Evap"]
                  ++ "Code" :: [])%list) by reflexivity.
  destruct (proj1 (code_column_zero_padded Fixtures.float_repr
                     coded_table "fao56" coded_series H Hwf) _ _ _ Hs)
    as (data & Hd & Hrow); [reflexivity | repeat constructor |].
  injection Hd as <-.
  split; [exact H |]. split; [exact Hwf |]. split; [exact Hs |].
  split; [exact (Hrow 0%nat 10957 eq_refl) | exact (Hrow 1%nat 10958 eq_refl)].
Defined.

(** A raw table whose code has seven digits. *)
Definition long_code_table : DataFrame :=
  mkDataFrame [10957]
    [ ("Rain", [Float 1.5]); ("T.Max", [Float 30]); ("T.Min", [Float 20]);
      ("VP", [Float 12]); ("Radn", [Float 25]); ("FAO56", [Float 5]);
      ("Evap", [Float 6]); ("Code", [Int 1234567]) ].

(** C6, counterexample: a code whose string form has seven characters is
    kept whole, so the code of the series is not six characters long; and
    the row that reindexing adds to [gap_table], which has no code column,
    carries a null instead of ["222222"]. *)
Lemma code_is_not_always_six_characters :
  (forall float_repr,
     exists out,
       extract_variables float_repr long_code_table "fao56" = inr out
       /\ cell_at out "code" 10957 = Some (Str "1234567"))
  /\ String.length "1234567" = 7%nat
  /\ (forall float_repr,
        exists out,
          extract_variables float_repr gap_table "fao56" = inr out
          /\ Resolve.find_code_column (column_names gap_table) = None
          /\ cell_at out "code" 10958 = Some NaN).
Proof.
  split; [| split; [reflexivity |]].
  - intros float_repr. eexists. split; [vm_compute; reflexivity | reflexivity].
  - intros float_repr. exists gap_series.
    split; [apply gap_table_normalized |]. split; reflexivity.
Qed.

(** ** The order of the resolution and its failure *)

Section ResolutionOrder.

Import Resolve.

Variable float_repr : float -> string.

Lemma map_variables_missing (df : DataFrame) (o2s : dict)
  (cand : string -> list string) (v : string) (after : list string) :
  Forall (fun c => c <> "") (column_names df) ->
  dict_get v o2s = Some (cand v) ->
  first_match (column_names df) (cand v) = None ->
  forall before acc,
    Forall (fun u => dict_get u o2s = Some (cand u)
                     /\ first_match (column_names df) (cand u) <> None) before ->
    map_variables df o2s (before ++ v :: after) acc
    = inl (MissingVariableError
             (missing_variable_message v (cand v) (column_names df))).
Proof.
  intros Hcols Hv Hnone.
  induction before as [| u r IH]; intros acc Hb; cbn [app map_variables].
  - rewrite Hv, (find_column_first_match _ _ Hcols), Hnone. reflexivity.
  - inversion Hb as [| ? ? [Hu Hsome] Hr]; subst.
    rewrite Hu, (find_column_first_match _ _ Hcols).
    destruct (first_match (column_names df) (cand u)) as [found |] eqn:Ef;
      [| congruence].
    destruct (first_match_in _ _ _ Ef) as [Hin _].
    destruct (get_column_in _ _ Hin) as [data ->].
    apply IH. exact Hr.
Qed.

(** A cell of the series on a row of the raw table: the cell of the
    resolved column after the replacement of the missing codes. *)
Lemma normalized_cell (df : DataFrame) (format : string) (out : DataFrame) (v : string) :
  extract_variables float_repr df format = inr out ->
  In v REQUIRED_VARIABLES ->
  exists data,
    resolved df (candidates (mapping_for format) v) data
    /\ forall i d,
         nth_error (index df) i = Some d ->
         cell_at out v d = Some (replace_cell (nth i data NaN)).
Proof.
  intros H Hv.
  destruct (extract_variables_inr float_repr df format out H)
    as (datas & code & Hall & _ & Hout).
  destruct (normalized_columns_variable _ datas code v Hall Hv)
    as (data & Hres & Hlook).
  exists data. split; [exact Hres |].
  intros i d Hi.
  destruct Hout as [[He _] | (_ & Hdup & ->)].
  - rewrite He in Hi. destruct i; discriminate.
  - assert (Hin : In d (index df)) by (eapply nth_error_In; exact Hi).
    rewrite (cell_at_reindexed _ _ _ _ _ _ Hlook)
      by (apply date_range_in, index_bounds; exact Hin).
    rewrite (index_of_unique _ _ _ Hdup Hi), replaced_nth. reflexivity.
Qed.

(** On a raw table whose columns all have a name, each canonical
    variable, taken in the required order, is given the first raw column,
    in the order of the table, that one of its candidate names matches;
    the candidates are the source names of the mapping in declaration
    order, and a name matches when, case ignored, it equals the column
    name or one is inside the other.  The first variable without such a
    column makes [extract_variables] raise [MissingVariableError] with the
    variable, its candidates and the raw columns in the message. *)
Lemma first_match_resolution (df : DataFrame) (format : string) :
  Forall (fun c => c <> "") (column_names df) ->
  let mapping := mapping_for format in
  let cols := column_names df in
  (forall names, find_column cols names None = first_match cols names)
  /\ (forall names found_col,
        find_column cols names None = Some found_col ->
        exists before after,
          cols = (before ++ found_col :: after)%list
          /\ Forall (fun c => existsb (column_matches c) names = false) before
          /\ existsb (column_matches found_col) names = true)
  /\ (forall names,
        find_column cols names None = None ->
        forall c n, In c cols -> In n names -> column_matches c n = false)
  /\ (forall col n,
        column_matches col n = true <->
        PyStr.lower (PyStr.strip col) = PyStr.strip (PyStr.lower n)
        \/ PyStr.contains (PyStr.strip (PyStr.lower n))
                          (PyStr.lower (PyStr.strip col)) = true
        \/ PyStr.contains (PyStr.lower (PyStr.strip col))
                          (PyStr.strip (PyStr.lower n)) = true)
  /\ (forall v, In v REQUIRED_VARIABLES ->
        dict_get v (output_to_silo mapping) = Some (candidates mapping v))
  /\ (forall before v after,
        REQUIRED_VARIABLES = (before ++ v :: after)%list ->
        Forall (fun u => first_match cols (candidates mapping u) <> None) before ->
        first_match cols (candidates mapping v) = None ->
        extract_variables float_repr df format
        = inl (MissingVariableError
                 (missing_variable_message v (candidates mapping v) cols)))
  /\ (forall out v,
        extract_variables float_repr df format = inr out ->
        In v REQUIRED_VARIABLES ->
        exists found_col data,
          first_match cols (candidates mapping v) = Some found_col
          /\ get_column found_col df = Some data
          /\ forall i d,
               nth_error (index df) i = Some d ->
               cell_at out v d = Some (replace_cell (nth i data NaN))).
Proof.
  intros Hcols mapping cols.
  split; [intros names; apply find_column_first_match; exact Hcols |].
  split.
  { intros names found Hf. rewrite (find_column_first_match _ _ Hcols) in Hf.
    destruct (first_match_is_first _ _ _ Hf) as (before & after & Hsplit & Hb).
    exists before, after. split; [exact Hsplit |]. split; [exact Hb |].
    apply (first_match_in _ _ _ Hf). }
  split.
  { intros names Hf. rewrite (find_column_first_match _ _ Hcols) in Hf.
    apply first_match_none. exact Hf. }
  split; [intros col n; apply name_matches_spec |].
  split; [intros v Hv; apply required_have_candidates; exact Hv |].
  split.
  - intros before v after Hreq Hb Hnone.
    assert (Hin : forall u, In u (before ++ v :: after)%list ->
                  dict_get u (output_to_silo mapping) = Some (candidates mapping u)).
    { intros u Hu. apply required_have_candidates. rewrite Hreq. exact Hu. }
    unfold extract_variables. fold (mapping_for format). fold mapping. rewrite Hreq.
    rewrite (map_variables_missing df _ (candidates mapping) v after Hcols).
    + reflexivity.
    + apply Hin, in_elt.
    + exact Hnone.
    + apply Forall_forall. intros u Hu. split.
      * apply Hin, in_or_app. now left.
      * exact (proj1 (Forall_forall _ _) Hb u Hu).
  - intros out v H Hv.
    destruct (normalized_cell df format out v H Hv) as (data & (found & Hf & Hg) & Hcell).
    exists found, data.
    rewrite (find_column_first_match _ _ Hcols) in Hf.
    split; [exact Hf |]. split; [exact Hg | exact Hcell].
Qed.

End ResolutionOrder.

(** A raw table with rainfall only. *)
Definition rain_only_table : DataFrame :=
  mkDataFrame [10957] [ ("Day", [Int 1]); ("Rain", [Float 1.5]) ].

Example missing_variable_is_named :
  extract_variables Fixtures.float_repr rain_only_table "fao56"
  = inl (MissingVariableError
           "Required variable 'max_temp' not found in SILO response. Tried: ['T.Max']. Available columns: ['Day', 'Rain']").
Proof. vm_compute. reflexivity. Qed.

(** A raw table of one day, 2000-01-01, whose first column has the empty
    string for a name. *)
Definition nameless_table : DataFrame :=
  mkDataFrame [10957]
    [ ("", [Float 9]); ("Rain", [Float 1.5]); ("T.Max", [Float 30]);
      ("T.Min", [Float 20]); ("VP", [Float 12]); ("Radn", [Float 25]);
      ("FAO56", [Float 5]); ("Evap", [Float 6]) ].

Definition nameless_series : DataFrame :=
  mkDataFrame [10957]
    [ ("daily_rain", [Float 1.5]); ("max_temp", [Float 30]);
      ("min_temp", [Float 20]); ("vp", [Float 12]); ("radiation", [Float 25]);
      ("et_short_crop", [Float 5]); ("evap_pan", [Float 6]);
      ("code", [Str "222222"]) ].

(** C3, at the failing input.  The empty name is inside every candidate
    name, so the first column of the table is the first column that a
    candidate of [daily_rain] matches, and so it is for each of the seven
    variables.  The inner loop takes it, yet the test [if found_col:] of
    the outer loop is false for the empty string; the search goes on and
    stops at the next match.  The series holds the data of [Rain], 1.5,
    not the data of the first match, 9. *)
Theorem nameless_column_is_passed_over :
  (forall v, In v REQUIRED_VARIABLES ->
     first_match (column_names nameless_table)
       (candidates (mapping_for "fao56") v) = Some "")
  /\ column_matches "" "Rain" = true
  /\ PyStr.contains (PyStr.lower (PyStr.strip ""))
       (PyStr.strip (PyStr.lower "Rain")) = true
  /\ Resolve.try_names "" "" (candidates (mapping_for "fao56") "daily_rain") None
     = Some ""
  /\ Resolve.truthy (Some "") = false
  /\ Resolve.find_column (column_names nameless_table)
       (candidates (mapping_for "fao56") "daily_rain") None = Some "Rain"
  /\ get_column "" nameless_table = Some [Float 9]
  /\ get_column "Rain" nameless_table = Some [Float 1.5]
  /\ (forall float_repr,
        extract_variables float_repr nameless_table "fao56" = inr nameless_series)
  /\ get_column "daily_rain" nameless_series = Some [Float 1.5].
Proof.
  split.
  { intros v Hv. cbn [REQUIRED_VARIABLES In] in Hv.
    repeat (destruct Hv as [<- | Hv]; [reflexivity |]). destruct Hv. }
  repeat (split; [reflexivity |]). reflexivity.
Qed.

(** ** The annual average temperature *)

Section AverageTemperature.

Lemma is_nan_Prim2SF (x : float) : PrimFloat.is_nan x = true -> Prim2SF x = S754_nan.
Proof. intros H. unfold Prim2SF. rewrite H. reflexivity. Qed.









Lemma values_numbers (col : list cell) :
  Forall (fun c => is_number c = true) col ->
  Forall (fun c => is_number c = true) (values col).
Proof.
  intros H. unfold values. destruct (dtype_of col); try exact H.
  apply Forall_forall. intros c Hc. apply in_map_iff in Hc as (x & <- & Hx).
  pose proof (proj1 (Forall_forall _ _) H x Hx) as Hn.
  destruct x; [reflexivity | reflexivity | discriminate Hn].
Qed.

Lemma daily_mean_numbers (a b : cell) :
  is_number a = true -> is_number b = true -> exists x, daily_mean a b = inr x.
Proof.
  destruct a, b; simpl; try discriminate; eauto.
Qed.

Lemma daily_means_numbers (maxs : list cell) : forall mins,
  Forall (fun c => is_number c = true) maxs ->
  Forall (fun c => is_number c = true) mins ->
  exists daily, daily_means maxs mins = inr daily.
Proof.
  induction maxs as [| a ra IH]; intros mins Ha Hb; [simpl; eauto |].
  destruct mins as [| b rb]; [simpl; eauto |].
  inversion Ha; inversion Hb; subst. cbn [daily_means].
  destruct (daily_mean_numbers a b) as [x ->]; [assumption | assumption |].
  destruct (IH rb) as [r ->]; [assumption | assumption |].
  cbn [bind]. eauto.
Qed.













End AverageTemperature.

(** ** The day of the year *)

Section CalendarFacts.

(** The number of days of a year. *)
Definition year_length (y : Z) : Z := if Calendar.is_leap y then 366 else 365.

Lemma is_leap_cases (y : Z) :
  (Calendar.is_leap y = true
   /\ ((y mod 4 = 0 /\ y mod 100 <> 0) \/ y mod 400 = 0))
  \/ (Calendar.is_leap y = false
      /\ (y mod 4 <> 0 \/ y mod 100 = 0) /\ y mod 400 <> 0).
Proof.
  unfold Calendar.is_leap.
  destruct (Z.eqb_spec (y mod 4) 0), (Z.eqb_spec (y mod 100) 0),
    (Z.eqb_spec (y mod 400) 0); cbn; intuition lia.
Qed.

Ltac divisions := Z.to_euclidean_division_equations; lia.

Lemma dayofyear_bounds (z : Z) :
  1 <= Calendar.dayofyear z <= year_length (Calendar.year z).
Proof.
  unfold year_length.
  destruct (is_leap_cases (Calendar.year z)) as [[-> Hl] | [-> Hl]]; revert Hl;
  unfold Calendar.dayofyear, Calendar.year, Calendar.civil_from_days,
    Calendar.days_from_civil;
  cbn [fst snd]; change (1 <=? 2) with true; change (2 <? 1) with false; cbv iota;
  change ((153 * (1 + 9) + 2) / 5 + 1 - 1) with 306;
  set (z' := z + 719468);
  set (era := z' / 146097);
  set (doe := z' - era * 146097);
  set (yoe := (doe - doe / 1460 + doe / 36524 - doe / 146096) / 365);
  set (doy := doe - (365 * yoe + yoe / 4 - yoe / 100));
  set (mp := (5 * doy + 2) / 153);
  assert (Hdoe : 0 <= doe < 146097) by (subst doe era; divisions);
  assert (Hyoe : 0 <= yoe <= 399) by (subst yoe; divisions);
  assert (Hdoy : 0 <= doy <= 365) by (subst doy yoe; divisions);
  assert (Hmp : 0 <= mp <= 11) by (subst mp; divisions);
  (destruct (Z.ltb_spec mp 10) as [Hlt | Hge];
   [ destruct (Z.leb_spec (mp + 3) 2); [lia |];
     assert (Hd : doy <= 305) by (subst mp; divisions);
     set (y := yoe + era * 400);
     assert (Hera : (y - 1) / 400 = if yoe =? 0 then era - 1 else era)
       by (subst y; destruct (Z.eqb_spec yoe 0); divisions);
     rewrite Hera; intros Hl; destruct (Z.eqb_spec yoe 0) as [E0 | E0];
     [ subst y z' doe doy; rewrite E0 in *; divisions
     | subst y z' doe doy; divisions ]
   | destruct (Z.leb_spec (mp - 9) 2); [| lia];
     assert (Hd : 306 <= doy) by (subst mp; divisions);
     set (y := yoe + era * 400);
     replace (y + 1 - 1) with y by lia;
     assert (Hera : y / 400 = era) by (subst y; divisions);
     rewrite Hera; intros Hl;
     subst y z' doe doy; divisions ]).
Qed.

Lemma civil_of_new_year (y : Z) :
  Calendar.civil_from_days (Calendar.days_from_civil y 1 1) = (y, 1, 1).
Proof.
  unfold Calendar.civil_from_days, Calendar.days_from_civil.
  change (1 <=? 2) with true. change (2 <? 1) with false. cbv iota.
  change ((153 * (1 + 9) + 2) / 5 + 1 - 1) with 306.
  set (era := (y - 1) / 400).
  set (yoe := y - 1 - era * 400).
  assert (Hyoe : 0 <= yoe <= 399) by (subst yoe era; divisions).
  set (doe := yoe * 365 + yoe / 4 - yoe / 100 + 306).
  assert (Hdoe : 306 <= doe <= 146096) by (subst doe; divisions).
  replace (era * 146097 + doe - 719468 + 719468) with (era * 146097 + doe) by lia.
  assert (E1 : (era * 146097 + doe) / 146097 = era) by divisions.
  rewrite E1. replace (era * 146097 + doe - era * 146097) with doe by lia.
  assert (E2 : (doe - doe / 1460 + doe / 36524 - doe / 146096) / 365 = yoe)
    by (subst doe; divisions).
  rewrite E2.
  replace (doe - (365 * yoe + yoe / 4 - yoe / 100)) with 306 by (subst doe; lia).
  change ((5 * 306 + 2) / 153) with 10. change (10 <? 10) with false. cbv iota.
  change (10 - 9 <=? 2) with true. cbv iota.
  change (306 - (153 * 10 + 2) / 5 + 1) with 1. change (10 - 9) with 1.
  f_equal. f_equal. subst yoe. lia.
Qed.

End CalendarFacts.

(** ** The rows of the agronomic file *)

Section MetRows.

Variable float_repr : float -> string.

(** The text of a numeric field of the row at position [i]. *)
Definition numeric_field (df : DataFrame) (i : nat) (name text : string) : Prop :=
  exists c, row_cell df i name = inr c /\ format_value c = inr text.

Lemma format_value_null (c : cell) :
  isna c = true -> format_value c = inr "   NaN".
Proof.
  unfold isna, format_value. intros H. apply negb_true_iff in H. rewrite H. reflexivity.
Qed.

Lemma format_value_number (c : cell) (x : float) :
  notna c = true -> to_float c = Some x ->
  format_value c = inr (PyStr.rjust 6 (PyFloat.format_f 1 x)).
Proof. unfold format_value. intros -> ->. reflexivity. Qed.

Lemma format_code_null (c : cell) :
  isna c = true -> format_code float_repr c = "222222".
Proof.
  unfold isna, format_code. intros H. apply negb_true_iff in H. rewrite H. reflexivity.
Qed.

(** A field takes its width, or the length of its text when that is
    more. *)
Lemma rjust_length (w : nat) (s : string) :
  String.length (PyStr.rjust w s) = Nat.max w (String.length s).
Proof.
  unfold PyStr.rjust. rewrite string_length_app, replicate_length. lia.
Qed.

Lemma met_row_fields (df : DataFrame) (i : nat) (date : Z) (line : string) :
  met_row float_repr df i date = inr line ->
  exists cd day radn maxt mint rain evap vp cc,
    row_cell df i "day" = inr cd /\ day_of_row cd = inr day
    /\ numeric_field df i "radiation" radn
    /\ numeric_field df i "max_temp" maxt
    /\ numeric_field df i "min_temp" mint
    /\ numeric_field df i "daily_rain" rain
    /\ numeric_field df i "evap_pan" evap
    /\ numeric_field df i "vp" vp
    /\ row_cell df i "code" = inr cc
    /\ line = met_line (Calendar.year date) day radn maxt mint rain evap vp
                (format_code float_repr cc).
Proof.
  unfold met_row, numeric_field. intros H.
  repeat match type of H with
         | bind ?r _ = inr _ =>
             let E := fresh "E" in
             destruct r eqn:E; cbn [bind] in H; [discriminate H |]
         end.
  injection H as <-.
  repeat eexists; eassumption.
Qed.

Lemma met_rows_inr (df : DataFrame) (dates : list Z) : forall i lines,
  met_rows float_repr df i dates = inr lines ->
  List.length lines = List.length dates
  /\ forall k date,
       nth_error dates k = Some date ->
       met_row float_repr df (i + k) date = inr (nth k lines "").
Proof.
  induction dates as [| date rest IH]; intros i lines H.
  - injection H as <-. split; [reflexivity |]. intros [| k] d Hk; discriminate Hk.
  - cbn [met_rows bind] in H.
    destruct (met_row float_repr df i date) as [e | line] eqn:El; [discriminate |].
    destruct (met_rows float_repr df (S i) rest) as [e | ls] eqn:Er; [discriminate |].
    injection H as <-. destruct (IH _ _ Er) as [Hlen Hrows].
    split; [simpl; rewrite Hlen; reflexivity |].
    intros [| k] d Hk.
    + injection Hk as <-. rewrite Nat.add_0_r. exact El.
    + cbn [nth]. rewrite Nat.add_succ_r. apply (Hrows k d Hk).
Qed.

(** What a row shows of a column: the cells as floats when the whole
    frame holds numbers and not only integers, the cells as the column
    holds them otherwise. *)
Lemma get_column_row_values (df : DataFrame) (name : string) :
  get_column name (row_values df)
  = option_map
      (fun col =>
         if forallb (fun nc => forallb is_number (snd nc)) (columns df)
            && negb (forallb (fun nc => forallb is_int (snd nc)) (columns df))
         then map as_float col else values col)
      (get_column name df).
Proof.
  unfold row_values, get_column. cbn [columns].
  exact (lookup_column_map _ name (columns df)).
Qed.

Lemma forallb_columns (P : cell -> bool) (df : DataFrame) (name : string)
  (col : list cell) :
  forallb (fun nc => forallb P (snd nc)) (columns df) = true ->
  get_column name df = Some col -> forallb P col = true.
Proof.
  unfold get_column. induction (columns df) as [| [n c] r IH]; simpl; [discriminate |].
  intros H. apply andb_true_iff in H as [Hc Hr].
  destruct (String.eqb n name); [intros [= <-]; exact Hc | apply IH; exact Hr].
Qed.

Lemma row_values_cases (df : DataFrame) (name : string) :
  (forallb (fun nc => forallb is_number (snd nc)) (columns df) = false ->
   get_column name (row_values df) = option_map values (get_column name df))
  /\ (forallb (fun nc => forallb is_number (snd nc)) (columns df) = true ->
      forallb (fun nc => forallb is_int (snd nc)) (columns df) = false ->
      get_column name (row_values df) = option_map (map as_float) (get_column name df))
  /\ (forallb (fun nc => forallb is_int (snd nc)) (columns df) = true ->
      get_column name (row_values df) = get_column name df).
Proof.
  rewrite get_column_row_values. split; [| split].
  - intros ->. reflexivity.
  - intros -> ->. reflexivity.
  - intros H. rewrite H, andb_false_r.
    destruct (get_column name df) as [col |] eqn:E; [| reflexivity].
    cbn [option_map]. f_equal.
    apply (proj1 (values_cases col)). exact (forallb_columns _ _ _ _ H E).
Qed.

(** The floats of the days of a year are read back as the same days. *)
Lemma day_of_row_floats :
  forallb (fun k => match day_of_row (as_float (Int (Z.of_nat k))) with
                    | inr m => m =? Z.of_nat k
                    | inl _ => false
                    end) (seq 1 366) = true.
Proof. vm_compute. reflexivity. Qed.

Lemma day_of_row_day (n : Z) (c : cell) :
  1 <= n <= 366 -> c = Int n \/ c = as_float (Int n) -> day_of_row c = inr n.
Proof.
  intros Hn [-> | ->]; [reflexivity |].
  assert (Hin : In (Z.to_nat n) (seq 1 366)) by (apply in_seq; lia).
  pose proof (proj1 (forallb_forall _ _) day_of_row_floats _ Hin) as H.
  cbv beta in H. rewrite Z2Nat.id in H by lia.
  destruct (day_of_row (as_float (Int n))) as [e | m]; [discriminate H |].
  f_equal. apply Z.eqb_eq. exact H.
Qed.

Lemma is_int_days (idx : list Z) :
  forallb is_int (map (fun d => Int (Calendar.dayofyear d)) idx) = true.
Proof. induction idx as [| d r IH]; simpl; [reflexivity | exact IH]. Qed.

(** On every row the day that is written is the day of the year of its
    date, whether the row shows it as an integer or as a float. *)
Lemma day_of_shifted_row (df shifted : DataFrame) (i : nat) (date : Z) (cd : cell) :
  shift_evaporation (calculate_day_of_year df) = inr shifted ->
  nth_error (index df) i = Some date ->
  row_cell (row_values shifted) i "day" = inr cd ->
  day_of_row cd = inr (Calendar.dayofyear date).
Proof.
  intros Hs Hi Hc.
  destruct (shift_evaporation_other_columns _ _ "day" Hs) as [_ Hday].
  unfold row_cell in Hc. rewrite get_column_row_values, Hday in Hc by discriminate.
  unfold get_column, calculate_day_of_year, set_column in Hc. cbn [columns] in Hc.
  rewrite lookup_column_assign_same in Hc. cbn [option_map] in Hc.
  rewrite (proj1 (values_cases _) (is_int_days (index df))) in Hc.
  assert (Hn : nth i (map (fun d => Int (Calendar.dayofyear d)) (index df)) NaN
               = Int (Calendar.dayofyear date))
    by (apply nth_error_nth; rewrite nth_error_map, Hi; reflexivity).
  apply day_of_row_day.
  - pose proof (dayofyear_bounds date) as Hb. unfold year_length in Hb.
    destruct (Calendar.is_leap _); lia.
  - destruct (_ && _); injection Hc as <-; [right | left; exact Hn].
    change NaN with (as_float NaN). rewrite map_nth, Hn. reflexivity.
Qed.

(** C8.  The text that [export_to_met] writes is the preamble followed by
    one line per date of the series.  The line of a date is, separated by
    single blanks, the year and the day of the year right-aligned in four
    columns, the six values radiation, max_temp, min_temp, daily_rain,
    evap_pan (after the shift) and vp, and the code right-aligned in seven
    columns, closed by a line feed.  A value that is a number is written
    with one decimal, right-aligned in six columns; a null value is the
    token [NaN] after three blanks; a null code is written as 222222, any
    other code as its string form padded with zeros to six characters.
    The cells are those of the row as [iterrows] shows it: floats when the
    whole frame holds numbers, the cells of the columns otherwise. *)
Theorem met_rows_fixed_width
  (extraction_date : string) (df : DataFrame) (lat lon : float)
  (start_year end_year : Z) (filename text : string) :
  export_to_met float_repr extraction_date df lat lon start_year end_year
  = inr (filename, text) ->
  (exists tav amp shifted lines,
     calculate_tav df = inr tav
     /\ calculate_amp df = inr amp
     /\ shift_evaporation (calculate_day_of_year df) = inr shifted
     /\ text = met_header lat lon tav amp start_year extraction_date
               ++ String.concat "" lines
     /\ List.length lines = List.length (index df)
     /\ forall i date,
          nth_error (index df) i = Some date ->
          exists radn maxt mint rain evap vp code,
            numeric_field (row_values shifted) i "radiation" radn
            /\ numeric_field (row_values shifted) i "max_temp" maxt
            /\ numeric_field (row_values shifted) i "min_temp" mint
            /\ numeric_field (row_values shifted) i "daily_rain" rain
            /\ numeric_field (row_values shifted) i "evap_pan" evap
            /\ numeric_field (row_values shifted) i "vp" vp
            /\ row_cell (row_values shifted) i "code" = inr code
            /\ nth i lines ""
               = PyStr.rjust 4 (PyStr.of_Z (Calendar.year date)) ++ " "
                 ++ PyStr.rjust 4 (PyStr.of_Z (Calendar.dayofyear date)) ++ " "
                 ++ PyStr.rjust 6 radn ++ " " ++ PyStr.rjust 6 maxt ++ " "
                 ++ PyStr.rjust 6 mint ++ " " ++ PyStr.rjust 6 rain ++ " "
                 ++ PyStr.rjust 6 evap ++ " " ++ PyStr.rjust 6 vp ++ " "
                 ++ PyStr.rjust 7 (format_code float_repr code) ++ newline)
  /\ (forall c, isna c = true -> format_value c = inr "   NaN")
  /\ (forall c x, notna c = true -> to_float c = Some x ->
        format_value c = inr (PyStr.rjust 6 (PyFloat.format_f 1 x)))
  /\ (forall c, isna c = true -> format_code float_repr c = "222222")
  /\ (forall w s, String.length (PyStr.rjust w s) = Nat.max w (String.length s))
  /\ (forall c, notna c = true ->
        format_code float_repr c = PyStr.zfill 6 (astype_str float_repr c))
  /\ (forall z, astype_str float_repr (Int z) = PyStr.of_Z z)
  /\ (forall f, astype_str float_repr (Float f) = float_repr f)
  /\ (forall s, astype_str float_repr (Str s) = s)
  /\ (forall frame name,
        forallb (fun nc => forallb is_number (snd nc)) (columns frame) = false ->
        get_column name (row_values frame)
        = option_map values (get_column name frame))
  /\ (forall frame name,
        forallb (fun nc => forallb is_number (snd nc)) (columns frame) = true ->
        forallb (fun nc => forallb is_int (snd nc)) (columns frame) = false ->
        get_column name (row_values frame)
        = option_map (map as_float) (get_column name frame))
  /\ (forall frame name,
        forallb (fun nc => forallb is_int (snd nc)) (columns frame) = true ->
        get_column name (row_values frame) = get_column name frame)
  /\ (forall data, forallb is_int data = true -> values data = data)
  /\ (forall data, forallb is_int data = false -> forallb is_number data = true ->
        values data = map as_float data)
  /\ (forall data, forallb is_number data = false -> values data = data)
  /\ (forall z, as_float (Int z) = Float (PyFloat.of_Z z))
  /\ (forall f, as_float (Float f) = Float f)
  /\ (forall s, as_float (Str s) = Str s)
  /\ (forall frame name col i,
        get_column name frame = Some col ->
        row_cell frame i name = inr (nth i col NaN))
  /\ (forall z, to_float (Int z) = Some (PyFloat.of_Z z))
  /\ (forall f, to_float (Float f) = Some f)
  /\ (forall s, exists msg, format_value (Str s) = inl (ValueError msg)).
Proof.
  intros H.
  split; [| split; [exact format_value_null |
            split; [exact format_value_number |
            split; [exact format_code_null |
            split; [exact rjust_length | split]]]]].
  - unfold export_to_met in H.
    destruct (calculate_tav df) as [e | tav]; [discriminate |].
    destruct (calculate_amp df) as [e | amp]; [discriminate |].
    cbn [bind] in H.
    destruct (shift_evaporation (calculate_day_of_year df)) as [e | shifted] eqn:Es;
      [discriminate |].
    cbn [bind] in H.
    destruct (met_rows float_repr (row_values shifted) 0 (index shifted))
      as [e | lines] eqn:Er; [discriminate |].
    injection H as _ <-.
    destruct (shift_evaporation_other_columns _ _ "day" Es) as [Hidx _].
    change (index (calculate_day_of_year df)) with (index df) in Hidx.
    rewrite Hidx in Er. destruct (met_rows_inr _ _ _ _ Er) as [Hlen Hrows].
    exists tav, amp, shifted, lines.
    repeat (split; [reflexivity |]). split; [exact Hlen |].
    intros i date Hi. specialize (Hrows i date Hi). cbn [Nat.add] in Hrows.
    destruct (met_row_fields _ _ _ _ Hrows)
      as (cd & day & radn & maxt & mint & rain & evap & vp & cc
          & Hcd & Hday & Hr & Hx & Hn & Hl & He & Hv & Hcc & ->).
    rewrite (day_of_shifted_row df shifted i date cd Es Hi Hcd) in Hday.
    injection Hday as <-.
    exists radn, maxt, mint, rain, evap, vp, cc.
    repeat (split; [assumption |]). reflexivity.
  - intros c Hc. unfold format_code. rewrite Hc. reflexivity.
  - repeat (split; [reflexivity |]).
    split; [intros frame name; apply row_values_cases |].
    split; [intros frame name; apply row_values_cases |].
    split; [intros frame name; apply row_values_cases |].
    split; [apply values_cases |].
    split; [apply values_cases |].
    split; [apply values_cases |].
    repeat (split; [reflexivity |]).
    split; [intros frame name col i E; unfold row_cell; rewrite E; reflexivity |].
    repeat (split; [reflexivity |]).
    intros s. eexists. reflexivity.
Qed.

End MetRows.

(** The series of the scenario: one day, 2000-01-01, every value null. *)
Definition null_day_series : DataFrame :=
  mkDataFrame [10957]
    [ ("daily_rain", [NaN]); ("max_temp", [NaN]); ("min_temp", [NaN]);
      ("vp", [NaN]); ("radiation", [NaN]); ("et_short_crop", [NaN]);
      ("evap_pan", [NaN]); ("code", [NaN]) ].

Definition null_day_line : string :=
  "2000    1    NaN    NaN    NaN    NaN    NaN    NaN  222222" ++ newline.

Lemma met_rows_fixed_width_witness :
  export_to_met Fixtures.float_repr "01/01/2026" null_day_series
    (-31.75)%float (117.6)%float 2000 2000
  = inr ("SILO_2000-2000_-31.75_117.60.met",
         met_header (-31.75)%float (117.6)%float PyFloat.nan PyFloat.nan 2000
           "01/01/2026" ++ null_day_line)
  /\ exists tav amp shifted lines,
       calculate_tav null_day_series = inr tav
       /\ calculate_amp null_day_series = inr amp
       /\ shift_evaporation (calculate_day_of_year null_day_series) = inr shifted
       /\ met_header (-31.75)%float (117.6)%float PyFloat.nan PyFloat.nan 2000
            "01/01/2026" ++ null_day_line
          = met_header (-31.75)%float (117.6)%float tav amp 2000 "01/01/2026"
            ++ String.concat "" lines
       /\ List.length lines = 1%nat.
Proof.
  assert (H : export_to_met Fixtures.float_repr "01/01/2026" null_day_series
                (-31.75)%float (117.6)%float 2000 2000
              = inr ("SILO_2000-2000_-31.75_117.60.met",
                     met_header (-31.75)%float (117.6)%float PyFloat.nan PyFloat.nan
                       2000 "01/01/2026" ++ null_day_line))
    by (vm_compute; reflexivity).
  split; [exact H |].
  destruct (proj1 (met_rows_fixed_width Fixtures.float_repr _ _ _ _ _ _ _ _ H))
    as (tav & amp & shifted & lines & H1 & H2 & H3 & H4 & H5 & _).
  exists tav, amp, shifted, lines. repeat (split; [assumption |]). exact H5.
Defined.

(** Two series of one day with a code of two digits.  In the first the
    code is text, as [extract_variables] leaves it, and the row keeps it;
    in the second every column holds numbers, the row is a row of floats
    and the code is written as the float 22.0. *)
Definition text_code_series : DataFrame :=
  mkDataFrame [10957]
    [ ("daily_rain", [Float 0]); ("max_temp", [Float 30]); ("min_temp", [Float 20]);
      ("vp", [Float 12]); ("radiation", [Float 25]); ("et_short_crop", [Float 5]);
      ("evap_pan", [Float 6]); ("code", [Str "22"]) ].

Definition number_code_series : DataFrame :=
  mkDataFrame [10957]
    [ ("daily_rain", [Float 0]); ("max_temp", [Float 30]); ("min_temp", [Float 20]);
      ("vp", [Float 12]); ("radiation", [Float 25]); ("et_short_crop", [Float 5]);
      ("evap_pan", [Float 6]); ("code", [Int 22]) ].

Example row_with_text_code :
  export_to_met Fixtures.float_repr "01/01/2026" text_code_series
    (-31.75)%float (117.6)%float 2000 2000
  = inr ("SILO_2000-2000_-31.75_117.60.met",
         met_header (-31.75)%float (117.6)%float 25 0 2000 "01/01/2026"
         ++ "2000    1   25.0   30.0   20.0    0.0    NaN   12.0  000022" ++ newline).
Proof. vm_compute. reflexivity. Qed.

Example row_of_floats :
  export_to_met Fixtures.float_repr "01/01/2026" number_code_series
    (-31.75)%float (117.6)%float 2000 2000
  = inr ("SILO_2000-2000_-31.75_117.60.met",
         met_header (-31.75)%float (117.6)%float 25 0 2000 "01/01/2026"
         ++ "2000    1   25.0   30.0   20.0    0.0    NaN   12.0  0022.0" ++ newline).
Proof. vm_compute. reflexivity. Qed.

(* ================================================================== *)
(** * Further properties of the module *)
(* ================================================================== *)

(** ** Coordinates and the order of the failures of [get_silo_data] *)

Section Coordinates.

Variable float_repr : float -> string.

(** Both coordinates inside the closed bounds. *)
Definition in_bounds (lat lon : float) : bool :=
  PrimFloat.leb LAT_MIN lat && PrimFloat.leb lat LAT_MAX
  && PrimFloat.leb LON_MIN lon && PrimFloat.leb lon LON_MAX.

Lemma leb_nan_r (x y : float) :
  PrimFloat.is_nan y = true -> PrimFloat.leb x y = false.
Proof.
  intros H. rewrite FloatAxioms.leb_spec, (is_nan_Prim2SF y H).
  destruct (Prim2SF x); reflexivity.
Qed.

Lemma leb_nan_l (x y : float) :
  PrimFloat.is_nan x = true -> PrimFloat.leb x y = false.
Proof.
  intros H. rewrite FloatAxioms.leb_spec, (is_nan_Prim2SF x H). reflexivity.
Qed.

(** X1.  [validate_coordinates] returns [True] exactly when the latitude
    is in [-44, -10] and the longitude in [112, 154]; it returns nothing
    else, every failure is an [InvalidCoordinatesError], a coordinate that
    is not a number is refused, and a latitude out of bounds is the one
    reported whatever the longitude is. *)
Theorem validate_coordinates_in_bounds (lat lon : float) :
  (validate_coordinates float_repr lat lon = inr true <-> in_bounds lat lon = true)
  /\ (forall b, validate_coordinates float_repr lat lon = inr b -> b = true)
  /\ (forall e, validate_coordinates float_repr lat lon = inl e ->
        in_bounds lat lon = false /\ exists msg, e = InvalidCoordinatesError msg)
  /\ (PrimFloat.is_nan lat = true \/ PrimFloat.is_nan lon = true ->
      in_bounds lat lon = false)
  /\ (PrimFloat.leb LAT_MIN lat && PrimFloat.leb lat LAT_MAX = false ->
      validate_coordinates float_repr lat lon
      = inl (InvalidCoordinatesError
               ("Latitude " ++ float_repr lat ++ " is outside Australian bounds ("
                ++ float_repr LAT_MIN ++ " to " ++ float_repr LAT_MAX ++ ")"))).
Proof.
  unfold validate_coordinates, in_bounds, raise, ret.
  split; [| split; [| split; [| split]]].
  - destruct (PrimFloat.leb LAT_MIN lat && PrimFloat.leb lat LAT_MAX); cbn [negb andb];
      [| split; discriminate].
    destruct (PrimFloat.leb LON_MIN lon && PrimFloat.leb lon LON_MAX); cbn [negb];
      split; congruence.
  - intros b. destruct (negb _); [discriminate |].
    destruct (negb _); [discriminate | congruence].
  - intros e. destruct (PrimFloat.leb LAT_MIN lat && PrimFloat.leb lat LAT_MAX);
      cbn [negb andb]; [| intros [= <-]; eauto].
    destruct (PrimFloat.leb LON_MIN lon && PrimFloat.leb lon LON_MAX); cbn [negb];
      [discriminate | intros [= <-]; eauto].
  - intros [H | H].
    + rewrite (leb_nan_r LAT_MIN lat H). reflexivity.
    + rewrite (leb_nan_r LON_MIN lon H), andb_false_r. reflexivity.
  - intros ->. reflexivity.
Qed.

(** X2.  [get_silo_data] fails in the order of its statements: refused
    coordinates are reported whatever the years are; with coordinates and
    years accepted, an error of the transport is passed on unchanged; and
    a response that the authentication test refuses is never handed to the
    parser.  When all of this passes, the result is that of the parser
    followed by [extract_variables]. *)
Theorem get_silo_data_failure_order
  (read_csv : string -> string + list (string * list cell))
  (to_numeric : list cell -> list cell)
  (strptime_ymd : cell -> option Z)
  (to_datetime_infer : list cell -> option (list (option Z)))
  (current_year : Z)
  (request : float -> float -> Z -> Z -> string -> Result string)
  (lat lon : float) (start_year end_year : Z) (format : string) :
  let run := get_silo_data float_repr read_csv to_numeric strptime_ymd
               to_datetime_infer current_year request
               lat lon start_year end_year format in
  (forall e, validate_coordinates float_repr lat lon = inl e -> run = inl e)
  /\ (validate_coordinates float_repr lat lon = inr true ->
      validate_date_range current_year start_year end_year = inr tt ->
      (forall e, request lat lon start_year end_year format = inl e -> run = inl e)
      /\ (forall response_text,
            request lat lon start_year end_year format = inr response_text ->
            (forall e, check_authentication response_text = inl e ->
               run = inl e /\ e = AuthenticationError
                 "Authentication failed - check username and password")
            /\ (check_authentication response_text = inr tt ->
                run = (df <- parse_silo_response read_csv to_numeric strptime_ymd
                               to_datetime_infer response_text format ;;
                       extract_variables float_repr df format)))).
Proof.
  intros run. subst run. unfold get_silo_data. split.
  - intros e ->. reflexivity.
  - intros -> ->. cbn [bind]. split.
    + intros e ->. reflexivity.
    + intros text ->. cbn [bind]. split.
      * intros e He. rewrite He. split; [reflexivity |].
        unfold check_authentication in He.
        destruct (_ && _); [injection He as <-; reflexivity | discriminate].
      * intros ->. reflexivity.
Qed.

End Coordinates.

Lemma get_silo_data_failure_order_witness :
  validate_coordinates Fixtures.float_repr (-31.75)%float (117.6)%float = inr true
  /\ validate_date_range 2026 1990 2024 = inr tt
  /\ check_authentication "Error: invalid username or password"
     = inl (AuthenticationError "Authentication failed - check username and password")
  /\ forall read_csv to_numeric strptime_ymd to_datetime_infer,
       get_silo_data Fixtures.float_repr read_csv to_numeric strptime_ymd
         to_datetime_infer 2026
         (fun _ _ _ _ _ => inr "Error: invalid username or password")
         (-31.75)%float (117.6)%float 1990 2024 "fao56"
       = inl (AuthenticationError "Authentication failed - check username and password").
Proof.
  assert (Hc : validate_coordinates Fixtures.float_repr (-31.75)%float (117.6)%float
               = inr true) by (vm_compute; reflexivity).
  assert (Hd : validate_date_range 2026 1990 2024 = inr tt) by reflexivity.
  assert (Ha : check_authentication "Error: invalid username or password"
               = inl (AuthenticationError
                        "Authentication failed - check username and password"))
    by (vm_compute; reflexivity).
  split; [exact Hc |]. split; [exact Hd |]. split; [exact Ha |].
  intros read_csv to_numeric strptime_ymd to_datetime_infer.
  destruct (get_silo_data_failure_order Fixtures.float_repr read_csv to_numeric
              strptime_ymd to_datetime_infer 2026
              (fun _ _ _ _ _ => inr "Error: invalid username or password")
              (-31.75)%float (117.6)%float 1990 2024 "fao56") as [_ H].
  destruct (H Hc Hd) as [_ H2].
  destruct (H2 _ eq_refl) as [H3 _].
  exact (proj1 (H3 _ Ha)).
Defined.

(** ** The boundary scans *)

Section BoundaryScans.

Import Boundary.

(** Index of the first line that passes the test of the first loop. *)
Fixpoint first_header_line (i : Z) (lines : list string) : option Z :=
  match lines with
  | [] => None
  | line :: rest =>
      if is_header_line line then Some i else first_header_line (i + 1) rest
  end.

Lemma scan_header_first (lines : list string) : forall i d,
  scan_header i lines d =
  match first_header_line i lines with Some k => k | None => d end.
Proof.
  induction lines as [| l r IH]; intros i d; simpl; [reflexivity |].
  destruct (is_header_line l); [reflexivity | apply IH].
Qed.

Lemma first_header_line_split (lines : list string) : forall i k,
  first_header_line i lines = Some k ->
  exists before line after,
    lines = (before ++ line :: after)%list
    /\ k = i + Z.of_nat (List.length before)
    /\ is_header_line line = true
    /\ Forall (fun l => is_header_line l = false) before.
Proof.
  induction lines as [| l r IH]; intros i k; simpl; [discriminate |].
  destruct (is_header_line l) eqn:E.
  - intros [= <-]. exists [], l, r. repeat split; [simpl; lia | exact E | constructor].
  - intros H. destruct (IH _ _ H) as (b & line & a & -> & -> & Hl & Hb).
    exists (l :: b), line, a. repeat split; [simpl List.length; lia | exact Hl |].
    constructor; assumption.
Qed.

Lemma first_data_line_split (lines : list string) : forall i k,
  first_data_line i lines = Some k ->
  exists before line after,
    lines = (before ++ line :: after)%list
    /\ k = i + Z.of_nat (List.length before)
    /\ is_data_line line = true
    /\ Forall (fun l => is_data_line l = false) before.
Proof.
  induction lines as [| l r IH]; intros i k; simpl; [discriminate |].
  destruct (is_data_line l) eqn:E.
  - intros [= <-]. exists [], l, r. repeat split; [simpl; lia | exact E | constructor].
  - intros H. destruct (IH _ _ H) as (b & line & a & -> & -> & Hl & Hb).
    exists (l :: b), line, a. repeat split; [simpl List.length; lia | exact Hl |].
    constructor; assumption.
Qed.

(** What the second scan decides when the first one leaves the boundary
    at 0. *)
Definition fallback_boundary (lines : list string) : Result Z :=
  match first_data_line 0 lines with
  | None => inl no_data_start
  | Some k => if k =? 1 then inl no_data_start else inr (k - 1)
  end.

Lemma find_data_start_by_scans (lines : list string) :
  find_data_start lines
  = match first_header_line 0 lines with
    | Some i => if i =? 0 then fallback_boundary lines else inr i
    | None => fallback_boundary lines
    end.
Proof.
  unfold find_data_start, fallback_boundary. rewrite scan_header_first.
  assert (Hfb : forall d, d = 0 ->
            (if (if d =? 0 then scan_data 0 lines d else d) =? 0
             then raise no_data_start
             else ret (if d =? 0 then scan_data 0 lines d else d))
            = match first_data_line 0 lines with
              | None => inl no_data_start
              | Some k => if k =? 1 then inl no_data_start else inr (k - 1)
              end).
  { intros d ->. change (0 =? 0) with true. cbv iota. rewrite scan_data_first.
    destruct (first_data_line 0 lines) as [k |]; [| reflexivity].
    destruct (Z.eqb_spec k 1) as [-> | Hk]; [reflexivity |].
    destruct (Z.eqb_spec (k - 1) 0); [lia | reflexivity]. }
  destruct (first_header_line 0 lines) as [i |]; [| exact (Hfb 0 eq_refl)].
  destruct (Z.eqb_spec i 0) as [-> | Hi]; [exact (Hfb 0 eq_refl) |].
  destruct (Z.eqb_spec i 0); [contradiction | reflexivity].
Qed.

(** X3.  The boundary that [parse_silo_response] settles on: the index of
    the first header line when that index is not 0; otherwise one less
    than the index of the first line of comma-separated data, and the
    data-start error when there is no such line or when that index is 1.
    The first header line and the first data line are the earliest lines
    that pass the respective test. *)
Theorem find_data_start_cases (lines : list string) :
  find_data_start lines
  = match first_header_line 0 lines with
    | Some i => if i =? 0 then fallback_boundary lines else inr i
    | None => fallback_boundary lines
    end
  /\ (forall i, first_header_line 0 lines = Some i ->
        exists before line after,
          lines = (before ++ line :: after)%list
          /\ i = Z.of_nat (List.length before)
          /\ is_header_line line = true
          /\ Forall (fun l => is_header_line l = false) before)
  /\ (forall k, first_data_line 0 lines = Some k ->
        exists before line after,
          lines = (before ++ line :: after)%list
          /\ k = Z.of_nat (List.length before)
          /\ is_data_line line = true
          /\ Forall (fun l => is_data_line l = false) before).
Proof.
  split; [apply find_data_start_by_scans | split].
  - intros i H. destruct (first_header_line_split _ _ _ H) as (b & l & a & H1 & H2 & H3).
    exists b, l, a. split; [exact H1 |]. split; [lia | exact H3].
  - intros k H. destruct (first_data_line_split _ _ _ H) as (b & l & a & H1 & H2 & H3).
    exists b, l, a. split; [exact H1 |]. split; [lia | exact H3].
Qed.

Lemma skipn_all_but_last {A : Type} (l : list A) (x d : A) :
  skipn (List.length l) (x :: l) = [List.last (x :: l) d].
Proof.
  revert x. induction l as [| y r IH]; intros x; [reflexivity |].
  change (skipn (List.length (y :: r)) (x :: y :: r))
    with (skipn (List.length r) (y :: r)).
  rewrite (IH y). reflexivity.
Qed.

(** X4.  When the header scan leaves the boundary at 0 (no header line,
    or the header on line 0) and line 0 itself passes the data test, the
    boundary is -1: the slice [lines[-1:]] is the last line alone, and it
    is all that the table parser is given. *)
Theorem data_on_first_line_keeps_last_line
  (read_csv : string -> string + list (string * list cell))
  (to_numeric : list cell -> list cell)
  (strptime_ymd : cell -> option Z)
  (to_datetime_infer : list cell -> option (list (option Z)))
  (response_text format first : string) (rest : list string) :
  PyStr.split (ascii_of_nat 10) (PyStr.strip response_text) = first :: rest ->
  first_header_line 0 (first :: rest) = None
  \/ first_header_line 0 (first :: rest) = Some 0 ->
  is_data_line first = true ->
  find_data_start (first :: rest) = inr (-1)
  /\ slice_from (-1) (first :: rest) = [List.last rest first]
  /\ parse_silo_response read_csv to_numeric strptime_ymd to_datetime_infer
       response_text format
     = parse_silo_response (fun _ => read_csv (List.last rest first))
         to_numeric strptime_ymd to_datetime_infer response_text format.
Proof.
  intros Hlines Hhead Hdata.
  assert (Hfind : find_data_start (first :: rest) = inr (-1)).
  { rewrite (find_data_start_by_scans (first :: rest)).
    unfold fallback_boundary. cbn [first_data_line]. rewrite Hdata.
    destruct Hhead as [-> | ->]; reflexivity. }
  assert (Hslice : slice_from (-1) (first :: rest) = [List.last rest first]).
  { unfold slice_from. cbn [Z.ltb Z.compare].
    replace (Z.to_nat (Z.max 0 (Z.of_nat (List.length (first :: rest)) + -1)))
      with (List.length rest) by (simpl List.length; lia).
    rewrite (skipn_all_but_last rest first first).
    rewrite last_cons_default. reflexivity. }
  split; [exact Hfind |]. split; [exact Hslice |].
  unfold parse_silo_response. rewrite Hlines, Hfind. cbn [bind].
  rewrite Hslice. reflexivity.
Qed.

End BoundaryScans.

(** A comma-separated response without a header row. *)
Definition headless_text : string :=
  "20000101,1,30,20,12,5" ++ newline ++ "20000102,2,32,18,12,6" ++ newline
  ++ "20000103,0,31,19,12,7".

Lemma data_on_first_line_keeps_last_line_witness :
  PyStr.split (ascii_of_nat 10) (PyStr.strip headless_text)
  = ["20000101,1,30,20,12,5"; "20000102,2,32,18,12,6"; "20000103,0,31,19,12,7"]
  /\ first_header_line 0
       ["20000101,1,30,20,12,5"; "20000102,2,32,18,12,6"; "20000103,0,31,19,12,7"]
     = None
  /\ Boundary.is_data_line "20000101,1,30,20,12,5" = true
  /\ Boundary.slice_from (-1)
       ["20000101,1,30,20,12,5"; "20000102,2,32,18,12,6"; "20000103,0,31,19,12,7"]
     = ["20000103,0,31,19,12,7"].
Proof.
  assert (H1 : PyStr.split (ascii_of_nat 10) (PyStr.strip headless_text)
               = ["20000101,1,30,20,12,5"; "20000102,2,32,18,12,6";
                  "20000103,0,31,19,12,7"]) by (vm_compute; reflexivity).
  assert (H2 : first_header_line 0
                 ["20000101,1,30,20,12,5"; "20000102,2,32,18,12,6";
                  "20000103,0,31,19,12,7"] = None) by (vm_compute; reflexivity).
  assert (H3 : Boundary.is_data_line "20000101,1,30,20,12,5" = true)
    by (vm_compute; reflexivity).
  split; [exact H1 |]. split; [exact H2 |]. split; [exact H3 |].
  exact (proj1 (proj2 (data_on_first_line_keeps_last_line
                         (fun _ => inl "") (fun c => c) Fixtures.strptime_ymd
                         Fixtures.to_datetime_infer headless_text "fao56" _ _
                         H1 (or_introl H2) H3))).
Defined.

(** ** The raw table *)

Section RawTable.

Variable read_csv : string -> string + list (string * list cell).
Variable to_numeric : list cell -> list cell.
Variable strptime_ymd : cell -> option Z.
Variable to_datetime_infer : list cell -> option (list (option Z)).

(** The columns after lines 244-251: names stripped, values coerced. *)
Definition cleaned_columns (raw : list (string * list cell))
  : list (string * list cell) :=
  coerce_columns to_numeric (map (fun nc => (PyStr.strip (fst nc), snd nc)) raw).

(** The dates that the strict format reads in a column, in row order. *)
Definition parsed_dates (col : list cell) : list Z :=
  flat_map (fun c => match strptime_ymd c with Some d => [d] | None => [] end) col.

(** The coercion keeps the names: they are the names of the table,
    stripped. *)
Lemma cleaned_column_names (raw : list (string * list cell)) :
  map fst (cleaned_columns raw) = map (fun nc => PyStr.strip (fst nc)) raw.
Proof.
  unfold cleaned_columns, coerce_columns. rewrite !map_map.
  apply map_ext. intros [n c]. cbn [fst snd]. destruct (existsb _ _); reflexivity.
Qed.

Lemma lookup_column_in (name : string) (cols : list (string * list cell)) :
  In name (map fst cols) -> exists c, lookup_column name cols = Some c.
Proof. intros H. exact (get_column_in name (mkDataFrame [] cols) H). Qed.

(** What a successful [parse_silo_response] went through. *)
Lemma parse_silo_response_inr (response_text format : string) (df : DataFrame) :
  parse_silo_response read_csv to_numeric strptime_ymd to_datetime_infer
    response_text format = inr df ->
  exists idx raw date_col col,
    let lines := PyStr.split (ascii_of_nat 10) (PyStr.strip response_text) in
    Boundary.find_data_start lines = inr idx
    /\ read_csv (PyStr.join newline (Boundary.slice_from idx lines)) = inr raw
    /\ find_date_column (map fst (cleaned_columns raw)) = Some date_col
    /\ lookup_column date_col (cleaned_columns raw) = Some col
    /\ df = sort_index
              (set_index_dropna date_col (map strptime_ymd col) (cleaned_columns raw)).
Proof.
  unfold parse_silo_response. intros H.
  destruct (Boundary.find_data_start _) as [e | idx] eqn:Ef; [discriminate |].
  cbn [bind] in H.
  destruct (read_csv _) as [e | raw] eqn:Er; [discriminate |].
  fold (cleaned_columns raw) in H.
  destruct (find_date_column _) as [date_col |] eqn:Ed; [| discriminate].
  destruct (lookup_column date_col _) as [col |] eqn:El; [| discriminate].
  injection H as <-. exists idx, raw, date_col, col. repeat split; assumption.
Qed.

(** X5.  Every failure of [parse_silo_response] is a [SILOAPIError] that
    carries one of the four messages of the function: no boundary was
    found; the table parser refused the lines from the boundary on, and
    the text of its exception follows the message; no column name contains
    [date]; the date column could not be parsed (line 270, raised when
    both calls of [pd.to_datetime] raise).  A date column that the search
    has found can always be read. *)
Theorem parse_silo_response_errors (response_text format : string) (e : Error) :
  parse_silo_response read_csv to_numeric strptime_ymd to_datetime_infer
    response_text format = inl e ->
  let lines := PyStr.split (ascii_of_nat 10) (PyStr.strip response_text) in
  (e = SILOAPIError "Could not find data start in SILO response"
   /\ Boundary.find_data_start lines = inl e)
  \/ (exists idx msg,
        Boundary.find_data_start lines = inr idx
        /\ read_csv (PyStr.join newline (Boundary.slice_from idx lines)) = inl msg
        /\ e = SILOAPIError ("Failed to parse SILO CSV response: " ++ msg))
  \/ (exists idx raw,
        Boundary.find_data_start lines = inr idx
        /\ read_csv (PyStr.join newline (Boundary.slice_from idx lines)) = inr raw
        /\ Forall (fun name => PyStr.contains "date" (PyStr.lower (PyStr.strip name))
                               = false) (map fst raw)
        /\ e = SILOAPIError "Could not find date column in SILO response")
  \/ e = SILOAPIError "Could not parse date column".
Proof.
  intros H lines. unfold parse_silo_response in H. fold lines in H.
  destruct (Boundary.find_data_start lines) as [e0 | idx] eqn:Ef.
  - left. injection H as <-. split; [| reflexivity].
    unfold Boundary.find_data_start in Ef.
    destruct (_ =? 0); [injection Ef as <-; reflexivity | discriminate].
  - cbn [bind] in H. destruct (read_csv _) as [msg | raw] eqn:Er.
    { right; left. injection H as <-. exists idx, msg. repeat split. exact Er. }
    fold (cleaned_columns raw) in H.
    destruct (find_date_column _) as [date_col |] eqn:Ed.
    + apply find_some in Ed as [Hin _].
      destruct (lookup_column_in _ _ Hin) as [col Hcol]. rewrite Hcol in H.
      discriminate H.
    + right; right; left. injection H as <-. exists idx, raw.
      split; [reflexivity |]. split; [exact Er |]. split; [| reflexivity].
      apply Forall_forall. intros name Hname.
      apply in_map_iff in Hname as ([n c] & <- & Hnc). cbn [fst].
      apply (find_none _ _ Ed). rewrite cleaned_column_names.
      apply in_map_iff. exists (n, c). split; [reflexivity | exact Hnc].
Qed.

End RawTable.

(** ** Sorting by date *)

Section SortIndex.

Definition by_date (a b : Z * nat) : Prop := fst a <= fst b.

Lemma insert_by_date_perm (x : Z * nat) (l : list (Z * nat)) :
  Permutation (insert_by_date x l) (x :: l).
Proof.
  induction l as [| y r IH]; simpl; [reflexivity |].
  destruct (fst x <=? fst y); [reflexivity |].
  rewrite IH. apply perm_swap.
Qed.

Lemma insert_by_date_sorted (x : Z * nat) (l : list (Z * nat)) :
  Sorted by_date l -> Sorted by_date (insert_by_date x l).
Proof.
  induction 1 as [| y r Hr IH Hhd]; simpl; [repeat constructor |].
  destruct (Z.leb_spec (fst x) (fst y)) as [Hle | Hgt].
  - constructor; [constructor; assumption | constructor; exact Hle].
  - constructor; [exact IH |].
    destruct r as [| z r']; simpl.
    + constructor. unfold by_date. lia.
    + destruct (Z.leb_spec (fst x) (fst z)).
      * constructor. unfold by_date. lia.
      * constructor. inversion Hhd; assumption.
Qed.

Lemma sorted_order_perm (idx : list Z) :
  Permutation (sorted_order idx) (combine idx (seq 0 (List.length idx))).
Proof.
  unfold sorted_order. induction (combine idx (seq 0 (List.length idx))) as [| x r IH];
    simpl; [reflexivity |].
  rewrite insert_by_date_perm. constructor. exact IH.
Qed.

Lemma sorted_order_sorted (idx : list Z) : Sorted by_date (sorted_order idx).
Proof.
  unfold sorted_order. induction (combine idx (seq 0 (List.length idx))) as [| x r IH];
    simpl; [constructor | apply insert_by_date_sorted; exact IH].
Qed.

Lemma map_fst_combine_seq {A : Type} (l : list A) : forall s,
  map fst (combine l (seq s (List.length l))) = l.
Proof.
  induction l as [| x r IH]; intros s; simpl; [reflexivity | rewrite IH; reflexivity].
Qed.

Lemma in_combine_seq {A : Type} (l : list A) : forall s n x i,
  In (x, i) (combine l (seq s n)) ->
  (s <= i)%nat /\ nth_error l (i - s) = Some x.
Proof.
  induction l as [| y r IH]; intros s n x i H; [destruct H |].
  destruct n as [| n]; [destruct H |]. cbn [seq combine In] in H.
  destruct H as [[= -> ->] | H].
  - rewrite Nat.sub_diag. split; [lia | reflexivity].
  - apply IH in H as [Hs Hn]. split; [lia |].
    replace (i - s)%nat with (S (i - S s)) by lia. exact Hn.
Qed.

Lemma sorted_map_fst (l : list (Z * nat)) :
  Sorted by_date l -> Sorted Z.le (map fst l).
Proof.
  induction 1 as [| x r Hr IH Hhd]; simpl; [constructor |].
  constructor; [exact IH |].
  destruct Hhd; simpl; constructor. assumption.
Qed.

Lemma sort_index_sorted (df : DataFrame) : Sorted Z.le (index (sort_index df)).
Proof. apply sorted_map_fst, sorted_order_sorted. Qed.

Lemma sort_index_perm (df : DataFrame) :
  Permutation (index (sort_index df)) (index df).
Proof.
  unfold sort_index. cbn [index].
  rewrite (sorted_order_perm (index df)), map_fst_combine_seq. reflexivity.
Qed.

Lemma sorted_order_rows (idx : list Z) (d : Z) (i : nat) :
  In (d, i) (sorted_order idx) -> nth_error idx i = Some d.
Proof.
  intros H. apply (Permutation_in _ (sorted_order_perm idx)) in H.
  apply in_combine_seq in H as [_ H]. rewrite Nat.sub_0_r in H. exact H.
Qed.

Lemma take_rows_nth (positions : list nat) (col : list cell) (k : nat) :
  (k < List.length positions)%nat ->
  nth k (take_rows positions col) NaN = nth (nth k positions O) col NaN.
Proof.
  intros H. unfold take_rows.
  exact (nth_map_lt (fun i => nth i col NaN) positions k O NaN H).
Qed.

Lemma sort_index_well_formed (df : DataFrame) : well_formed (sort_index df).
Proof.
  unfold well_formed, sort_index. cbn [index columns].
  apply Forall_forall. intros nc H. apply in_map_iff in H as (x & <- & _).
  cbn [snd]. unfold take_rows. rewrite !length_map. reflexivity.
Qed.

End SortIndex.

(** ** Rows of the raw table *)

Section RawRows.

Variable read_csv : string -> string + list (string * list cell).
Variable to_numeric : list cell -> list cell.
Variable strptime_ymd : cell -> option Z.
Variable to_datetime_infer : list cell -> option (list (option Z)).

Lemma valid_rows_in (dates : list (option Z)) : forall s d i,
  In (d, i) (valid_rows s dates) ->
  (s <= i)%nat /\ nth_error dates (i - s) = Some (Some d).
Proof.
  induction dates as [| [x |] r IH]; intros s d i H; simpl in H; [destruct H | |].
  - destruct H as [[= -> ->] | H].
    + rewrite Nat.sub_diag. split; [lia | reflexivity].
    + apply IH in H as [Hs Hn]. split; [lia |].
      replace (i - s)%nat with (S (i - S s)) by lia. exact Hn.
  - apply IH in H as [Hs Hn]. split; [lia |].
    replace (i - s)%nat with (S (i - S s)) by lia. exact Hn.
Qed.

Lemma lookup_column_filter_other (name date_col : string) cols :
  name <> date_col ->
  lookup_column name
    (filter (fun nc => negb (String.eqb (fst nc) date_col)) cols)
  = lookup_column name cols.
Proof.
  intros Hne. induction cols as [| [n c] r IH]; simpl; [reflexivity |].
  destruct (String.eqb_spec n date_col) as [-> | Hn]; simpl.
  - destruct (String.eqb_spec date_col name); [congruence | exact IH].
  - destruct (String.eqb n name); [reflexivity | exact IH].
Qed.

Lemma nth_error_map_fst {A B : Type} (l : list (A * B)) (k : nat) (a : A) :
  nth_error (map fst l) k = Some a -> exists b, nth_error l k = Some (a, b).
Proof.
  rewrite nth_error_map. destruct (nth_error l k) as [[a' b] |]; [| discriminate].
  intros [= <-]. eauto.
Qed.

Lemma nth_map_snd {A : Type} (l : list (A * nat)) (k : nat) (a : A) (b : nat) :
  nth_error l k = Some (a, b) -> nth k (map snd l) O = b.
Proof.
  intros H. apply nth_error_nth. rewrite nth_error_map, H. reflexivity.
Qed.

(** X6.  Let [raw] be the table that [pd.read_csv] makes of the lines of
    the response from the boundary on, and [col] its date column, the
    first column whose name contains [date].  The raw table that
    [parse_silo_response] returns is sorted by ascending date, has every
    column as long as its index, has the columns of [raw] but the date
    column, in the same order, and its dates are, up to order, exactly the
    dates that the strict format read in [col] (a date read twice stays
    twice). *)
Theorem raw_table_sorted_by_date (response_text format : string) (df : DataFrame) :
  parse_silo_response read_csv to_numeric strptime_ymd to_datetime_infer
    response_text format = inr df ->
  let lines := PyStr.split (ascii_of_nat 10) (PyStr.strip response_text) in
  Sorted Z.le (index df)
  /\ well_formed df
  /\ exists idx raw date_col col,
       Boundary.find_data_start lines = inr idx
       /\ read_csv (PyStr.join newline (Boundary.slice_from idx lines)) = inr raw
       /\ find_date_column (map fst (cleaned_columns to_numeric raw)) = Some date_col
       /\ lookup_column date_col (cleaned_columns to_numeric raw) = Some col
       /\ Permutation (index df) (parsed_dates strptime_ymd col)
       /\ column_names df
          = filter (fun n => negb (String.eqb n date_col))
              (map fst (cleaned_columns to_numeric raw))
       /\ map fst (cleaned_columns to_numeric raw)
          = map (fun nc => PyStr.strip (fst nc)) raw.
Proof.
  intros H lines. apply parse_silo_response_inr in H
    as (idx & raw & date_col & col & Hf & Hr & Hd & Hc & ->).
  split; [apply sort_index_sorted |]. split; [apply sort_index_well_formed |].
  exists idx, raw, date_col, col.
  split; [exact Hf |]. split; [exact Hr |]. split; [exact Hd |]. split; [exact Hc |].
  split; [| split].
  - rewrite sort_index_perm, set_index_dropna_index. reflexivity.
  - unfold column_names, sort_index, set_index_dropna. cbn [columns].
    rewrite !map_map. cbn [fst]. clear Hd Hc.
    induction (cleaned_columns to_numeric raw) as [| [n c] r IH]; [reflexivity |].
    cbn [filter map fst]. destruct (negb (String.eqb n date_col)); cbn [map fst];
      rewrite IH; reflexivity.
  - apply cleaned_column_names.
Qed.

(** X7.  Sorting and dropping never mix rows.  With [raw] and [col] as
    above, the row of the returned table at position [k] is one row of
    [raw], the one at some position [i] whose date the strict format
    read, and every other column holds at [k] the value it held at [i]
    after the numeric coercion. *)
Theorem raw_table_rows_are_text_rows
  (response_text format : string) (df : DataFrame) :
  parse_silo_response read_csv to_numeric strptime_ymd to_datetime_infer
    response_text format = inr df ->
  let lines := PyStr.split (ascii_of_nat 10) (PyStr.strip response_text) in
  exists idx raw date_col col,
    Boundary.find_data_start lines = inr idx
    /\ read_csv (PyStr.join newline (Boundary.slice_from idx lines)) = inr raw
    /\ find_date_column (map fst (cleaned_columns to_numeric raw)) = Some date_col
    /\ lookup_column date_col (cleaned_columns to_numeric raw) = Some col
    /\ forall k d,
         nth_error (index df) k = Some d ->
         exists i c,
           nth_error col i = Some c
           /\ strptime_ymd c = Some d
           /\ forall name data,
                name <> date_col ->
                lookup_column name (cleaned_columns to_numeric raw) = Some data ->
                exists data',
                  get_column name df = Some data'
                  /\ nth k data' NaN = nth i data NaN.
Proof.
  intros H lines. apply parse_silo_response_inr in H
    as (idx & raw & date_col & col & Hf & Hr & Hd & Hc & ->).
  exists idx, raw, date_col, col.
  split; [exact Hf |]. split; [exact Hr |]. split; [exact Hd |]. split; [exact Hc |].
  intros k d Hk. unfold sort_index, set_index_dropna in *. cbn [index columns] in *.
  set (keep := valid_rows 0 (map strptime_ymd col)) in *.
  set (order := sorted_order (map fst keep)) in *.
  destruct (nth_error_map_fst _ _ _ Hk) as [j Hj].
  assert (Hjk : nth_error (map fst keep) j = Some d)
    by (apply sorted_order_rows; eapply nth_error_In; exact Hj).
  destruct (nth_error_map_fst _ _ _ Hjk) as [i Hi].
  assert (Hdate : nth_error (map strptime_ymd col) i = Some (Some d)).
  { pose proof (valid_rows_in _ _ _ _ (nth_error_In _ _ Hi)) as [_ Hn].
    rewrite Nat.sub_0_r in Hn. exact Hn. }
  rewrite nth_error_map in Hdate.
  destruct (nth_error col i) as [c |] eqn:Eci; [| discriminate].
  exists i, c. split; [exact Eci |].
  split; [cbn [option_map] in Hdate; congruence |].
  intros name data Hne Hdata. unfold get_column. cbn [columns].
  rewrite lookup_column_map, lookup_column_map,
    (lookup_column_filter_other _ _ _ Hne), Hdata.
  cbn [option_map]. eexists. split; [reflexivity |].
  rewrite take_rows_nth
    by (rewrite length_map; apply nth_error_Some; congruence).
  rewrite (nth_map_snd _ _ _ _ Hj).
  rewrite take_rows_nth
    by (rewrite length_map; apply nth_error_Some; congruence).
  rewrite (nth_map_snd _ _ _ _ Hi). reflexivity.
Qed.

End RawRows.

(** A response of three records out of order, the second with a date
    that the strict format does not read. *)
Definition unsorted_text : string :=
  "SILO patched point data" ++ newline ++ "Date Rain" ++ newline
  ++ "20000103 3.0" ++ newline ++ "2000-01-02 2.0" ++ newline ++ "20000101 1.0".

(** The lines that the table parser receives for it, and the table
    [pd.read_csv] makes of them: the dates are text, since one of them is
    no number. *)
Definition unsorted_lines : string :=
  "Date Rain" ++ newline
  ++ "20000103 3.0" ++ newline ++ "2000-01-02 2.0" ++ newline ++ "20000101 1.0".

Definition unsorted_table : list (string * list cell) :=
  [ ("Date", [Str "20000103"; Str "2000-01-02"; Str "20000101"]);
    ("Rain", [Float 3; Float 2; Float 1]) ].

Definition read_unsorted (text : string) : string + list (string * list cell) :=
  if String.eqb text unsorted_lines then inr unsorted_table
  else inl "No columns to parse from file".

Lemma unsorted_text_parsed :
  parse_silo_response read_unsorted (fun col => col)
    Fixtures.strptime_ymd Fixtures.to_datetime_infer unsorted_text "fao56"
  = inr (mkDataFrame [10957; 10959] [("Rain", [Float 1; Float 3])]).
Proof. vm_compute. reflexivity. Qed.

Lemma raw_table_sorted_by_date_witness :
  parse_silo_response read_unsorted (fun col => col)
    Fixtures.strptime_ymd Fixtures.to_datetime_infer unsorted_text "fao56"
  = inr (mkDataFrame [10957; 10959] [("Rain", [Float 1; Float 3])])
  /\ Sorted Z.le [10957; 10959]
  /\ well_formed (mkDataFrame [10957; 10959] [("Rain", [Float 1; Float 3])])
  /\ exists idx raw date_col col,
       Boundary.find_data_start
         (PyStr.split (ascii_of_nat 10) (PyStr.strip unsorted_text)) = inr idx
       /\ read_unsorted
            (PyStr.join newline
               (Boundary.slice_from idx
                  (PyStr.split (ascii_of_nat 10) (PyStr.strip unsorted_text))))
          = inr raw
       /\ lookup_column date_col (cleaned_columns (fun col => col) raw) = Some col
       /\ Permutation [10957; 10959] (parsed_dates Fixtures.strptime_ymd col).
Proof.
  split; [exact unsorted_text_parsed |].
  destruct (raw_table_sorted_by_date _ _ _ _ _ _ _ unsorted_text_parsed)
    as (H1 & H2 & idx & raw & date_col & col & H3 & H4 & _ & H6 & H7 & _).
  split; [exact H1 |]. split; [exact H2 |].
  exists idx, raw, date_col, col. repeat (split; [assumption |]). exact H7.
Defined.

Lemma raw_table_rows_are_text_rows_witness :
  parse_silo_response read_unsorted (fun col => col)
    Fixtures.strptime_ymd Fixtures.to_datetime_infer unsorted_text "fao56"
  = inr (mkDataFrame [10957; 10959] [("Rain", [Float 1; Float 3])])
  /\ exists idx raw date_col col,
       read_unsorted
         (PyStr.join newline
            (Boundary.slice_from idx
               (PyStr.split (ascii_of_nat 10) (PyStr.strip unsorted_text))))
       = inr raw
       /\ lookup_column date_col (cleaned_columns (fun c => c) raw) = Some col
       /\ forall k d,
            nth_error [10957; 10959] k = Some d ->
            exists i c, nth_error col i = Some c /\ Fixtures.strptime_ymd c = Some d.
Proof.
  split; [exact unsorted_text_parsed |].
  destruct (raw_table_rows_are_text_rows _ _ _ _ _ _ _ unsorted_text_parsed)
    as (idx & raw & date_col & col & _ & Hr & _ & Hc & Hrows).
  exists idx, raw, date_col, col. split; [exact Hr |]. split; [exact Hc |].
  intros k d Hk. destruct (Hrows k d Hk) as (i & c & H1 & H2 & _).
  exists i, c. split; assumption.
Defined.

(** ** Failures and invariants of [extract_variables] *)

Section NormalizerFacts.

Import Resolve.

Variable float_repr : float -> string.

(** X8.  For every mapping, the reverse mapping gives a canonical
    variable the source names mapped to it, in declaration order and
    without the entry of [Date]; a variable that no source name maps to
    has no entry. *)
Theorem reverse_mapping_lookup (mapping : list (string * string)) (key : string) :
  dict_get key (output_to_silo mapping)
  = match candidates mapping key with [] => None | names => Some names end
  /\ (forall n, In n (candidates mapping key) <-> In (n, key) mapping /\ n <> "Date")
  /\ (forall a b before between after,
        mapping = (before ++ (a, key) :: between ++ (b, key) :: after)%list ->
        a <> "Date" -> b <> "Date" ->
        exists l1 l2 l3, candidates mapping key = (l1 ++ a :: l2 ++ b :: l3)%list).
Proof.
  split; [apply output_to_silo_candidates |]. split.
  - intros n. unfold candidates. rewrite in_map_iff. split.
    + intros ([s o] & <- & H). apply filter_In in H as [Hin Hf].
      apply andb_true_iff in Hf as [Hd Ho]. cbn [fst snd] in *.
      apply String.eqb_eq in Ho. subst o. split; [exact Hin |].
      intros ->. discriminate Hd.
    + intros [Hin Hne]. exists (n, key). split; [reflexivity |].
      apply filter_In. split; [exact Hin |]. cbn [fst snd].
      rewrite String.eqb_refl, andb_true_r.
      destruct (String.eqb_spec n "Date"); [contradiction | reflexivity].
  - intros a b before between after -> Ha Hb. unfold candidates.
    rewrite filter_app. cbn [filter fst snd]. rewrite String.eqb_refl, andb_true_r.
    destruct (String.eqb_spec a "Date"); [contradiction |]. cbn [negb].
    rewrite filter_app. cbn [filter fst snd]. rewrite String.eqb_refl, andb_true_r.
    destruct (String.eqb_spec b "Date"); [contradiction |]. cbn [negb].
    rewrite map_app. cbn [map fst]. rewrite map_app. cbn [map fst].
    eexists _, _, _. reflexivity.
Qed.

Lemma try_names_result (col col_lower : string) (names : list string) found_col :
  try_names col col_lower names found_col = Some col
  \/ try_names col col_lower names found_col = found_col.
Proof. rewrite try_names_spec. destruct (existsb _ names); auto. Qed.

(** The loops return a column of the table, if anything. *)
Lemma find_column_in (cols names : list string) : forall found_col c,
  find_column cols names found_col = Some c ->
  found_col = Some c \/ In c cols.
Proof.
  induction cols as [| col r IH]; intros fc c; simpl; [auto |].
  destruct (try_names_result col (PyStr.lower (PyStr.strip col)) names fc) as [E | E];
    rewrite E.
  - destruct (truthy (Some col)).
    + intros [= <-]. right. now left.
    + intros H. apply IH in H as [[= <-] | H]; right; [now left | now right].
  - destruct (truthy fc); [auto |].
    intros H. apply IH in H as [H | H]; [auto | right; now right].
Qed.

Lemma map_variables_inl (df : DataFrame) (o2s : dict) : forall vars acc e,
  map_variables df o2s vars acc = inl e ->
  exists msg, e = MissingVariableError msg.
Proof.
  induction vars as [| v rest IH]; intros acc e H; [discriminate |].
  cbn [map_variables] in H.
  destruct (dict_get v o2s) as [names |]; [| eapply IH; exact H].
  destruct (find_column (column_names df) names None) as [found |] eqn:Ef;
    [| injection H as <-; eauto].
  apply find_column_in in Ef as [Ef | Ef]; [discriminate |].
  destruct (get_column_in _ _ Ef) as [data Hd]. rewrite Hd in H.
  eapply IH. exact H.
Qed.

Lemma code_column_total (df : DataFrame) :
  exists code, code_column float_repr df = inr code.
Proof.
  unfold code_column.
  destruct (find_code_column (column_names df)) as [[| c t] |] eqn:Ef; eauto.
  destruct (find_code_column_named _ _ Ef) as (Hin & _).
  destruct (get_column_in _ _ Hin) as [data ->]. eauto.
Qed.

Definition duplicate_labels : Error :=
  ValueError "cannot reindex on an axis with duplicate labels".

(** X9.  [extract_variables] fails in two ways only: with a
    [MissingVariableError], or, when every variable resolves and two rows
    of a non-empty raw table carry the same date, with the [ValueError]
    of the reindexing.  A column that the search has found can always be
    read. *)
Theorem extract_variables_errors (df : DataFrame) (format : string) (e : Error) :
  extract_variables float_repr df format = inl e ->
  (exists msg, e = MissingVariableError msg)
  \/ (e = duplicate_labels /\ has_duplicates (index df) = true).
Proof.
  unfold extract_variables. fold (mapping_for format). intros H.
  destruct (map_variables df _ REQUIRED_VARIABLES _) as [e0 | odf] eqn:Em.
  - left. injection H as <-. eapply map_variables_inl. exact Em.
  - apply (map_variables_inr df _ (candidates (mapping_for format))) in Em;
      [| intros; now apply required_have_candidates | exact required_nodup
       | intros v _ []].
    destruct Em as [Hidx (datas & Hall & Hcols)].
    cbn [index columns app] in Hidx, Hcols. cbn [bind] in H.
    destruct (code_column_total df) as [code Hc]. rewrite Hc in H.
    apply Forall2_length in Hall.
    destruct datas as [| d1 [| d2 [| d3 [| d4 [| d5 [| d6 [| d7 [|]]]]]]]];
      try discriminate Hall.
    destruct odf as [oidx ocols]. cbn [index columns] in *. subst oidx ocols.
    cbn -[reindex date_range index_min index_max replace_missing_codes] in H.
    unfold len in H. cbn [index] in H.
    destruct (index df) as [| d0 rest] eqn:Ei; [discriminate |].
    cbn [List.length Nat.ltb Nat.leb] in H. unfold reindex in H.
    cbn [index columns] in H.
    destruct (has_duplicates (d0 :: rest)) eqn:Ed; [| discriminate].
    injection H as <-. right. split; reflexivity.
Qed.

(** X10.  A raw table in which two rows carry the same date is never
    normalized: [extract_variables] fails on it. *)
Theorem duplicate_dates_are_never_normalized (df : DataFrame) (format : string) :
  has_duplicates (index df) = true ->
  exists e, extract_variables float_repr df format = inl e.
Proof.
  intros Hd. destruct (extract_variables float_repr df format) as [e | out] eqn:E;
    [eauto |].
  destruct (extract_variables_inr float_repr df format out E)
    as (_ & _ & _ & _ & [[He _] | (_ & Hn & _)]).
  - rewrite He in Hd. discriminate.
  - congruence.
Qed.

Lemma canonical_names_do_not_resolve (df : DataFrame) (format : string) :
  column_names df = (REQUIRED_VARIABLES ++ ["code"])%list ->
  extract_variables float_repr df format
  = inl (MissingVariableError
           (missing_variable_message "max_temp"
              (candidates (mapping_for format) "max_temp")
              (REQUIRED_VARIABLES ++ ["code"]))).
Proof.
  intros Hcols. unfold extract_variables. fold (mapping_for format).
  change REQUIRED_VARIABLES
    with (["daily_rain"] ++ "max_temp"
            :: ["min_temp"; "vp"; "radiation"; "et_short_crop"; "evap_pan"])%list
    at 1.
  rewrite (map_variables_missing df _ (candidates (mapping_for format))).
  - rewrite Hcols. reflexivity.
  - rewrite Hcols. repeat constructor; discriminate.
  - apply required_have_candidates. cbn. tauto.
  - rewrite Hcols. unfold mapping_for.
    destruct (String.eqb format "fao56"); reflexivity.
  - constructor; [| constructor]. split.
    + apply required_have_candidates. cbn. tauto.
    + rewrite Hcols. unfold mapping_for.
      destruct (String.eqb format "fao56"); discriminate.
Qed.

Lemma extract_variables_column_names (df : DataFrame) (format : string) (out : DataFrame) :
  extract_variables float_repr df format = inr out ->
  column_names out = (REQUIRED_VARIABLES ++ ["code"])%list.
Proof.
  intros H.
  destruct (extract_variables_inr float_repr df format out H)
    as (datas & code & Hall & _ & Hout).
  assert (Hlen : List.length datas = List.length REQUIRED_VARIABLES)
    by (symmetry; eapply Forall2_length; exact Hall).
  destruct Hout as [[_ ->] | (_ & _ & ->)]; unfold column_names; cbn [columns].
  - apply normalized_column_names. exact Hlen.
  - rewrite map_map. cbn [fst]. apply normalized_column_names. exact Hlen.
Qed.

(** X11.  Normalizing is not idempotent: the canonical names [max_temp]
    and [min_temp] match none of their source names, so
    [extract_variables] applied to a series that it returned raises
    [MissingVariableError] for [max_temp], for either format. *)
Theorem extract_variables_refuses_its_output
  (df : DataFrame) (format format' : string) (out : DataFrame) :
  extract_variables float_repr df format = inr out ->
  extract_variables float_repr out format'
  = inl (MissingVariableError
           (missing_variable_message "max_temp"
              (candidates (mapping_for format') "max_temp")
              (REQUIRED_VARIABLES ++ ["code"]))).
Proof.
  intros H. apply canonical_names_do_not_resolve.
  eapply extract_variables_column_names. exact H.
Qed.

(** X12.  A value of a resolved column that is none of the missing codes
    reaches the series unchanged, on the row of its date. *)
Theorem other_values_are_kept
  (df : DataFrame) (format : string) (out : DataFrame) (v : string) :
  extract_variables float_repr df format = inr out ->
  In v REQUIRED_VARIABLES ->
  exists data,
    resolved df (candidates (mapping_for format) v) data
    /\ forall i d,
         nth_error (index df) i = Some d ->
         is_sentinel (nth i data NaN) = false ->
         cell_at out v d = Some (nth i data NaN).
Proof.
  intros H Hv.
  destruct (normalized_cell float_repr df format out v H Hv) as (data & Hres & Hcell).
  exists data. split; [exact Hres |].
  intros i d Hi Hs. rewrite (Hcell i d Hi), (replace_cell_other _ Hs). reflexivity.
Qed.

Lemma replace_missing_codes_length (data : list cell) :
  List.length (replace_missing_codes data) = List.length data.
Proof. rewrite replace_missing_codes_map. apply length_map. Qed.

Lemma code_column_length (df : DataFrame) (code : list cell) :
  well_formed df -> code_column float_repr df = inr code ->
  List.length code = List.length (index df).
Proof.
  intros Hwf. unfold code_column.
  destruct (find_code_column (column_names df)) as [[| c t] |];
    try (intros [= <-]; apply repeat_length).
  destruct (get_column (String c t) df) as [data |] eqn:Eg; [| discriminate].
  intros [= <-]. rewrite length_map, values_length.
  eapply well_formed_column; eassumption.
Qed.

(** X13.  [extract_variables] keeps frames well formed: on a raw table
    whose columns are as long as its index, the series it returns has
    eight columns, each as long as the index of the series. *)
Theorem normalized_series_well_formed
  (df : DataFrame) (format : string) (out : DataFrame) :
  extract_variables float_repr df format = inr out ->
  well_formed df ->
  well_formed out /\ List.length (columns out) = 8%nat.
Proof.
  intros H Hwf.
  destruct (extract_variables_inr float_repr df format out H)
    as (datas & code & Hall & Hcode & Hout).
  pose proof (code_column_length df code Hwf Hcode) as Hcl.
  assert (Hdatas : Forall (fun data => List.length data = List.length (index df)) datas).
  { clear Hout Hcode. revert Hall. generalize REQUIRED_VARIABLES.
    induction datas as [| data r IH]; intros vars Hall; [constructor |].
    inversion Hall as [| v ? vs ? (found & _ & Hg) Hrest]; subst.
    constructor; [eapply well_formed_column; eassumption | eapply IH; exact Hrest]. }
  apply Forall2_length in Hall.
  destruct datas as [| d1 [| d2 [| d3 [| d4 [| d5 [| d6 [| d7 [|]]]]]]]];
    try discriminate Hall.
  destruct Hout as [[He ->] | (_ & _ & ->)].
  - split; [| reflexivity]. unfold well_formed. cbn [index columns].
    rewrite He in *. cbn [List.length] in *.
    repeat match goal with
           | H : Forall _ (_ :: _) |- _ => inversion H; subst; clear H
           end.
    unfold normalized_columns. cbn [REQUIRED_VARIABLES combine map app].
    repeat (constructor; [cbn [snd]; rewrite ?replace_missing_codes_length; assumption |]).
    constructor.
  - split; [| reflexivity]. unfold well_formed. cbn [index columns].
    apply Forall_forall. intros nc Hin. apply in_map_iff in Hin as (x & <- & _).
    cbn [snd]. unfold reindex_column. apply length_map.
Qed.

End NormalizerFacts.

Lemma duplicate_dates_are_never_normalized_witness :
  has_duplicates [10957; 10958; 10957] = true
  /\ exists e,
       extract_variables Fixtures.float_repr
         (mkDataFrame [10957; 10958; 10957] (columns gap_table)) "fao56" = inl e.
Proof.
  split; [reflexivity |].
  apply (duplicate_dates_are_never_normalized Fixtures.float_repr
           (mkDataFrame [10957; 10958; 10957] (columns gap_table)) "fao56").
  reflexivity.
Defined.

Lemma extract_variables_errors_witness :
  extract_variables Fixtures.float_repr rain_only_table "fao56"
  = inl (MissingVariableError
           (Resolve.missing_variable_message "max_temp" ["T.Max"] ["Day"; "Rain"]))
  /\ ((exists msg,
         MissingVariableError
           (Resolve.missing_variable_message "max_temp" ["T.Max"] ["Day"; "Rain"])
         = MissingVariableError msg)
      \/ (MissingVariableError
            (Resolve.missing_variable_message "max_temp" ["T.Max"] ["Day"; "Rain"])
          = duplicate_labels
          /\ has_duplicates (index rain_only_table) = true)).
Proof.
  assert (H : extract_variables Fixtures.float_repr rain_only_table "fao56"
              = inl (MissingVariableError
                       (Resolve.missing_variable_message "max_temp" ["T.Max"]
                          ["Day"; "Rain"]))) by (vm_compute; reflexivity).
  split; [exact H |].
  exact (extract_variables_errors Fixtures.float_repr rain_only_table "fao56" _ H).
Defined.

Lemma extract_variables_refuses_its_output_witness :
  extract_variables Fixtures.float_repr gap_table "fao56" = inr gap_series
  /\ extract_variables Fixtures.float_repr gap_series "daily"
     = inl (MissingVariableError
              (Resolve.missing_variable_message "max_temp" ["Tmax"]
                 (REQUIRED_VARIABLES ++ ["code"]))).
Proof.
  assert (H : extract_variables Fixtures.float_repr gap_table "fao56" = inr gap_series)
    by apply gap_table_normalized.
  split; [exact H |].
  exact (extract_variables_refuses_its_output Fixtures.float_repr
           gap_table "fao56" "daily" gap_series H).
Defined.

Lemma other_values_are_kept_witness :
  extract_variables Fixtures.float_repr sentinel_table "fao56" = inr sentinel_series
  /\ In "daily_rain" REQUIRED_VARIABLES
  /\ exists data,
       resolved sentinel_table (candidates (mapping_for "fao56") "daily_rain") data
       /\ forall i d,
            nth_error (index sentinel_table) i = Some d ->
            is_sentinel (nth i data NaN) = false ->
            cell_at sentinel_series "daily_rain" d = Some (nth i data NaN).
Proof.
  assert (H : extract_variables Fixtures.float_repr sentinel_table "fao56"
              = inr sentinel_series) by (vm_compute; reflexivity).
  assert (Hv : In "daily_rain" REQUIRED_VARIABLES) by (left; reflexivity).
  split; [exact H |]. split; [exact Hv |].
  exact (other_values_are_kept Fixtures.float_repr sentinel_table "fao56"
           sentinel_series "daily_rain" H Hv).
Defined.

Lemma normalized_series_well_formed_witness :
  extract_variables Fixtures.float_repr gap_table "fao56" = inr gap_series
  /\ well_formed gap_table
  /\ well_formed gap_series
  /\ List.length (columns gap_series) = 8%nat.
Proof.
  assert (H : extract_variables Fixtures.float_repr gap_table "fao56" = inr gap_series)
    by apply gap_table_normalized.
  assert (Hwf : well_formed gap_table) by (repeat constructor).
  split; [exact H |]. split; [exact Hwf |].
  exact (normalized_series_well_formed Fixtures.float_repr gap_table "fao56"
           gap_series H Hwf).
Defined.

(** ** The evaporation shift as a frame operation *)

Section ShiftFrame.

Lemma assign_column_names (name : string) (data : list cell) cols :
  In name (map fst cols) ->
  map fst (assign_column name data cols) = map fst cols.
Proof.
  induction cols as [| [n c] r IH]; simpl; [tauto |].
  destruct (String.eqb_spec n name) as [-> | Hn]; [reflexivity |].
  intros [H | H]; [contradiction |]. cbn [map fst]. rewrite (IH H). reflexivity.
Qed.

Lemma assign_column_forall (P : string * list cell -> Prop)
  (name : string) (data : list cell) cols :
  Forall P cols -> (forall n, P (n, data)) -> Forall P (assign_column name data cols).
Proof.
  intros Hall Hd. induction Hall as [| [n c] r Hc Hr IH]; simpl.
  - constructor; [apply Hd | constructor].
  - destruct (String.eqb n name); constructor; auto.
Qed.

Lemma shift_up_length (col : list cell) : List.length (shift_up col) = List.length col.
Proof.
  destruct col as [| c t]; [reflexivity |].
  rewrite shift_up_cons, length_app, shifted_rows_length. simpl. lia.
Qed.

Lemma lookup_column_names (name : string) cols (data : list cell) :
  lookup_column name cols = Some data -> In name (map fst cols).
Proof.
  induction cols as [| [n c] r IH]; simpl; [discriminate |].
  destruct (String.eqb_spec n name) as [-> | Hn]; [now left | ].
  intros H. right. apply IH. exact H.
Qed.

(** X14.  [shift_evaporation] raises its [ValueError] exactly when the
    frame has no [evap_pan] column.  Otherwise it returns a frame with the
    same index, the same column names in the same order and every other
    column untouched; the shifted column has as many rows as before, so a
    well-formed frame stays well formed. *)
Theorem shift_evaporation_keeps_frame (df : DataFrame) :
  (shift_evaporation df
   = inl (ValueError "DataFrame must contain evap_pan column")
   <-> has_column "evap_pan" df = false)
  /\ (forall e, shift_evaporation df = inl e -> has_column "evap_pan" df = false)
  /\ (forall df',
        shift_evaporation df = inr df' ->
        index df' = index df
        /\ column_names df' = column_names df
        /\ (forall name, name <> "evap_pan" -> get_column name df' = get_column name df)
        /\ (exists pre post,
              get_column "evap_pan" df = Some pre
              /\ get_column "evap_pan" df' = Some post
              /\ List.length post = List.length pre)
        /\ (well_formed df -> well_formed df')).
Proof.
  assert (Herr : forall e, shift_evaporation df = inl e ->
                 has_column "evap_pan" df = false
                 /\ e = ValueError "DataFrame must contain evap_pan column").
  { intros e H. unfold shift_evaporation in H.
    destruct (has_column "evap_pan" df) eqn:Eh;
      [| injection H as <-; split; reflexivity].
    apply has_column_lookup in Eh as [evap Hev]. rewrite Hev in H.
    cbn [negb] in H. destruct (existsb isna _); discriminate. }
  split; [| split].
  - split; [intros H; apply (Herr _ H) |].
    intros H. unfold shift_evaporation. rewrite H. reflexivity.
  - intros e H. apply (Herr _ H).
  - intros df' H.
    destruct (get_column "evap_pan" df) as [evap |] eqn:Ev.
    2:{ unfold shift_evaporation in H.
        destruct (has_column "evap_pan" df) eqn:Eh; [| discriminate].
        apply has_column_lookup in Eh as [x Hx]. congruence. }
    rewrite (shift_evaporation_inr df evap Ev) in H. injection H as <-.
    unfold get_column, column_names, set_column in *. cbn [index columns].
    split; [reflexivity |].
    split; [apply assign_column_names; eapply lookup_column_names; exact Ev |].
    split; [intros name Hne; apply lookup_column_assign_other; exact Hne |].
    split.
    + exists evap, (ffill (shift_up evap)). split; [reflexivity |].
      split; [apply lookup_column_assign_same |].
      unfold ffill. rewrite ffill_from_length. apply shift_up_length.
    + unfold well_formed. cbn [index columns]. intros Hwf.
      apply assign_column_forall; [exact Hwf |].
      intros n. cbn [snd]. unfold ffill.
      rewrite ffill_from_length, shift_up_length.
      apply (well_formed_column df "evap_pan" evap Hwf Ev).
Qed.

Lemma ffill_from_valid (col : list cell) : forall last,
  notna last = true -> Forall (fun c => notna c = true) (ffill_from last col).
Proof.
  induction col as [| c t IH]; intros last Hl; simpl; [constructor |].
  destruct (notna c) eqn:E; constructor; auto.
Qed.

Lemma ffill_from_after_value (col : list cell) : forall last l1 c l2,
  ffill_from last col = (l1 ++ c :: l2)%list ->
  notna c = true ->
  Forall (fun x => notna x = true) l2.
Proof.
  induction col as [| x t IH]; intros last l1 c l2 H Hc.
  - destruct l1; discriminate H.
  - simpl in H. destruct l1 as [| a l1'].
    + cbn [app] in H. destruct (notna x) eqn:E; injection H as <- <-;
        apply ffill_from_valid; assumption.
    + cbn [app] in H. destruct (notna x); injection H as _ H;
        eapply IH; eassumption.
Qed.

(** X15.  After [shift_evaporation], once a day has an evaporation value
    every later day has one: the nulls of the column, if any, all come
    before its first value. *)
Theorem shifted_nulls_come_first
  (df df' : DataFrame) (post before after : list cell) (c : cell) :
  shift_evaporation df = inr df' ->
  get_column "evap_pan" df' = Some post ->
  post = (before ++ c :: after)%list ->
  notna c = true ->
  Forall (fun x => notna x = true) after.
Proof.
  intros H Hpost Hsplit Hc.
  destruct (get_column "evap_pan" df) as [evap |] eqn:Ev.
  2:{ unfold shift_evaporation in H.
      destruct (has_column "evap_pan" df) eqn:Eh; [| discriminate].
      apply has_column_lookup in Eh as [x Hx]. congruence. }
  rewrite (shift_evaporation_inr df evap Ev) in H. injection H as <-.
  unfold get_column, set_column in Hpost. cbn [columns] in Hpost.
  rewrite lookup_column_assign_same in Hpost. injection Hpost as <-.
  unfold ffill in Hsplit. eapply ffill_from_after_value; eassumption.
Qed.

End ShiftFrame.

Lemma shifted_nulls_come_first_witness :
  shift_evaporation evap_gap_series
  = inr (set_column "evap_pan" [Float 2; Float 2; Float 4; Float 4] evap_gap_series)
  /\ Forall (fun x => notna x = true) [Float 2; Float 4; Float 4].
Proof.
  assert (H : shift_evaporation evap_gap_series
              = inr (set_column "evap_pan" [Float 2; Float 2; Float 4; Float 4]
                       evap_gap_series)) by (vm_compute; reflexivity).
  split; [exact H |].
  apply (shifted_nulls_come_first evap_gap_series _
           [Float 2; Float 2; Float 4; Float 4] [] [Float 2; Float 4; Float 4]
           (Float 2) H); reflexivity.
Defined.

(** ** Statistics and the day of the year *)

Section Statistics.

(** X16.  [calculate_amp] fails exactly when [calculate_tav] fails, and
    with the same exception: both need the two temperature columns and
    both form the same daily means. *)
Theorem calculate_amp_fails_like_tav (df : DataFrame) (e : Error) :
  calculate_amp df = inl e <-> calculate_tav df = inl e.
Proof.
  unfold calculate_amp, calculate_tav.
  destruct (negb (has_column "max_temp" df) || negb (has_column "min_temp" df));
    [reflexivity |].
  destruct (get_column "max_temp" df) as [maxs |]; [| reflexivity].
  destruct (get_column "min_temp" df) as [mins |]; [| reflexivity].
  destruct (daily_means (values maxs) (values mins)) as [e0 | daily]; cbn [bind];
    [reflexivity |].
  split; discriminate.
Qed.

(** X17.  [calculate_day_of_year] leaves the index and the other columns
    as they are and sets the column [day] to the day of the year of each
    date: a number from 1 to 365, or to 366 in a leap year, which is 1 on
    the first of January of every year. *)
Theorem day_of_year_column (df : DataFrame) :
  index (calculate_day_of_year df) = index df
  /\ (forall name, name <> "day" ->
        get_column name (calculate_day_of_year df) = get_column name df)
  /\ (exists days,
        get_column "day" (calculate_day_of_year df) = Some days
        /\ List.length days = List.length (index df)
        /\ forall i d,
             nth_error (index df) i = Some d ->
             exists n,
               nth_error days i = Some (Int n)
               /\ n = Calendar.dayofyear d
               /\ 1 <= n <= year_length (Calendar.year d))
  /\ (forall y, Calendar.dayofyear (Calendar.days_from_civil y 1 1) = 1)
  /\ (well_formed df -> well_formed (calculate_day_of_year df)).
Proof.
  unfold calculate_day_of_year, get_column, set_column. cbn [index columns].
  split; [reflexivity |].
  split; [intros name Hne; apply lookup_column_assign_other; exact Hne |].
  split; [| split].
  - eexists. split; [apply lookup_column_assign_same |].
    split; [apply length_map |].
    intros i d Hi. exists (Calendar.dayofyear d).
    split; [rewrite nth_error_map, Hi; reflexivity |].
    split; [reflexivity | apply dayofyear_bounds].
  - intros y. unfold Calendar.dayofyear, Calendar.year.
    rewrite civil_of_new_year. cbn [fst]. lia.
  - unfold well_formed. cbn [index columns]. intros Hwf.
    apply assign_column_forall; [exact Hwf |].
    intros n. cbn [snd]. apply length_map.
Qed.

End Statistics.

(** ** When the agronomic file is written *)

Section MetFile.

Variable float_repr : float -> string.

(** A column of the frame that holds numbers only. *)
Definition numeric_column (df : DataFrame) (name : string) : Prop :=
  exists col, get_column name df = Some col /\ Forall (fun c => is_number c = true) col.

Lemma statistics_of_numbers (df : DataFrame) :
  numeric_column df "max_temp" -> numeric_column df "min_temp" ->
  exists tav amp, calculate_tav df = inr tav /\ calculate_amp df = inr amp.
Proof.
  intros (maxs & Hmax & Nmax) (mins & Hmin & Nmin).
  destruct (daily_means_numbers _ _ (values_numbers _ Nmax) (values_numbers _ Nmin))
    as [daily Hd].
  unfold calculate_tav, calculate_amp.
  assert (H1 : has_column "max_temp" df = true) by (apply has_column_lookup; eauto).
  assert (H2 : has_column "min_temp" df = true) by (apply has_column_lookup; eauto).
  rewrite H1, H2, Hmax, Hmin. cbn [negb orb]. rewrite Hd. cbn [bind]. eauto.
Qed.

Lemma nth_number (col : list cell) (i : nat) :
  Forall (fun c => is_number c = true) col -> is_number (nth i col NaN) = true.
Proof.
  intros H. revert i. induction H as [| c r Hc Hr IH]; intros [| i]; simpl; auto.
Qed.

Lemma format_value_of_number (c : cell) :
  is_number c = true -> exists text, format_value c = inr text.
Proof.
  unfold format_value. destruct c; simpl; try discriminate;
    intros _; destruct (negb _) || idtac; eauto.
Qed.

Lemma as_float_numbers (col : list cell) :
  Forall (fun c => is_number c = true) col ->
  Forall (fun c => is_number c = true) (map as_float col).
Proof.
  intros H. apply Forall_forall. intros c Hc. apply in_map_iff in Hc as (x & <- & Hx).
  pose proof (proj1 (Forall_forall _ _) H x Hx) as Hn.
  destruct x; [reflexivity | reflexivity | discriminate Hn].
Qed.

Lemma ffill_from_numbers (col : list cell) : forall last,
  is_number last = true ->
  Forall (fun c => is_number c = true) col ->
  Forall (fun c => is_number c = true) (ffill_from last col).
Proof.
  induction col as [| c t IH]; intros last Hl H; simpl; [constructor |].
  inversion H; subst. destruct (notna c); constructor; auto.
Qed.

Lemma shifted_numbers (col : list cell) :
  Forall (fun c => is_number c = true) col ->
  Forall (fun c => is_number c = true) (ffill (shift_up col)).
Proof.
  intros H. apply ffill_from_numbers; [reflexivity |].
  destruct col as [| c t]; [constructor |]. inversion H; subst.
  rewrite shift_up_cons. apply Forall_app. split; [| repeat constructor].
  unfold shifted_rows. destruct (forallb is_number (c :: t));
    [apply as_float_numbers |]; assumption.
Qed.

Lemma met_rows_total (df : DataFrame) (dates : list Z) : forall i,
  (forall k date, nth_error dates k = Some date ->
     exists line, met_row float_repr df (i + k) date = inr line) ->
  exists lines, met_rows float_repr df i dates = inr lines.
Proof.
  induction dates as [| date rest IH]; intros i H; [simpl; eauto |].
  cbn [met_rows]. destruct (H O date eq_refl) as [line Hl].
  rewrite Nat.add_0_r in Hl. rewrite Hl. cbn [bind].
  destruct (IH (S i)) as [lines ->].
  - intros k d Hk. rewrite Nat.add_succ_comm. apply (H (S k) d Hk).
  - cbn [bind]. eauto.
Qed.

Lemma numeric_field_total (df : DataFrame) (i : nat) (name : string) :
  numeric_column df name ->
  exists c text, row_cell df i name = inr c /\ format_value c = inr text.
Proof.
  intros (col & Hc & Hn). unfold row_cell. rewrite Hc.
  destruct (format_value_of_number (nth i col NaN) (nth_number col i Hn)) as [text Ht].
  eauto.
Qed.

Lemma numeric_column_after (df df' : DataFrame) (name : string) :
  get_column name df' = get_column name df ->
  numeric_column df name -> numeric_column df' name.
Proof. intros H (col & Hc & Hn). exists col. rewrite H. auto. Qed.

(** A column of numbers is a column of numbers in the rows. *)
Lemma numeric_column_row_values (df : DataFrame) (name : string) :
  numeric_column df name -> numeric_column (row_values df) name.
Proof.
  intros (col & Hc & Hn). unfold numeric_column.
  rewrite get_column_row_values, Hc. cbn [option_map].
  eexists. split; [reflexivity |].
  destruct (_ && _); [apply as_float_numbers | apply values_numbers]; exact Hn.
Qed.

Lemma met_file_of_numbers
  (extraction_date : string) (df : DataFrame) (lat lon : float)
  (start_year end_year : Z) (code : list cell) :
  numeric_column df "radiation" ->
  numeric_column df "max_temp" ->
  numeric_column df "min_temp" ->
  numeric_column df "daily_rain" ->
  numeric_column df "evap_pan" ->
  numeric_column df "vp" ->
  get_column "code" df = Some code ->
  exists text,
    export_to_met float_repr extraction_date df lat lon start_year end_year
    = inr (generate_filename lat lon start_year end_year "met", text).
Proof.
  intros Hr Hx Hn Hl He Hv Hc.
  destruct (statistics_of_numbers df Hx Hn) as (tav & amp & Ht & Ha).
  unfold export_to_met. rewrite Ht, Ha. cbn [bind].
  destruct He as (evap & Hev & Nev).
  set (df1 := calculate_day_of_year df).
  assert (Hday : forall name, name <> "day" -> get_column name df1 = get_column name df).
  { intros name Hne. unfold df1, calculate_day_of_year, get_column, set_column.
    cbn [columns]. apply lookup_column_assign_other. exact Hne. }
  assert (Hev1 : get_column "evap_pan" df1 = Some evap)
    by (rewrite Hday by discriminate; exact Hev).
  pose proof (shift_evaporation_inr df1 evap Hev1) as Hs.
  rewrite Hs. cbn [bind].
  set (df2 := set_column "evap_pan" (ffill (shift_up evap)) df1) in *.
  assert (Hsh : forall name, name <> "evap_pan" -> get_column name df2 = get_column name df1).
  { intros name Hne. unfold df2, get_column, set_column. cbn [columns].
    apply lookup_column_assign_other. exact Hne. }
  assert (Hkeep : forall name, name <> "day" -> name <> "evap_pan" ->
                  numeric_column df name -> numeric_column (row_values df2) name).
  { intros name H1 H2 H. apply numeric_column_row_values.
    revert H. apply numeric_column_after.
    rewrite Hsh, Hday by assumption. reflexivity. }
  assert (Hev2 : numeric_column (row_values df2) "evap_pan").
  { apply numeric_column_row_values.
    exists (ffill (shift_up evap)). split; [| apply shifted_numbers; exact Nev].
    unfold df2, get_column, set_column. cbn [columns]. apply lookup_column_assign_same. }
  assert (Hd2 : get_column "day" df2
                = Some (map (fun d => Int (Calendar.dayofyear d)) (index df))).
  { rewrite Hsh by discriminate. unfold df1, calculate_day_of_year, get_column, set_column.
    cbn [columns]. apply lookup_column_assign_same. }
  assert (Hc2 : get_column "code" df2 = Some code)
    by (rewrite Hsh, Hday by discriminate; exact Hc).
  change (index df2) with (index df).
  destruct (met_rows_total (row_values df2) (index df) 0) as [lines ->];
    [| cbn [bind]; eexists; reflexivity].
  intros k date Hk. cbn [Nat.add]. unfold met_row.
  destruct (row_cell (row_values df2) k "day") as [e | cd] eqn:Ecd.
  { unfold row_cell in Ecd. rewrite get_column_row_values, Hd2 in Ecd.
    discriminate Ecd. }
  cbn [bind]. rewrite (day_of_shifted_row df df2 k date cd Hs Hk Ecd). cbn [bind].
  destruct (numeric_field_total (row_values df2) k "radiation") as (c1 & t1 & E1 & F1);
    [apply Hkeep; [discriminate | discriminate | exact Hr] |].
  rewrite E1. cbn [bind]. rewrite F1. cbn [bind].
  destruct (numeric_field_total (row_values df2) k "max_temp") as (c2 & t2 & E2 & F2);
    [apply Hkeep; [discriminate | discriminate | exact Hx] |].
  rewrite E2. cbn [bind]. rewrite F2. cbn [bind].
  destruct (numeric_field_total (row_values df2) k "min_temp") as (c3 & t3 & E3 & F3);
    [apply Hkeep; [discriminate | discriminate | exact Hn] |].
  rewrite E3. cbn [bind]. rewrite F3. cbn [bind].
  destruct (numeric_field_total (row_values df2) k "daily_rain") as (c4 & t4 & E4 & F4);
    [apply Hkeep; [discriminate | discriminate | exact Hl] |].
  rewrite E4. cbn [bind]. rewrite F4. cbn [bind].
  destruct (numeric_field_total (row_values df2) k "evap_pan") as (c5 & t5 & E5 & F5);
    [exact Hev2 |].
  rewrite E5. cbn [bind]. rewrite F5. cbn [bind].
  destruct (numeric_field_total (row_values df2) k "vp") as (c6 & t6 & E6 & F6);
    [apply Hkeep; [discriminate | discriminate | exact Hv] |].
  rewrite E6. cbn [bind]. rewrite F6. cbn [bind].
  unfold row_cell. rewrite get_column_row_values, Hc2. unfold ret.
  cbn [option_map bind]. eexists. reflexivity.
Qed.

(** X18.  [export_to_met] writes the file for every series that has the
    six columns it prints with numbers or nulls in them and a [code]
    column: nothing in such a series makes it fail, nulls included. *)
Theorem export_to_met_succeeds_on_numbers
  (extraction_date : string) (df : DataFrame) (lat lon : float)
  (start_year end_year : Z) (code : list cell) :
  numeric_column df "radiation" ->
  numeric_column df "max_temp" ->
  numeric_column df "min_temp" ->
  numeric_column df "daily_rain" ->
  numeric_column df "evap_pan" ->
  numeric_column df "vp" ->
  get_column "code" df = Some code ->
  exists text,
    export_to_met float_repr extraction_date df lat lon start_year end_year
    = inr (generate_filename lat lon start_year end_year "met", text).
Proof. apply met_file_of_numbers. Qed.

End MetFile.

Lemma export_to_met_succeeds_on_numbers_witness :
  numeric_column null_day_series "radiation"
  /\ numeric_column null_day_series "max_temp"
  /\ numeric_column null_day_series "min_temp"
  /\ numeric_column null_day_series "daily_rain"
  /\ numeric_column null_day_series "evap_pan"
  /\ numeric_column null_day_series "vp"
  /\ get_column "code" null_day_series = Some [NaN]
  /\ exists text,
       export_to_met Fixtures.float_repr "01/01/2026" null_day_series
         (-31.75)%float (117.6)%float 2000 2000
       = inr (generate_filename (-31.75)%float (117.6)%float 2000 2000 "met", text).
Proof.
  assert (N : forall name, In name ["radiation"; "max_temp"; "min_temp";
                                    "daily_rain"; "evap_pan"; "vp"] ->
              numeric_column null_day_series name).
  { intros name H. cbn [In] in H.
    repeat (destruct H as [<- | H];
            [exists [NaN]; split; [reflexivity | repeat constructor] |]).
    destruct H. }
  assert (C : get_column "code" null_day_series = Some [NaN]) by reflexivity.
  repeat (split; [apply N; cbn; tauto |]). split; [exact C |].
  apply (export_to_met_succeeds_on_numbers Fixtures.float_repr "01/01/2026"
           null_day_series _ _ _ _ [NaN]); try (apply N; cbn; tauto); exact C.
Defined.

(** ** From the raw table to the file *)

Section Pipeline.

Import Resolve.

Variable float_repr : float -> string.

Lemma replace_cell_number (c : cell) :
  is_number c = true -> is_number (replace_cell c) = true.
Proof.
  intros H. destruct (is_sentinel c) eqn:E.
  - rewrite (replace_cell_sentinel c E). reflexivity.
  - rewrite (replace_cell_other c E). exact H.
Qed.

Lemma replaced_numbers (data : list cell) :
  Forall (fun c => is_number c = true) data ->
  Forall (fun c => is_number c = true) (replace_missing_codes data).
Proof.
  intros H. rewrite replace_missing_codes_map. apply Forall_forall.
  intros c Hc. apply in_map_iff in Hc as (x & <- & Hx).
  apply replace_cell_number. exact (proj1 (Forall_forall _ _) H x Hx).
Qed.

Lemma reindexed_numbers (idx new_index : list Z) (col : list cell) :
  Forall (fun c => is_number c = true) col ->
  Forall (fun c => is_number c = true) (reindex_column idx new_index col).
Proof.
  intros H. unfold reindex_column. apply Forall_forall.
  intros c Hc. apply in_map_iff in Hc as (d & <- & _).
  destruct (index_of d idx); [apply nth_number; exact H | reflexivity].
Qed.

Lemma normalized_variable_numbers
  (df : DataFrame) (format : string) (out : DataFrame) (v : string) :
  extract_variables float_repr df format = inr out ->
  (forall data, resolved df (candidates (mapping_for format) v) data ->
     Forall (fun c => is_number c = true) data) ->
  In v REQUIRED_VARIABLES ->
  numeric_column out v.
Proof.
  intros H Hnum Hv.
  destruct (extract_variables_inr float_repr df format out H)
    as (datas & code & Hall & _ & Hout).
  destruct (normalized_columns_variable _ datas code v Hall Hv)
    as (data & Hres & Hlook).
  pose proof (replaced_numbers data (Hnum data Hres)) as Hn.
  destruct Hout as [[_ ->] | (_ & _ & ->)]; unfold numeric_column, get_column;
    cbn [columns].
  - eexists. split; [exact Hlook | exact Hn].
  - rewrite lookup_column_map, Hlook. cbn [option_map].
    eexists. split; [reflexivity | apply reindexed_numbers; exact Hn].
Qed.

Lemma normalized_code_column
  (df : DataFrame) (format : string) (out : DataFrame) :
  extract_variables float_repr df format = inr out ->
  exists code, get_column "code" out = Some code.
Proof.
  intros H.
  destruct (extract_variables_inr float_repr df format out H)
    as (datas & code & Hall & _ & Hout).
  assert (Hlen : List.length datas = List.length REQUIRED_VARIABLES)
    by (symmetry; eapply Forall2_length; exact Hall).
  pose proof (normalized_columns_code datas code Hlen) as Hlook.
  destruct Hout as [[_ ->] | (_ & _ & ->)]; unfold get_column; cbn [columns].
  - eauto.
  - rewrite lookup_column_map, Hlook. cbn [option_map]. eauto.
Qed.

(** X19.  The normalizer and the agronomic emitter compose: when the
    columns that the variables resolve to hold numbers or nulls, every
    series that [extract_variables] returns is written by [export_to_met]
    without a failure, whatever gaps and sentinels the raw table had. *)
Theorem normalized_series_is_exported
  (extraction_date : string) (df : DataFrame) (format : string) (out : DataFrame)
  (lat lon : float) (start_year end_year : Z) :
  extract_variables float_repr df format = inr out ->
  (forall v data, In v REQUIRED_VARIABLES ->
     resolved df (candidates (mapping_for format) v) data ->
     Forall (fun c => is_number c = true) data) ->
  exists text,
    export_to_met float_repr extraction_date out lat lon start_year end_year
    = inr (generate_filename lat lon start_year end_year "met", text).
Proof.
  intros H Hnum.
  assert (Hcol : forall v, In v REQUIRED_VARIABLES -> numeric_column out v).
  { intros v Hv. apply (normalized_variable_numbers df format out v H); [| exact Hv].
    intros data. apply Hnum. exact Hv. }
  destruct (normalized_code_column df format out H) as [code Hcode].
  apply (met_file_of_numbers float_repr extraction_date out lat lon
           start_year end_year code); try (apply Hcol; cbn; tauto); exact Hcode.
Qed.

Lemma append_empty_r (s : string) : s ++ "" = s.
Proof. induction s as [| c s IH]; simpl; [reflexivity | rewrite IH; reflexivity]. Qed.

(** X20.  [export_to_met] fails before it formats anything when a
    temperature column is absent (the [ValueError] of the statistics), and
    then when [evap_pan] is absent (the [ValueError] of the shift); on a
    series without rows that has these columns, the text is the preamble
    alone. *)
Theorem export_to_met_failures
  (extraction_date : string) (df : DataFrame) (lat lon : float)
  (start_year end_year : Z) :
  let run := export_to_met float_repr extraction_date df lat lon
               start_year end_year in
  (has_column "max_temp" df = false \/ has_column "min_temp" df = false ->
   run = inl (ValueError "DataFrame must contain max_temp and min_temp columns"))
  /\ (forall tav amp,
        calculate_tav df = inr tav -> calculate_amp df = inr amp ->
        (has_column "evap_pan" df = false ->
         run = inl (ValueError "DataFrame must contain evap_pan column"))
        /\ (has_column "evap_pan" df = true -> index df = [] ->
            run = inr (generate_filename lat lon start_year end_year "met",
                       met_header lat lon tav amp start_year extraction_date))).
Proof.
  intros run. subst run. unfold export_to_met. split.
  - intros H. unfold calculate_tav.
    destruct H as [-> | ->]; [reflexivity | rewrite orb_true_r; reflexivity].
  - intros tav amp -> ->. cbn [bind].
    assert (Hsame : has_column "evap_pan" (calculate_day_of_year df)
                    = has_column "evap_pan" df).
    { destruct (has_column "evap_pan" df) eqn:E.
      - apply has_column_lookup in E as [c Hc]. apply has_column_lookup. exists c.
        unfold calculate_day_of_year, get_column, set_column. cbn [columns].
        rewrite lookup_column_assign_other by discriminate. exact Hc.
      - destruct (has_column "evap_pan" (calculate_day_of_year df)) eqn:E'; [| reflexivity].
        apply has_column_lookup in E' as [c Hc].
        unfold calculate_day_of_year, get_column, set_column in Hc. cbn [columns] in Hc.
        rewrite lookup_column_assign_other in Hc by discriminate.
        assert (has_column "evap_pan" df = true) by (apply has_column_lookup; eauto).
        congruence. }
    split.
    + intros Hno. unfold shift_evaporation. rewrite Hsame, Hno. reflexivity.
    + intros Hyes Hempty.
      rewrite <- Hsame in Hyes. apply has_column_lookup in Hyes as [evap Hev].
      rewrite (shift_evaporation_inr _ evap Hev). cbn [bind set_column index].
      change (index (calculate_day_of_year df)) with (index df). rewrite Hempty.
      cbn [met_rows]. unfold ret. cbn [bind String.concat].
      rewrite append_empty_r. reflexivity.
Qed.

End Pipeline.

Lemma normalized_series_is_exported_witness :
  extract_variables Fixtures.float_repr sentinel_table "fao56" = inr sentinel_series
  /\ exists text,
       export_to_met Fixtures.float_repr "01/01/2026" sentinel_series
         (-31.75)%float (117.6)%float 2000 2000
       = inr (generate_filename (-31.75)%float (117.6)%float 2000 2000 "met", text).
Proof.
  assert (H : extract_variables Fixtures.float_repr sentinel_table "fao56"
              = inr sentinel_series) by (vm_compute; reflexivity).
  split; [exact H |].
  apply (normalized_series_is_exported Fixtures.float_repr "01/01/2026"
           sentinel_table "fao56" sentinel_series _ _ _ _ H).
  intros v data Hv (found & Hf & Hg).
  cbn [REQUIRED_VARIABLES In] in Hv.
  repeat (destruct Hv as [<- | Hv];
          [vm_compute in Hf; injection Hf as <-; vm_compute in Hg;
           injection Hg as <-; repeat constructor |]).
  destruct Hv.
Defined.

(** ** The CSV emitter *)

Section ExportCsv.

(** [export_df.to_csv(filepath, index=False)]: the text of a frame. *)
Variable to_csv : DataFrame -> string.

(** [export_df[name] = df[name]] for each name in turn. *)
Fixpoint copy_columns (df : DataFrame) (names : list string) (export_df : DataFrame)
  : Result DataFrame :=
  match names with
  | [] => ret export_df
  | name :: rest =>
      match get_column name df with
      | None => raise (KeyError name)
      | Some col => copy_columns df rest (set_column name col export_df)
      end
  end.

(** The columns that [export_to_csv] copies after [year]. *)
Definition csv_columns : list string :=
  [ "day"; "radiation"; "max_temp"; "min_temp"; "daily_rain"; "evap_pan";
    "vp"; "et_short_crop"; "code" ].

(** Lines 619-636 of [export_to_csv]: the frame handed to [to_csv]. *)
Definition export_frame (df : DataFrame) : Result DataFrame :=
  let df := calculate_day_of_year df in
  df <- shift_evaporation df ;;
  let export_df := mkDataFrame (index df) [] in
  let export_df :=
    set_column "year" (map (fun d => Int (Calendar.year d)) (index df)) export_df in
  copy_columns df csv_columns export_df.

(** [export_to_csv(df, lat, lon, start_year, end_year, output_dir)]: the
    name of the file under [output_dir] and the text written to it. *)
Definition export_to_csv (df : DataFrame) (lat lon : float)
  (start_year end_year : Z) : Result (string * string) :=
  export_df <- export_frame df ;;
  ret (generate_filename lat lon start_year end_year "csv", to_csv export_df).

Lemma copy_columns_inr (df : DataFrame) : forall names acc out,
  NoDup names ->
  (forall n, In n names -> ~ In n (map fst (columns acc))) ->
  copy_columns df names acc = inr out ->
  index out = index acc
  /\ exists cols,
       Forall2 (fun n c => get_column n df = Some c) names cols
       /\ columns out = (columns acc ++ combine names cols)%list.
Proof.
  induction names as [| n rest IH]; intros acc out Hnd Hfresh H.
  - injection H as <-. split; [reflexivity |].
    exists []. split; [constructor | simpl; rewrite app_nil_r; reflexivity].
  - cbn [copy_columns] in H.
    destruct (get_column n df) as [col |] eqn:Eg; [| discriminate].
    inversion Hnd as [| ? ? Hn Hrest]; subst.
    apply IH in H; [| exact Hrest |].
    + destruct H as [Hi (cols & Hall & Hcols)]. split; [exact Hi |].
      exists (col :: cols). split; [constructor; assumption |].
      rewrite Hcols. cbn [set_column columns].
      rewrite assign_column_fresh by (apply Hfresh; now left).
      rewrite <- app_assoc. reflexivity.
    + intros u Hu. cbn [set_column columns].
      rewrite assign_column_fresh by (apply Hfresh; now left).
      rewrite map_app, in_app_iff. cbn [map fst In].
      intros [Hin | [-> | []]]; [apply (Hfresh u); [now right | exact Hin] | tauto].
Qed.

Lemma copy_columns_inl (df : DataFrame) : forall names acc e,
  copy_columns df names acc = inl e ->
  exists name, In name names /\ get_column name df = None /\ e = KeyError name.
Proof.
  induction names as [| n rest IH]; intros acc e H; [discriminate |].
  cbn [copy_columns] in H. destruct (get_column n df) as [col |] eqn:Eg.
  - destruct (IH _ _ H) as (name & Hin & Hg & He). exists name.
    split; [now right | split; assumption].
  - injection H as <-. exists n. split; [now left | split; [exact Eg | reflexivity]].
Qed.

Lemma csv_columns_nodup : NoDup csv_columns.
Proof.
  unfold csv_columns.
  repeat (constructor; [cbn [In]; intuition discriminate |]).
  constructor.
Qed.

(** X21.  The frame that [export_to_csv] writes has the index of the
    series and ten columns in the order year, day, radiation, max_temp,
    min_temp, daily_rain, evap_pan, vp, et_short_crop, code.  The column
    [year] is the year of each date, [evap_pan] is the shifted column that
    the agronomic file prints, and the other columns are those of the
    series.  A failure is the [ValueError] of the shift or a [KeyError]
    that names a column the series lacks. *)
Theorem csv_frame_layout (df : DataFrame) :
  (forall export_df,
     export_frame df = inr export_df ->
     index export_df = index df
     /\ column_names export_df = "year" :: csv_columns
     /\ get_column "year" export_df
        = Some (map (fun d => Int (Calendar.year d)) (index df))
     /\ (exists shifted,
           shift_evaporation (calculate_day_of_year df) = inr shifted
           /\ forall name, In name csv_columns ->
                get_column name export_df = get_column name shifted)
     /\ (forall name, In name csv_columns -> name <> "day" -> name <> "evap_pan" ->
           get_column name export_df = get_column name df))
  /\ (forall e,
        export_frame df = inl e ->
        (e = ValueError "DataFrame must contain evap_pan column"
         /\ has_column "evap_pan" df = false)
        \/ exists name, In name csv_columns /\ name <> "day" /\ name <> "evap_pan"
                        /\ get_column name df = None /\ e = KeyError name).
Proof.
  assert (Hday : forall name, name <> "day" ->
            get_column name (calculate_day_of_year df) = get_column name df).
  { intros name Hne. unfold calculate_day_of_year, get_column, set_column.
    cbn [columns]. apply lookup_column_assign_other. exact Hne. }
  split.
  - intros export_df H. unfold export_frame in H.
    destruct (shift_evaporation (calculate_day_of_year df)) as [e | shifted] eqn:Es;
      [discriminate |].
    cbn [bind] in H.
    destruct (shift_evaporation_other_columns _ _ "day" Es) as [Hidx _].
    change (index (calculate_day_of_year df)) with (index df) in Hidx.
    apply copy_columns_inr in H;
      [| exact csv_columns_nodup
       | cbn [set_column columns assign_column map fst In csv_columns];
         intros n Hn; intuition (subst; discriminate)].
    destruct H as [Hi (cols & Hall & Hcols)].
    cbn [set_column index columns assign_column app] in Hi, Hcols.
    rewrite Hidx in Hi, Hcols.
    pose proof Hall as Hlen. apply Forall2_length in Hlen.
    unfold csv_columns in Hall, Hlen, Hcols.
    destruct cols as [| c1 [| c2 [| c3 [| c4 [| c5 [| c6 [| c7 [| c8 [| c9 [|]]]]]]]]]];
      try discriminate Hlen.
    repeat match goal with
           | H : Forall2 _ (_ :: _) _ |- _ => inversion H; subst; clear H
           | H : Forall2 _ [] _ |- _ => clear H
           end.
    cbn [combine] in Hcols.
    split; [exact Hi |].
    split; [unfold column_names; rewrite Hcols; reflexivity |].
    split; [unfold get_column; rewrite Hcols; reflexivity |].
    assert (Hsame : forall name, In name csv_columns ->
                    get_column name export_df = get_column name shifted).
    { intros name Hin. unfold get_column at 1. rewrite Hcols.
      cbn [csv_columns In] in Hin.
      repeat (destruct Hin as [<- | Hin]; [cbn; congruence |]). destruct Hin. }
    split; [exists shifted; split; [reflexivity | exact Hsame] |].
    intros name Hin Hd He. rewrite (Hsame name Hin).
    rewrite (proj2 (shift_evaporation_other_columns _ _ name Es) He).
    apply Hday. exact Hd.
  - intros e H. unfold export_frame in H.
    destruct (shift_evaporation (calculate_day_of_year df)) as [e0 | shifted] eqn:Es.
    + left. injection H as <-. unfold shift_evaporation in Es.
      destruct (has_column "evap_pan" (calculate_day_of_year df)) eqn:Eh.
      * apply has_column_lookup in Eh as [evap Hev]. rewrite Hev in Es.
        cbn [negb] in Es. destruct (existsb isna _); discriminate.
      * injection Es as <-. split; [reflexivity |].
        destruct (has_column "evap_pan" df) eqn:E; [| reflexivity].
        apply has_column_lookup in E as [c Hc].
        assert (has_column "evap_pan" (calculate_day_of_year df) = true).
        { apply has_column_lookup. exists c. rewrite Hday by discriminate. exact Hc. }
        congruence.
    + right. cbn [bind] in H. apply copy_columns_inl in H as (name & Hin & Hg & ->).
      assert (Hnd : name <> "day").
      { intros ->. rewrite (proj2 (shift_evaporation_other_columns _ _ "day" Es))
          in Hg by discriminate.
        unfold calculate_day_of_year, get_column, set_column in Hg. cbn [columns] in Hg.
        rewrite lookup_column_assign_same in Hg. discriminate. }
      assert (Hne : name <> "evap_pan").
      { intros ->. destruct (get_column "evap_pan" (calculate_day_of_year df))
          as [evap |] eqn:Ev.
        - rewrite (shift_evaporation_inr _ evap Ev) in Es. injection Es as <-.
          unfold get_column, set_column in Hg. cbn [columns] in Hg.
          rewrite lookup_column_assign_same in Hg. discriminate.
        - unfold shift_evaporation in Es.
          destruct (has_column "evap_pan" (calculate_day_of_year df)) eqn:Eh;
            [| discriminate].
          apply has_column_lookup in Eh as [x Hx]. congruence. }
      exists name. split; [exact Hin |]. split; [exact Hnd |]. split; [exact Hne |].
      split; [| reflexivity].
      rewrite (proj2 (shift_evaporation_other_columns _ _ name Es) Hne) in Hg.
      rewrite Hday in Hg by exact Hnd. exact Hg.
Qed.

End ExportCsv.

Lemma parse_silo_response_errors_witness :
  parse_silo_response (fun _ => inl "No columns to parse from file") (fun col => col)
    Fixtures.strptime_ymd Fixtures.to_datetime_infer iso_date_text "fao56"
  = inl (SILOAPIError
           "Failed to parse SILO CSV response: No columns to parse from file")
  /\ exists idx msg,
       Boundary.find_data_start
         (PyStr.split (ascii_of_nat 10) (PyStr.strip iso_date_text)) = inr idx
       /\ SILOAPIError
            "Failed to parse SILO CSV response: No columns to parse from file"
          = SILOAPIError ("Failed to parse SILO CSV response: " ++ msg).
Proof.
  assert (H : parse_silo_response (fun _ => inl "No columns to parse from file")
                (fun col => col) Fixtures.strptime_ymd Fixtures.to_datetime_infer
                iso_date_text "fao56"
              = inl (SILOAPIError
                       "Failed to parse SILO CSV response: No columns to parse from file"))
    by (vm_compute; reflexivity).
  split; [exact H |].
  destruct (parse_silo_response_errors _ _ _ _ _ _ _ H)
    as [[_ Hf] | [(idx & msg & Hf & _ & He) | [(idx & raw & _ & Hr & _) | He]]].
  - vm_compute in Hf. discriminate Hf.
  - exists idx, msg. split; [exact Hf | exact He].
  - discriminate Hr.
  - discriminate He.
Defined.
